(** * go-brave-search: a shallow embedding of the Brave Search client

    The Go package [bravesearch] is embedded function by function.  Go
    strings are byte strings ([string] of 8-bit [ascii]); Go [int] is [Z];
    [map[string][]string] ([url.Values], [http.Header]) is a
    [gmap string (list string)]; a pointer that may be [nil] is an
    [option]; the [error] interface is [option error].  The network, the
    context and the codecs of the standard library are oracles gathered in
    the record [World]; the calls a request makes are logged as a list of
    [Event]s. *)

From Stdlib Require Import ZArith List Bool Ascii String Lia.
From Stdlib Require Import Numbers.DecimalString.
From stdpp Require Import gmap strings list fin_maps sorting.
Import ListNotations.

Local Open Scope string_scope.
Local Open Scope Z_scope.

(** ** The parts of the Go standard library the package calls *)

(** [len(s)] *)
Definition len (s : string) : Z := Z.of_nat (String.length s).

Definition byte_of (c : ascii) : nat := nat_of_ascii c.

Definition byte_in (c : ascii) (lo hi : nat) : bool :=
  (Nat.leb lo (byte_of c) && Nat.leb (byte_of c) hi)%bool.

Definition byte_is (c : ascii) (n : nat) : bool := Nat.eqb (byte_of c) n.

(** [strings.HasPrefix], [strings.HasSuffix], [strings.Contains] *)
Definition strings_HasPrefix (s p : string) : bool := String.prefix p s.

Fixpoint strings_HasSuffix (s p : string) : bool :=
  (String.eqb s p ||
   match s with
   | EmptyString => false
   | String _ s' => strings_HasSuffix s' p
   end)%bool.

Fixpoint strings_Contains (s sub : string) : bool :=
  (String.prefix sub s ||
   match s with
   | EmptyString => false
   | String _ s' => strings_Contains s' sub
   end)%bool.

(** [unicode.IsSpace] on the UTF-8 encoding: the width in bytes of the
    white-space rune that starts [s], or [0] when [s] does not start with
    one.  The runes are TAB, LF, VT, FF, CR, SPACE, U+0085, U+00A0,
    U+1680, U+2000..U+200A, U+2028, U+2029, U+202F, U+205F and U+3000. *)
Definition spaceWidth (s : string) : nat :=
  match s with
  | EmptyString => 0%nat
  | String c0 r0 =>
      if (byte_in c0 9 13 || byte_is c0 32)%bool then 1%nat
      else
        match r0 with
        | EmptyString => 0%nat
        | String c1 r1 =>
            if (byte_is c0 194 && (byte_is c1 133 || byte_is c1 160))%bool
            then 2%nat
            else
              match r1 with
              | EmptyString => 0%nat
              | String c2 _ =>
                  if (byte_is c0 225 && byte_is c1 154 && byte_is c2 128)%bool
                  then 3%nat
                  else if (byte_is c0 226 && byte_is c1 128 &&
                           (byte_in c2 128 138 || byte_in c2 168 169 ||
                            byte_is c2 175))%bool
                  then 3%nat
                  else if (byte_is c0 226 && byte_is c1 129 && byte_is c2 159)%bool
                  then 3%nat
                  else if (byte_is c0 227 && byte_is c1 128 && byte_is c2 128)%bool
                  then 3%nat
                  else 0%nat
              end
        end
  end.

Definition flush (cur : string) : list string :=
  match cur with
  | EmptyString => []
  | _ => [cur]
  end.

(** [strings.Fields]: the maximal runs of bytes that are not part of a
    white-space rune.  [skip] counts the bytes still to drop from the
    white-space rune being read, [cur] is the field being collected. *)
Fixpoint fields_go (s : string) (skip : nat) (cur : string) : list string :=
  match s with
  | EmptyString => flush cur
  | String c s' =>
      match skip with
      | S k => fields_go s' k EmptyString
      | O =>
          match spaceWidth s with
          | O => fields_go s' O (cur ++ String c EmptyString)
          | S k => flush cur ++ fields_go s' k EmptyString
          end
      end
  end.

Definition strings_Fields (s : string) : list string := fields_go s 0 EmptyString.

(** [strings.TrimSpace] *)
Fixpoint trimLeft_go (s : string) (skip : nat) : string :=
  match s with
  | EmptyString => EmptyString
  | String c s' =>
      match skip with
      | S k => trimLeft_go s' k
      | O =>
          match spaceWidth s with
          | O => s
          | S k => trimLeft_go s' k
          end
      end
  end.

Definition trimLeft (s : string) : string := trimLeft_go s 0.

Fixpoint trimRight (s : string) : string :=
  match s with
  | EmptyString => EmptyString
  | String c s' =>
      if String.eqb (trimLeft s) EmptyString then EmptyString
      else String c (trimRight s')
  end.

Definition strings_TrimSpace (s : string) : string := trimRight (trimLeft s).

(** [strings.Split(s, sep)] for a one-byte separator. *)
Fixpoint strings_Split (s : string) (sep : ascii) : list string :=
  match s with
  | EmptyString => [EmptyString]
  | String c s' =>
      if Ascii.eqb c sep then EmptyString :: strings_Split s' sep
      else
        match strings_Split s' sep with
        | [] => [String c EmptyString]
        | t :: ts => String c t :: ts
        end
  end.

(** [strconv.Itoa], also what [fmt] prints for [%d], and [strconv.FormatBool] *)
Definition strconv_Itoa (n : Z) : string := NilZero.string_of_int (Z.to_int n).

Definition strconv_FormatBool (b : bool) : string := if b then "true" else "false".

(** [strconv.Atoi]: an optional sign and at least one decimal digit; a
    value outside the 64-bit [int] is an error. *)
Definition digit_of (c : ascii) : option Z :=
  if byte_in c 48 57 then Some (Z.of_nat (byte_of c) - 48) else None.

Fixpoint digits_go (s : string) (acc : Z) : option Z :=
  match s with
  | EmptyString => Some acc
  | String c s' =>
      match digit_of c with
      | Some d => digits_go s' (10 * acc + d)
      | None => None
      end
  end.

Definition MaxInt : Z := 2 ^ 63 - 1.
Definition MinInt : Z := - 2 ^ 63.

Definition strconv_Atoi (s : string) : option Z :=
  let '(neg, ds) :=
    match s with
    | String c r =>
        if byte_is c 43 then (false, r)
        else if byte_is c 45 then (true, r)
        else (false, s)
    | EmptyString => (false, s)
    end in
  match ds with
  | EmptyString => None
  | _ =>
      match digits_go ds 0 with
      | Some n =>
          let v := if neg then - n else n in
          if ((MinInt <=? v) && (v <=? MaxInt))%bool then Some v else None
      | None => None
      end
  end.

(** ** constants (the file that declares the package constants) *)

Definition BaseURL : string := "https://api.search.brave.com/res/v1".
Definition WebSearchEndpoint : string := "/web/search".

Definition SafeSearchOff : string := "off".
Definition SafeSearchModerate : string := "moderate".
Definition SafeSearchStrict : string := "strict".

Definition FreshnessDay : string := "pd".
Definition FreshnessWeek : string := "pw".
Definition FreshnessMonth : string := "pm".
Definition FreshnessYear : string := "py".

Definition DefaultCount : Z := 20.
Definition DefaultOffset : Z := 0.
Definition DefaultSafeSearch : string := SafeSearchModerate.
Definition DefaultCountry : string := "US".
Definition DefaultSearchLang : string := "en".
Definition DefaultUILang : string := "en-US".
Definition DefaultTimeout : Z := 30.
Definition DefaultMaxRetries : Z := 2.
Definition DefaultUserAgent : string := "go-brave-search/1.0".
Definition DefaultTextDecor : bool := true.
Definition DefaultSpellCheck : bool := true.

Definition HeaderAccept : string := "Accept".
Definition HeaderAcceptEncoding : string := "Accept-Encoding".
Definition HeaderUserAgent : string := "User-Agent".
Definition HeaderSubscriptionToken : string := "X-Subscription-Token".
Definition HeaderCacheControl : string := "Cache-Control".

Definition HeaderRateLimitLimit : string := "X-RateLimit-Limit".
Definition HeaderRateLimitRemaining : string := "X-RateLimit-Remaining".
Definition HeaderRateLimitReset : string := "X-RateLimit-Reset".

Definition MIMETypeJSON : string := "application/json".
Definition MIMETypeGzip : string := "gzip".

Definition ResultFilterNews : string := "news".
Definition ResultFilterVideos : string := "videos".
Definition UnitMetric : string := "metric".
Definition UnitImperial : string := "imperial".

(** [net/http] status codes and [time] units (a [time.Duration] counts
    nanoseconds in an [int64]) *)
Definition StatusOK : Z := 200.
Definition StatusUnauthorized : Z := 401.
Definition StatusForbidden : Z := 403.
Definition StatusNotFound : Z := 404.
Definition StatusTooManyRequests : Z := 429.

Definition Millisecond : Z := 1000000.
Definition Second : Z := 1000000000.

Definition wrap64 (z : Z) : Z := (z + 2 ^ 63) mod 2 ^ 64 - 2 ^ 63.

(** ** errors.go *)

(** The package-level error values; each [errors.New] is one identity. *)
Inductive sentinel : Type :=
| ErrMissingAPIKey
| ErrInvalidAPIKey
| ErrRateLimit
| ErrUnauthorized
| ErrForbidden
| ErrNotFound
| ErrServerError
| ErrInvalidResponse
| ErrInvalidParameters
| ErrQueryTooLong
| ErrEmptyQuery.

#[global] Instance sentinel_eq_dec : EqDecision sentinel.
Proof. solve_decision. Defined.

#[local] Set Warnings "-register-all".

(** A non-nil Go [error].  [ErrorString] is any error that is none of the
    package's values and has no [Unwrap] (an [errors.New] made elsewhere,
    [fmt.Errorf] without [%w]); [WrapError] is an error whose [Unwrap]
    gives [inner] ([fmt.Errorf] with [%w], the wrapping errors of the
    transport); [APIError] is a [*APIError]. *)
Inductive error : Type :=
| Sentinel (s : sentinel)
| ErrorString (msg : string)
| WrapError (msg : string) (inner : option error)
| APIError (StatusCode : Z) (Message : string) (Err : option error).

Coercion Sentinel : sentinel >-> error.

(** [errors.Is(err, target)] for a package-level [target]: walk the
    [Unwrap] chain and compare identities. *)
Fixpoint error_Is (err : error) (target : sentinel) : bool :=
  match err with
  | Sentinel s => bool_decide (s = target)
  | ErrorString _ => false
  | WrapError _ inner =>
      match inner with
      | Some e => error_Is e target
      | None => false
      end
  | APIError _ _ inner =>
      match inner with
      | Some e => error_Is e target
      | None => false
      end
  end.

Definition errors_Is (err : option error) (target : sentinel) : bool :=
  match err with
  | Some e => error_Is e target
  | None => false
  end.

(** [errors.As(err, &apiErr)]: the first [*APIError] of the chain, as its
    fields [(StatusCode, Message, Err)]. *)
Fixpoint error_As (err : error) : option (Z * string * option error) :=
  match err with
  | Sentinel _ => None
  | ErrorString _ => None
  | WrapError _ inner =>
      match inner with
      | Some e => error_As e
      | None => None
      end
  | APIError sc msg inner => Some (sc, msg, inner)
  end.

Definition errors_As (err : option error) : option (Z * string * option error) :=
  match err with
  | Some e => error_As e
  | None => None
  end.

(** The [Unwrap] method *)
Definition Unwrap (e : error) : option error :=
  match e with
  | APIError _ _ inner => inner
  | WrapError _ inner => inner
  | _ => None
  end.

(** [NewAPIError] *)
Definition NewAPIError (statusCode : Z) (message : string) (err : option error) : error :=
  APIError statusCode message err.

(** ** [net/http] messages *)

Abbreviation Header := (gmap string (list string)).

Definition validHeaderFieldByte (c : ascii) : bool :=
  (byte_in c 48 57 || byte_in c 65 90 || byte_in c 97 122 ||
   existsb (Ascii.eqb c)
     (list_ascii_of_string "!#$%&'*+-.^_`|~"))%bool.

Fixpoint canon_go (s : string) (upper : bool) : string :=
  match s with
  | EmptyString => EmptyString
  | String c s' =>
      let c' :=
        if (upper && byte_in c 97 122)%bool then ascii_of_nat (byte_of c - 32)
        else if (negb upper && byte_in c 65 90)%bool then ascii_of_nat (byte_of c + 32)
        else c in
      String c' (canon_go s' (byte_is c' 45))
  end.

(** [textproto.CanonicalMIMEHeaderKey]: a key with a byte that cannot be
    part of a header name is left as it is. *)
Definition CanonicalMIMEHeaderKey (s : string) : string :=
  if forallb validHeaderFieldByte (list_ascii_of_string s) then canon_go s true else s.

(** [Header.Get] and [Header.Set] *)
Definition Header_Get (h : Header) (key : string) : string :=
  match h !! CanonicalMIMEHeaderKey key with
  | Some (v :: _) => v
  | _ => EmptyString
  end.

Definition Header_Set (h : Header) (key value : string) : Header :=
  <[CanonicalMIMEHeaderKey key := [value]]> h.

(** What reading a body to its end gives: the bytes and the read error. *)
Record BodyStream : Type := mkBody {
  body_data : string;
  body_err : option error
}.

Record Response : Type := mkResponse {
  StatusCode : Z;
  Status : string;
  RespHeader : Header;
  Body : BodyStream
}.

(** A request, as [http.NewRequestWithContext] makes it.  [ReqBody] is the
    buffer the request was made over, [None] for a [nil] body: a transport
    reads from it, so what is left in it for a later attempt with the same
    request is for the transport to say, which is told the number of the
    attempt. *)
Record Request : Type := mkRequest {
  Method : string;
  URL : string;
  ReqHeader : Header;
  ReqBody : option string
}.

(** [NewHTTPError] *)
Definition NewHTTPError (resp : Response) : error :=
  let sc := StatusCode resp in
  let err : error :=
    if sc =? StatusUnauthorized then Sentinel ErrUnauthorized
    else if sc =? StatusForbidden then Sentinel ErrForbidden
    else if sc =? StatusNotFound then Sentinel ErrNotFound
    else if sc =? StatusTooManyRequests then Sentinel ErrRateLimit
    else if 500 <=? sc then Sentinel ErrServerError
    else ErrorString ("unexpected status code: " ++ strconv_Itoa sc) in
  APIError sc (Status resp) (Some err).

(** [IsRateLimitError], [IsAuthError], [IsServerError] *)
Definition IsRateLimitError (err : option error) : bool :=
  match errors_As err with
  | Some (sc, _, inner) =>
      (errors_Is inner ErrRateLimit || (sc =? StatusTooManyRequests))%bool
  | None => errors_Is err ErrRateLimit
  end.

Definition IsAuthError (err : option error) : bool :=
  match errors_As err with
  | Some (sc, _, inner) =>
      (errors_Is inner ErrUnauthorized || errors_Is inner ErrInvalidAPIKey ||
       (sc =? StatusUnauthorized))%bool
  | None => (errors_Is err ErrUnauthorized || errors_Is err ErrInvalidAPIKey)%bool
  end.

Definition IsServerError (err : option error) : bool :=
  match errors_As err with
  | Some (sc, _, inner) => (errors_Is inner ErrServerError || (500 <=? sc))%bool
  | None => errors_Is err ErrServerError
  end.

(** ** The request and response types *)

(** A Go slice: [nil], or a (possibly empty) backing sequence. *)
Inductive slice (A : Type) : Type :=
| nil_slice
| Slice (elems : list A).
Arguments nil_slice {A}.
Arguments Slice {A} elems.

Definition slice_elems {A : Type} (s : slice A) : list A :=
  match s with
  | nil_slice => []
  | Slice l => l
  end.

(** [len(s)] of a slice *)
Definition slice_len {A : Type} (s : slice A) : Z := Z.of_nat (length (slice_elems s)).

Definition slice_is_nil {A : Type} (s : slice A) : bool :=
  match s with
  | nil_slice => true
  | Slice _ => false
  end.

(** [http.Client]: its timeout and its transport ([None] is the default
    transport).  A transport answers the [n]-th call of [Do] with a
    response, or with an error and possibly a response. *)
Inductive DoResult : Type :=
| DoResp (resp : Response)
| DoErr (err : error) (resp : option Response).

Definition RoundTripper : Type := Request -> nat -> DoResult.

Record HttpClient : Type := mkHttpClient {
  hc_Timeout : Z;
  hc_Transport : option RoundTripper
}.

Record ClientConfig : Type := mkClientConfig {
  cfg_APIKey : string;
  cfg_BaseURL : string;
  cfg_Timeout : Z;
  cfg_MaxRetries : Z;
  cfg_UserAgent : string;
  cfg_DefaultCountry : string;
  cfg_DefaultSearchLang : string;
  cfg_DefaultUILang : string;
  cfg_HTTPClient : option HttpClient
}.

(** [Config] of config.go *)
Record Config : Type := mkConfig {
  conf_APIKey : string;
  conf_BaseURL : string;
  conf_HTTPClient : option HttpClient;
  conf_Timeout : Z;
  conf_MaxRetries : Z;
  conf_UserAgent : string;
  conf_DefaultCountry : string;
  conf_DefaultSearchLang : string;
  conf_DefaultUILang : string
}.

Record WebSearchParams : Type := mkWebSearchParams {
  p_Query : string;
  p_Country : string;
  p_SearchLang : string;
  p_UILang : string;
  p_Count : Z;
  p_Offset : Z;
  p_SafeSearch : string;
  p_Freshness : string;
  p_TextDecorations : bool;
  p_Spellcheck : bool;
  p_ResultFilter : string;
  p_Goggles : string;
  p_Units : string;
  p_ExtraSnippets : bool;
  p_Summary : bool
}.

(** The zero value [WebSearchParams{}] *)
Definition zeroWebSearchParams : WebSearchParams :=
  mkWebSearchParams "" "" "" "" 0 0 "" "" false false "" "" "" false false.

Record Profile : Type := mkProfile {
  profile_Name : string;
  profile_URL : string;
  profile_LongName : string;
  profile_Img : string
}.

Record ButtonResult : Type := mkButtonResult {
  button_Type : string;
  button_Title : string;
  button_URL : string
}.

Record MetaURL : Type := mkMetaURL {
  meta_Scheme : string;
  meta_Netloc : string;
  meta_Hostname : string;
  meta_Favicon : string;
  meta_Path : string
}.

Record Thumbnail : Type := mkThumbnail {
  thumb_Src : string;
  thumb_Original : string;
  thumb_Logo : bool
}.

Record SearchResult : Type := mkSearchResult {
  sr_Title : string;
  sr_URL : string;
  sr_IsSourceLocal : bool;
  sr_IsSourceBoth : bool;
  sr_Description : string;
  sr_PageAge : string;
  sr_PageFetched : string;
  sr_Profile : option Profile;
  sr_Language : string;
  sr_FamilyFriendly : bool;
  sr_Type : string;
  sr_Subtype : string;
  sr_IsLive : bool;
  sr_DeepResults : option (slice ButtonResult);
  sr_MetaURL : option MetaURL;
  sr_Thumbnail : option Thumbnail;
  sr_Age : string
}.

Record Search : Type := mkSearch {
  web_Type : string;
  web_Results : slice SearchResult;
  web_FamilyFriendly : bool
}.

Record Query : Type := mkQuery {
  q_Original : string;
  q_Altered : string;
  q_ShowStrictWarning : bool;
  q_IsNavigational : bool;
  q_IsNewsBreaking : bool;
  q_SpellcheckOff : bool;
  q_Country : string;
  q_BadResults : bool;
  q_ShouldFallback : bool;
  q_PostalCode : string;
  q_City : string;
  q_HeaderCountry : string;
  q_MoreResultsAvailable : bool;
  q_State : string
}.

(** The sections the package does not model ([Discussions], [FAQ],
    [GraphInfobox], [Locations], [News], [Videos], [Summarizer],
    [MixedResponse]): a type tag and the undecoded payload. *)
Record Untyped : Type := mkUntyped {
  untyped_Type : string;
  untyped_payload : string
}.

Record WebSearchResponse : Type := mkWebSearchResponse {
  r_Type : string;
  r_Discussions : option Untyped;
  r_FAQ : option Untyped;
  r_Infobox : option Untyped;
  r_Locations : option Untyped;
  r_Mixed : option Untyped;
  r_News : option Untyped;
  r_Query : option Query;
  r_Videos : option Untyped;
  r_Web : option Search;
  r_Summarizer : option Untyped
}.

Record RateLimit : Type := mkRateLimit {
  Limit : Z;
  Remaining : Z;
  Reset : Z
}.

Record Client : Type := mkClient {
  config : ClientConfig;
  http : HttpClient
}.

(** ** The response accessors; the receiver is a pointer, [None] is [nil] *)

Definition GetWebResults (r : option WebSearchResponse) : slice SearchResult :=
  match r with
  | None => Slice []
  | Some r =>
      match r_Web r with
      | None => Slice []
      | Some web => web_Results web
      end
  end.

Definition HasMoreResults (r : option WebSearchResponse) : bool :=
  match r with
  | None => false
  | Some r =>
      match r_Query r with
      | None => false
      | Some q => q_MoreResultsAvailable q
      end
  end.

Definition GetResultCount (r : option WebSearchResponse) : Z :=
  match r with
  | None => 0
  | Some r =>
      match r_Web r with
      | None => 0
      | Some web => slice_len (web_Results web)
      end
  end.

Definition GetFirstResult (r : option WebSearchResponse) : option SearchResult :=
  match r with
  | None => None
  | Some r =>
      match r_Web r with
      | None => None
      | Some web =>
          if slice_len (web_Results web) =? 0 then None
          else head (slice_elems (web_Results web))
      end
  end.

Definition IsWebResultEmpty (r : option WebSearchResponse) : bool :=
  match r with
  | None => true
  | Some r =>
      match r_Web r with
      | None => true
      | Some web => slice_len (web_Results web) =? 0
      end
  end.

(** ** options.go and config.go

    A [ClientOption] is a Go closure [func(c *ClientConfig) error]: it may
    write the draft configuration, report an error, and have effects of
    its own, which are kept in a state of type [S]. *)

(** The default configuration [NewClient] starts from. *)
Definition defaultClientConfig (apiKey : string) : ClientConfig :=
  mkClientConfig apiKey BaseURL (wrap64 (DefaultTimeout * Second))
    DefaultMaxRetries DefaultUserAgent DefaultCountry DefaultSearchLang
    DefaultUILang None.

Section Options.

Context {S : Type}.

Definition ClientOption : Type := ClientConfig -> S -> ClientConfig * S * option error.

(** An option of this package: no effect besides the configuration. *)
Definition configOption (f : ClientConfig -> ClientConfig * option error) : ClientOption :=
  fun c s => let '(c', e) := f c in (c', s, e).

Definition WithTimeout (seconds : Z) : ClientOption :=
  configOption (fun c =>
    (mkClientConfig (cfg_APIKey c) (cfg_BaseURL c) (wrap64 (wrap64 seconds * Second))
       (cfg_MaxRetries c) (cfg_UserAgent c) (cfg_DefaultCountry c)
       (cfg_DefaultSearchLang c) (cfg_DefaultUILang c) (cfg_HTTPClient c), None)).

Definition WithRetries (retries : Z) : ClientOption :=
  configOption (fun c =>
    if retries <? 0 then (c, Some (Sentinel ErrInvalidParameters))
    else
      (mkClientConfig (cfg_APIKey c) (cfg_BaseURL c) (cfg_Timeout c)
         retries (cfg_UserAgent c) (cfg_DefaultCountry c)
         (cfg_DefaultSearchLang c) (cfg_DefaultUILang c) (cfg_HTTPClient c), None)).

Definition WithUserAgent (userAgent : string) : ClientOption :=
  configOption (fun c =>
    (mkClientConfig (cfg_APIKey c) (cfg_BaseURL c) (cfg_Timeout c)
       (cfg_MaxRetries c) userAgent (cfg_DefaultCountry c)
       (cfg_DefaultSearchLang c) (cfg_DefaultUILang c) (cfg_HTTPClient c), None)).

Definition WithBaseURL (baseURL : string) : ClientOption :=
  configOption (fun c =>
    (mkClientConfig (cfg_APIKey c) baseURL (cfg_Timeout c)
       (cfg_MaxRetries c) (cfg_UserAgent c) (cfg_DefaultCountry c)
       (cfg_DefaultSearchLang c) (cfg_DefaultUILang c) (cfg_HTTPClient c), None)).

Definition WithHTTPClient (client : option HttpClient) : ClientOption :=
  configOption (fun c =>
    (mkClientConfig (cfg_APIKey c) (cfg_BaseURL c) (cfg_Timeout c)
       (cfg_MaxRetries c) (cfg_UserAgent c) (cfg_DefaultCountry c)
       (cfg_DefaultSearchLang c) (cfg_DefaultUILang c) client, None)).

Definition WithDefaultCountry (country : string) : ClientOption :=
  configOption (fun c =>
    (mkClientConfig (cfg_APIKey c) (cfg_BaseURL c) (cfg_Timeout c)
       (cfg_MaxRetries c) (cfg_UserAgent c) country
       (cfg_DefaultSearchLang c) (cfg_DefaultUILang c) (cfg_HTTPClient c), None)).

Definition WithDefaultSearchLanguage (lang : string) : ClientOption :=
  configOption (fun c =>
    (mkClientConfig (cfg_APIKey c) (cfg_BaseURL c) (cfg_Timeout c)
       (cfg_MaxRetries c) (cfg_UserAgent c) (cfg_DefaultCountry c)
       lang (cfg_DefaultUILang c) (cfg_HTTPClient c), None)).

Definition WithDefaultUILanguage (lang : string) : ClientOption :=
  configOption (fun c =>
    (mkClientConfig (cfg_APIKey c) (cfg_BaseURL c) (cfg_Timeout c)
       (cfg_MaxRetries c) (cfg_UserAgent c) (cfg_DefaultCountry c)
       (cfg_DefaultSearchLang c) lang (cfg_HTTPClient c), None)).

(** [WithConfig]: the fields of [config] that are set overwrite the draft. *)
Definition WithConfig (config : option Config) : ClientOption :=
  configOption (fun c =>
    match config with
    | None => (c, None)
    | Some k =>
        let nonempty (new old : string) := if String.eqb new "" then old else new in
        (mkClientConfig
           (nonempty (conf_APIKey k) (cfg_APIKey c))
           (nonempty (conf_BaseURL k) (cfg_BaseURL c))
           (if 0 <? conf_Timeout k then conf_Timeout k else cfg_Timeout c)
           (if 0 <=? conf_MaxRetries k then conf_MaxRetries k else cfg_MaxRetries c)
           (nonempty (conf_UserAgent k) (cfg_UserAgent c))
           (nonempty (conf_DefaultCountry k) (cfg_DefaultCountry c))
           (nonempty (conf_DefaultSearchLang k) (cfg_DefaultSearchLang c))
           (nonempty (conf_DefaultUILang k) (cfg_DefaultUILang c))
           (match conf_HTTPClient k with
            | Some h => Some h
            | None => cfg_HTTPClient c
            end), None)
    end).

(** [applyOptions]: the [for range] loop over the options. *)
Fixpoint applyOptions (config : ClientConfig) (options : list ClientOption) (s : S)
  : ClientConfig * S * option error :=
  match options with
  | [] => (config, s, None)
  | option :: rest =>
      match option config s with
      | (config', s', Some err) => (config', s', Some err)
      | (config', s', None) => applyOptions config' rest s'
      end
  end.

(** [NewClient] *)
Definition NewClient (apiKey : string) (options : list ClientOption) (s : S)
  : option Client * option error * S :=
  if String.eqb apiKey "" then (None, Some (Sentinel ErrMissingAPIKey), s)
  else
    match applyOptions (defaultClientConfig apiKey) options s with
    | (_, s', Some err) => (None, Some err, s')
    | (config, s', None) =>
        let httpClient :=
          match cfg_HTTPClient config with
          | Some h => h
          | None => mkHttpClient (cfg_Timeout config) None
          end in
        (Some (mkClient config httpClient), None, s')
    end.

End Options.

Arguments ClientOption : clear implicits.

(** [NewDefaultConfig] and [ValidateConfig] of config.go *)
Definition NewDefaultConfig : Config :=
  mkConfig "" BaseURL None (wrap64 (DefaultTimeout * Second)) DefaultMaxRetries
    DefaultUserAgent DefaultCountry DefaultSearchLang DefaultUILang.

Definition ValidateConfig (config : ClientConfig) : option error :=
  if String.eqb (cfg_APIKey config) "" then Some (Sentinel ErrMissingAPIKey) else None.

(** ** [net/url]: [Values], [QueryEscape], [Values.Encode] *)

Abbreviation Values := (gmap string (list string)).

(** [Values.Add]: [v[key] = append(v[key], value)] *)
Definition Values_Add (v : Values) (key value : string) : Values :=
  <[key := (default [] (v !! key) ++ [value])%list]> v.

Definition hexDigit (n : nat) : ascii :=
  match String.get n "0123456789ABCDEF" with
  | Some c => c
  | None => "0"%char
  end.

(** [shouldEscape(c, encodeQueryComponent)] *)
Definition shouldEscape (c : ascii) : bool :=
  negb (byte_in c 97 122 || byte_in c 65 90 || byte_in c 48 57 ||
        existsb (Ascii.eqb c) (list_ascii_of_string "-_.~"))%bool.

Fixpoint QueryEscape (s : string) : string :=
  match s with
  | EmptyString => EmptyString
  | String c s' =>
      if byte_is c 32 then String "+"%char (QueryEscape s')
      else if shouldEscape c then
        String "%"%char
          (String (hexDigit (byte_of c / 16))
             (String (hexDigit (byte_of c mod 16)) (QueryEscape s')))
      else String c (QueryEscape s')
  end.

(** The order of [slices.Sort] on strings: byte-wise lexicographic. *)
Definition string_le (a b : string) : Prop := String.leb a b = true.

#[global] Instance string_le_dec (a b : string) : Decision (string_le a b).
Proof. unfold string_le. apply _. Defined.

(** The [key=value] items of [Values.Encode], in the order it writes them:
    keys sorted, the values of a key in the order they were added. *)
Definition Values_pairs (v : Values) : list (string * string) :=
  let keys := merge_sort string_le (map fst (map_to_list v)) in
  flat_map (fun k => map (fun x => (k, x)) (default [] (v !! k))) keys.

Definition Values_Encode (v : Values) : string :=
  String.concat "&"
    (map (fun kx => QueryEscape (fst kx) ++ "=" ++ QueryEscape (snd kx)) (Values_pairs v)).

(** ** brave_search.go *)

(** [buildRequestURL], first part: the base URL joined with the endpoint. *)
Definition requestBase (c : Client) (endpoint : string) : string :=
  let baseURL := cfg_BaseURL (config c) in
  let baseURL :=
    if (negb (strings_HasSuffix baseURL "/") && negb (strings_HasPrefix endpoint "/"))%bool
    then baseURL ++ "/"
    else baseURL in
  baseURL ++ endpoint.

(** [if cond { values.Add(key, value) }] *)
Definition addIf (cond : bool) (key value : string) (values : Values) : Values :=
  if cond then Values_Add values key value else values.

Definition nonEmpty (s : string) : bool := negb (String.eqb s "").

(** [buildRequestURL], second part: the query values. *)
Definition requestValues (params : WebSearchParams) : Values :=
  let values : Values := ∅ in
  let values := addIf (nonEmpty (p_Query params)) "q" (p_Query params) values in
  let values := addIf (nonEmpty (p_Country params)) "country" (p_Country params) values in
  let values := addIf (nonEmpty (p_SearchLang params)) "search_lang" (p_SearchLang params) values in
  let values := addIf (nonEmpty (p_UILang params)) "ui_lang" (p_UILang params) values in
  let values := addIf (0 <? p_Count params) "count" (strconv_Itoa (p_Count params)) values in
  let values := addIf (0 <? p_Offset params) "offset" (strconv_Itoa (p_Offset params)) values in
  let values := addIf (nonEmpty (p_SafeSearch params)) "safesearch" (p_SafeSearch params) values in
  let values := addIf (nonEmpty (p_Freshness params)) "freshness" (p_Freshness params) values in
  let values := Values_Add values "text_decorations" (strconv_FormatBool (p_TextDecorations params)) in
  let values := Values_Add values "spellcheck" (strconv_FormatBool (p_Spellcheck params)) in
  let values := addIf (nonEmpty (p_ResultFilter params)) "result_filter" (p_ResultFilter params) values in
  let values := addIf (nonEmpty (p_Goggles params)) "goggles" (p_Goggles params) values in
  let values := addIf (nonEmpty (p_Units params)) "units" (p_Units params) values in
  let values := addIf (p_ExtraSnippets params) "extra_snippets" "true" values in
  let values := addIf (p_Summary params) "summary" "true" values in
  values.

(** [buildRequestURL] *)
Definition buildRequestURL (c : Client) (endpoint : string) (params : WebSearchParams)
  : string * option error :=
  (requestBase c endpoint ++ "?" ++ Values_Encode (requestValues params), None).

(** The body of each of the three blocks of [parseRateLimitHeaders]: the
    new value of the field, [old] when nothing is assigned. *)
Definition parseRateLimitField (resp : Response) (header : string) (old : Z) : Z :=
  let str := Header_Get (RespHeader resp) header in
  if nonEmpty str then
    match strings_Split str ","%char with
    | first :: _ =>
        match strconv_Atoi (strings_TrimSpace first) with
        | Some n => n
        | None => old
        end
    | [] => old
    end
  else old.

(** [parseRateLimitHeaders] *)
Definition parseRateLimitHeaders (c : Client) (resp : Response) : RateLimit :=
  let rateLimit := mkRateLimit 0 0 0 in
  let rateLimit :=
    mkRateLimit (parseRateLimitField resp HeaderRateLimitLimit (Limit rateLimit))
      (Remaining rateLimit) (Reset rateLimit) in
  let rateLimit :=
    mkRateLimit (Limit rateLimit)
      (parseRateLimitField resp HeaderRateLimitRemaining (Remaining rateLimit))
      (Reset rateLimit) in
  let rateLimit :=
    mkRateLimit (Limit rateLimit) (Remaining rateLimit)
      (parseRateLimitField resp HeaderRateLimitReset (Reset rateLimit)) in
  rateLimit.

(** ** The world a request runs in *)

(** The standard-library calls whose results the package only passes on. *)
Record World : Type := mkWorld {
  (** [http.NewRequestWithContext(ctx, method, url, body)]: [None] when the
      request is built, the error otherwise *)
  w_NewRequest : string -> string -> option error;
  (** the transport of an [http.Client] that has none of its own *)
  w_DefaultTransport : RoundTripper;
  (** [gzip.NewReader(body)]: the decompressed stream, or the error *)
  w_gzipNewReader : BodyStream -> BodyStream + error;
  (** [json.Unmarshal(data, &v)]: the new [v] and the error *)
  w_jsonUnmarshal : string -> WebSearchResponse -> WebSearchResponse * option error
}.

(** A [context.Context], as the retry loop sees it: [ctx n = Some e] when,
    in the wait after attempt [n], [ctx.Done()] is received before the
    timer, and [ctx.Err()] is then [e]. *)
Definition Context : Type := nat -> option error.

(** What a call does, in order. *)
Inductive Event : Type :=
| EvNewRequest (method url : string)
| EvDo (req : Request)
| EvClose
| EvWait (d : Z)
| EvRateLimit (rl : RateLimit).

(** A Go call returns, or panics. *)
Inductive Outcome (A : Type) : Type :=
| Returned (a : A)
| Panicked.
Arguments Returned {A} a.
Arguments Panicked {A}.

(** [c.http.Do(req)], for the [n]-th time *)
Definition client_Do (w : World) (c : Client) (req : Request) (n : nat) : DoResult :=
  match hc_Transport (http c) with
  | Some t => t req n
  | None => w_DefaultTransport w req n
  end.

(** [time.Duration(1<<uint(attempt)) * 100 * time.Millisecond] *)
Definition backoffTime (attempt : Z) : Z :=
  wrap64 (wrap64 (wrap64 (Z.shiftl 1 attempt) * 100) * Millisecond).

(** [respErr == nil && resp.StatusCode < 500] *)
Definition stopsLoop (r : DoResult) : bool :=
  match r with
  | DoResp resp => StatusCode resp <? 500
  | DoErr _ _ => false
  end.

Definition do_resp (r : DoResult) : option Response :=
  match r with
  | DoResp resp => Some resp
  | DoErr _ resp => resp
  end.

Definition do_err (r : DoResult) : option error :=
  match r with
  | DoResp _ => None
  | DoErr e _ => Some e
  end.

(** How the retry loop of [makeRequest] ends: by one of its [return]s, or
    by [break] or its condition, with the variables [resp] and [respErr]. *)
Inductive LoopExit : Type :=
| LoopReturn (err : option error)
| LoopDone (resp : option Response) (respErr : option error).

(** [for attempt := 0; attempt <= c.config.MaxRetries; attempt++]:
    [iters] is the number of values of [attempt] still to run, so the
    loop condition holds exactly when [iters] is not [0]. *)
Fixpoint retryLoop (do : nat -> DoResult) (req : Request) (ctx : Context)
    (MaxRetries : Z) (iters : nat) (attempt : Z)
    (resp : option Response) (respErr : option error) : LoopExit * list Event :=
  match iters with
  | O => (LoopDone resp respErr, [])
  | S iters' =>
      let r := do (Z.to_nat attempt) in
      if stopsLoop r then (LoopDone (do_resp r) (do_err r), [EvDo req])
      else if attempt =? MaxRetries then
        match r with
        | DoErr e _ => (LoopReturn (Some e), [EvDo req])
        | DoResp resp => (LoopReturn (Some (NewHTTPError resp)), [EvDo req])
        end
      else
        let closed := match do_resp r with Some _ => [EvClose] | None => [] end in
        let wait := EvWait (backoffTime attempt) in
        match ctx (Z.to_nat attempt) with
        | Some e => (LoopReturn (Some e), EvDo req :: closed ++ [wait])
        | None =>
            let '(exit, tr) :=
              retryLoop do req ctx MaxRetries iters' (attempt + 1) (do_resp r) (do_err r) in
            (exit, EvDo req :: closed ++ wait :: tr)
        end
  end.

(** [makeRequest] after the loop.  [result] is the value [result] points
    to, [None] for a [nil] pointer.  Reading through a [*gzip.Reader] that
    is [nil] panics. *)
Definition handleResponse (w : World) (c : Client) (result : option WebSearchResponse)
    (resp : option Response) (respErr : option error)
  : Outcome (option error * option WebSearchResponse) * list Event :=
  match resp with
  | None => (Returned (Some (WrapError "no response" respErr), result), [])
  | Some resp =>
      let gzipped :=
        strings_Contains (Header_Get (RespHeader resp) "Content-Encoding") "gzip" in
      if negb (StatusCode resp =? StatusOK) then
        if gzipped then
          match w_gzipNewReader w (Body resp) with
          | inr _ => (Panicked, [EvClose])
          | inl _ => (Returned (Some (NewHTTPError resp), result), [EvClose])
          end
        else (Returned (Some (NewHTTPError resp), result), [EvClose])
      else
        let parsed := EvRateLimit (parseRateLimitHeaders c resp) in
        match result with
        | None => (Returned (None, result), [parsed; EvClose])
        | Some v =>
            let reader :=
              if gzipped then w_gzipNewReader w (Body resp) else inl (Body resp) in
            match reader with
            | inr err =>
                (Returned (Some (WrapError "failed to create gzip reader" (Some err)), result),
                 [parsed; EvClose])
            | inl stream =>
                match body_err stream with
                | Some err => (Returned (Some err, result), [parsed; EvClose])
                | None =>
                    match w_jsonUnmarshal w (body_data stream) v with
                    | (v', Some _) =>
                        (Returned
                           (Some (APIError (StatusCode resp) "Failed to parse response"
                                    (Some (Sentinel ErrInvalidResponse))), Some v'),
                         [parsed; EvClose])
                    | (v', None) => (Returned (None, Some v'), [parsed; EvClose])
                    end
                end
            end
        end
  end.

(** The headers [makeRequest] sets. *)
Definition requestHeaders (c : Client) (hasBody : bool) : Header :=
  let h : Header := ∅ in
  let h := Header_Set h HeaderAccept MIMETypeJSON in
  let h := Header_Set h HeaderAcceptEncoding MIMETypeGzip in
  let h := Header_Set h HeaderUserAgent (cfg_UserAgent (config c)) in
  let h := Header_Set h HeaderSubscriptionToken (cfg_APIKey (config c)) in
  let h := Header_Set h HeaderCacheControl "no-cache" in
  if hasBody then Header_Set h "Content-Type" MIMETypeJSON else h.

(** The request [makeRequest] builds: the marshalled body, if any, and
    the headers. *)
Definition requestOf (c : Client) (method url : string) (body : option (string + error))
  : Request :=
  let jsonData := match body with Some (inl d) => Some d | _ => None end in
  mkRequest method url (requestHeaders c (bool_decide (is_Some body))) jsonData.

(** [makeRequest].  [body] is [None] for a [nil] body, and otherwise what
    [json.Marshal(body)] gives. *)
Definition makeRequest (w : World) (c : Client) (ctx : Context) (method url : string)
    (body : option (string + error)) (result : option WebSearchResponse)
  : Outcome (option error * option WebSearchResponse) * list Event :=
  match body with
  | Some (inr err) => (Returned (Some err, result), [])
  | _ =>
      match w_NewRequest w method url with
      | Some err => (Returned (Some err, result), [EvNewRequest method url])
      | None =>
          let req := requestOf c method url body in
          let maxRetries := cfg_MaxRetries (config c) in
          match retryLoop (client_Do w c req) req ctx maxRetries
                  (Z.to_nat (maxRetries + 1)) 0 None None with
          | (LoopReturn err, tr) => (Returned (err, result), EvNewRequest method url :: tr)
          | (LoopDone resp respErr, tr) =>
              let '(out, tr') := handleResponse w c result resp respErr in
              (out, EvNewRequest method url :: tr ++ tr')
          end
      end
  end.

(** [WebSearch], lines 132 to 156: the copy of [params] with the query and
    the defaults. *)
Definition searchParamsOf (c : Client) (query : string) (params : option WebSearchParams)
  : WebSearchParams :=
  let p := match params with Some p => p | None => zeroWebSearchParams end in
  mkWebSearchParams
    query
    (if String.eqb (p_Country p) "" then cfg_DefaultCountry (config c) else p_Country p)
    (if String.eqb (p_SearchLang p) "" then cfg_DefaultSearchLang (config c) else p_SearchLang p)
    (if String.eqb (p_UILang p) "" then cfg_DefaultUILang (config c) else p_UILang p)
    (if p_Count p =? 0 then DefaultCount else p_Count p)
    (p_Offset p)
    (if String.eqb (p_SafeSearch p) "" then DefaultSafeSearch else p_SafeSearch p)
    (p_Freshness p) (p_TextDecorations p) (p_Spellcheck p) (p_ResultFilter p)
    (p_Goggles p) (p_Units p) (p_ExtraSnippets p) (p_Summary p).

(** The zero value [WebSearchResponse{}] *)
Definition zeroWebSearchResponse : WebSearchResponse :=
  mkWebSearchResponse "" None None None None None None None None None None.

(** [WebSearch] *)
Definition WebSearch (w : World) (c : Client) (ctx : Context) (query : string)
    (params : option WebSearchParams)
  : Outcome (option WebSearchResponse * option error) * list Event :=
  if String.eqb query "" then (Returned (None, Some (Sentinel ErrEmptyQuery)), [])
  else if ((400 <? len query) || (50 <? Z.of_nat (length (strings_Fields query))))%bool
  then (Returned (None, Some (Sentinel ErrQueryTooLong)), [])
  else
    let searchParams := searchParamsOf c query params in
    match buildRequestURL c WebSearchEndpoint searchParams with
    | (_, Some err) => (Returned (None, Some err), [])
    | (requestURL, None) =>
        match makeRequest w c ctx "GET" requestURL None (Some zeroWebSearchResponse) with
        | (Panicked, tr) => (Panicked, tr)
        | (Returned (Some err, _), tr) => (Returned (None, Some err), tr)
        | (Returned (None, response), tr) => (Returned (response, None), tr)
        end
    end.

(** [NewWebSearchParams] and the wrappers built on it *)
Definition NewWebSearchParams : WebSearchParams :=
  mkWebSearchParams "" "" "" "" DefaultCount DefaultOffset DefaultSafeSearch ""
    DefaultTextDecor DefaultSpellCheck "" "" "" false false.

Definition WebSearchWithCountry (w : World) (c : Client) (ctx : Context)
    (query country : string) :=
  let p := NewWebSearchParams in
  WebSearch w c ctx query
    (Some (mkWebSearchParams (p_Query p) country (p_SearchLang p) (p_UILang p)
             (p_Count p) (p_Offset p) (p_SafeSearch p) (p_Freshness p)
             (p_TextDecorations p) (p_Spellcheck p) (p_ResultFilter p)
             (p_Goggles p) (p_Units p) (p_ExtraSnippets p) (p_Summary p))).

Definition WebSearchWithPagination (w : World) (c : Client) (ctx : Context)
    (query : string) (count offset : Z) :=
  let p := NewWebSearchParams in
  WebSearch w c ctx query
    (Some (mkWebSearchParams (p_Query p) (p_Country p) (p_SearchLang p) (p_UILang p)
             count offset (p_SafeSearch p) (p_Freshness p)
             (p_TextDecorations p) (p_Spellcheck p) (p_ResultFilter p)
             (p_Goggles p) (p_Units p) (p_ExtraSnippets p) (p_Summary p))).

(** ** Notions used to state the properties *)

(** The receiver is [nil], or its [Web] section is. *)
Definition webAbsent (r : option WebSearchResponse) : bool :=
  match r with
  | None => true
  | Some r => bool_decide (r_Web r = None)
  end.

(** The receiver has a [Web] section with no result. *)
Definition webEmpty (r : option WebSearchResponse) : bool :=
  match r with
  | None => false
  | Some r =>
      match r_Web r with
      | None => false
      | Some web => bool_decide (slice_elems (web_Results web) = [])
      end
  end.

(** The receiver is [nil], or its [Query] section is. *)
Definition queryAbsent (r : option WebSearchResponse) : bool :=
  match r with
  | None => true
  | Some r => bool_decide (r_Query r = None)
  end.


(** The response says it is gzip-encoded and [gzip.NewReader] refuses it. *)
Definition brokenGzip (w : World) (resp : Response) : bool :=
  (strings_Contains (Header_Get (RespHeader resp) "Content-Encoding") "gzip" &&
   match w_gzipNewReader w (Body resp) with
   | inr _ => true
   | inl _ => false
   end)%bool.

(** The first comma-delimited token of a header value, and the integer
    the specification reads from it: [0] when the token is not one. *)
Fixpoint firstToken (s : string) : string :=
  match s with
  | EmptyString => EmptyString
  | String c s' => if Ascii.eqb c ","%char then EmptyString else String c (firstToken s')
  end.

Definition headerInt (s : string) : Z :=
  match strconv_Atoi (strings_TrimSpace (firstToken s)) with
  | Some n => n
  | None => 0
  end.

(** [strings.TrimSuffix] and [strings.TrimPrefix] *)
Fixpoint strings_TrimSuffix (s p : string) : string :=
  if String.eqb s p then EmptyString
  else
    match s with
    | EmptyString => EmptyString
    | String c s' => String c (strings_TrimSuffix s' p)
    end.

Fixpoint string_drop (n : nat) (s : string) : string :=
  match n, s with
  | S n', String _ s' => string_drop n' s'
  | _, _ => s
  end.

Definition strings_TrimPrefix (s p : string) : string :=
  if String.prefix p s then string_drop (String.length p) s else s.

(** The specification's join: the base URL without a slash at its end,
    one slash, the endpoint without a slash at its start. *)
Definition joinedWithOneSlash (baseURL endpoint : string) : string :=
  strings_TrimSuffix baseURL "/" ++ "/" ++ strings_TrimPrefix endpoint "/".

(** The specification's table of wire names: the value sent under [key],
    [None] when the key is left out. *)
Definition wireParam (p : WebSearchParams) (key : string) : option string :=
  let text (s : string) := if String.eqb s "" then None else Some s in
  let positive (n : Z) := if 0 <? n then Some (strconv_Itoa n) else None in
  let whenTrue (b : bool) := if b then Some "true" else None in
  if String.eqb key "q" then text (p_Query p)
  else if String.eqb key "country" then text (p_Country p)
  else if String.eqb key "search_lang" then text (p_SearchLang p)
  else if String.eqb key "ui_lang" then text (p_UILang p)
  else if String.eqb key "count" then positive (p_Count p)
  else if String.eqb key "offset" then positive (p_Offset p)
  else if String.eqb key "safesearch" then text (p_SafeSearch p)
  else if String.eqb key "freshness" then text (p_Freshness p)
  else if String.eqb key "text_decorations"
       then Some (if p_TextDecorations p then "true" else "false")
  else if String.eqb key "spellcheck"
       then Some (if p_Spellcheck p then "true" else "false")
  else if String.eqb key "result_filter" then text (p_ResultFilter p)
  else if String.eqb key "goggles" then text (p_Goggles p)
  else if String.eqb key "units" then text (p_Units p)
  else if String.eqb key "extra_snippets" then whenTrue (p_ExtraSnippets p)
  else if String.eqb key "summary" then whenTrue (p_Summary p)
  else None.

(** The string fields of the parameters, each with its wire name. *)
Definition stringFields : list (string * (WebSearchParams -> string)) :=
  [("q", p_Query); ("country", p_Country); ("search_lang", p_SearchLang);
   ("ui_lang", p_UILang); ("safesearch", p_SafeSearch); ("freshness", p_Freshness);
   ("result_filter", p_ResultFilter); ("goggles", p_Goggles); ("units", p_Units)].

(** A query [WebSearch] accepts. *)
Definition validQuery (query : string) : bool :=
  (negb (String.eqb query "") &&
   negb ((400 <? len query) || (50 <? Z.of_nat (length (strings_Fields query)))))%bool.

(** No parameters, or parameters whose [TextDecorations] and [Spellcheck]
    are not set. *)
Definition flagsUnset (params : option WebSearchParams) : bool :=
  match params with
  | None => true
  | Some p => (negb (p_TextDecorations p) && negb (p_Spellcheck p))%bool
  end.

(** The parameters [WebSearch] copies: [params], or the zero value. *)
Definition paramsOrZero (params : option WebSearchParams) : WebSearchParams :=
  match params with
  | Some p => p
  | None => zeroWebSearchParams
  end.

(** The number of attempts in a log: the calls of [Do]. *)
Definition isDo (e : Event) : bool :=
  match e with
  | EvDo _ => true
  | _ => false
  end.

Definition attempts (tr : list Event) : nat := length (filter isDo tr).

(** What the last attempt leaves as the error of the call: the transport
    error, or the error made from the response. *)
Definition finalError (r : DoResult) : error :=
  match r with
  | DoErr e _ => e
  | DoResp resp => NewHTTPError resp
  end.

(** [json.Marshal(body)] succeeded, or there is no body. *)
Definition marshals (body : option (string + error)) : bool :=
  match body with
  | Some (inr _) => false
  | _ => true
  end.

(** What [WebSearch] returns for what [makeRequest] returned. *)
Definition searchOutcome (out : Outcome (option error * option WebSearchResponse))
  : Outcome (option WebSearchResponse * option error) :=
  match out with
  | Panicked => Panicked
  | Returned (Some err, _) => Returned (None, Some err)
  | Returned (None, response) => Returned (response, None)
  end.

(** The text of a list of [key=value] items, as [Values.Encode] writes it. *)
Definition renderPairs (l : list (string * string)) : string :=
  String.concat "&"
    (map (fun kx => QueryEscape (fst kx) ++ "=" ++ QueryEscape (snd kx)) l).

(** ** Sample inputs: those of the package's tests, and a few more *)

(** The response of [TestParseRateLimitHeaders] *)
Definition rateLimitedResponse : Response :=
  let h : Header := ∅ in
  let h := Header_Set h HeaderRateLimitLimit "10, 15000" in
  let h := Header_Set h HeaderRateLimitRemaining "9, 14999" in
  let h := Header_Set h HeaderRateLimitReset "1, 1419704" in
  mkResponse 200 "200 OK" h (mkBody "{}" None).

Definition plainResponse (sc : Z) (status : string) : Response :=
  mkResponse sc status ∅ (mkBody "" None).

(** A transport that answers every call with the same response, and one
    that answers like the server of [TestMakeRequestWithRetries]. *)
Definition always (resp : Response) : RoundTripper := fun _ _ => DoResp resp.

Definition failsTwice : RoundTripper :=
  fun _ n =>
    if (n <? 2)%nat then DoResp (plainResponse 503 "503 Service Unavailable")
    else DoResp (plainResponse 200 "200 OK").

(** A world in which every request can be built, nothing is gzip and
    every body decodes to the value it is decoded into. *)
Definition sampleWorld : World :=
  mkWorld (fun _ _ => None)
    (always (plainResponse 503 "503 Service Unavailable"))
    (fun _ => inr (ErrorString "gzip: invalid header"))
    (fun _ v => (v, None)).

Definition sampleClient (maxRetries : Z) (transport : option RoundTripper) : Client :=
  mkClient
    (mkClientConfig "test-api-key" BaseURL (30 * Second) maxRetries DefaultUserAgent
       DefaultCountry DefaultSearchLang DefaultUILang None)
    (mkHttpClient (30 * Second) transport).

(** A context that is never cancelled, and one that already is. *)
Definition background : Context := fun _ => None.
Definition cancelled : Context := fun _ => Some (ErrorString "context canceled").

(** An option that only leaves its name in a log. *)
Definition logOption (name : string) : ClientOption (list string) :=
  fun c s => (c, (s ++ [name])%list, None).

Definition clientAt (baseURL : string) : Client :=
  mkClient
    (mkClientConfig "test-api-key" baseURL (30 * Second) DefaultMaxRetries DefaultUserAgent
       DefaultCountry DefaultSearchLang DefaultUILang None)
    (mkHttpClient (30 * Second) None).

(** The parameters of [TestBuildRequestURL] *)
Definition allParams : WebSearchParams :=
  mkWebSearchParams "test query" "JP" "ja" "ja-JP" 10 2 SafeSearchStrict FreshnessWeek
    true false ResultFilterNews "custom-goggle" UnitMetric true true.

(** Parameters with only an offset: no flag is set. *)
Definition offsetOnly (offset : Z) : WebSearchParams :=
  mkWebSearchParams "" "" "" "" 0 offset "" "" false false "" "" "" false false.

(** A 429 response that carries the rate-limit headers. *)
Definition tooManyRequests : Response :=
  mkResponse 429 "429 Too Many Requests" (RespHeader rateLimitedResponse)
    (mkBody "{}" None).

(** A response that says it is gzip and carries plain text. *)
Definition mislabelled (sc : Z) (status : string) : Response :=
  mkResponse sc status (Header_Set ∅ "Content-Encoding" "gzip")
    (mkBody "not a gzip stream" None).

(** ** The other search calls of the package *)

(** A copy of [NewWebSearchParams()] with one field assigned, as each
    wrapper makes it before it calls [WebSearch]. *)
Definition WebSearchWithLanguage (w : World) (c : Client) (ctx : Context)
    (query lang : string) :=
  let p := NewWebSearchParams in
  WebSearch w c ctx query
    (Some (mkWebSearchParams (p_Query p) (p_Country p) lang (p_UILang p)
             (p_Count p) (p_Offset p) (p_SafeSearch p) (p_Freshness p)
             (p_TextDecorations p) (p_Spellcheck p) (p_ResultFilter p)
             (p_Goggles p) (p_Units p) (p_ExtraSnippets p) (p_Summary p))).

Definition withResultFilter (filter : string) : WebSearchParams :=
  let p := NewWebSearchParams in
  mkWebSearchParams (p_Query p) (p_Country p) (p_SearchLang p) (p_UILang p)
    (p_Count p) (p_Offset p) (p_SafeSearch p) (p_Freshness p)
    (p_TextDecorations p) (p_Spellcheck p) filter
    (p_Goggles p) (p_Units p) (p_ExtraSnippets p) (p_Summary p).

Definition WebSearchNews (w : World) (c : Client) (ctx : Context) (query : string) :=
  WebSearch w c ctx query (Some (withResultFilter ResultFilterNews)).

Definition WebSearchVideos (w : World) (c : Client) (ctx : Context) (query : string) :=
  WebSearch w c ctx query (Some (withResultFilter ResultFilterVideos)).

Definition WebSearchWithSafeSearch (w : World) (c : Client) (ctx : Context)
    (query safeSearch : string) :=
  let p := NewWebSearchParams in
  WebSearch w c ctx query
    (Some (mkWebSearchParams (p_Query p) (p_Country p) (p_SearchLang p) (p_UILang p)
             (p_Count p) (p_Offset p) safeSearch (p_Freshness p)
             (p_TextDecorations p) (p_Spellcheck p) (p_ResultFilter p)
             (p_Goggles p) (p_Units p) (p_ExtraSnippets p) (p_Summary p))).

Definition withFreshness (freshness : string) : WebSearchParams :=
  let p := NewWebSearchParams in
  mkWebSearchParams (p_Query p) (p_Country p) (p_SearchLang p) (p_UILang p)
    (p_Count p) (p_Offset p) (p_SafeSearch p) freshness
    (p_TextDecorations p) (p_Spellcheck p) (p_ResultFilter p)
    (p_Goggles p) (p_Units p) (p_ExtraSnippets p) (p_Summary p).

Definition WebSearchWithFreshness (w : World) (c : Client) (ctx : Context)
    (query freshness : string) :=
  WebSearch w c ctx query (Some (withFreshness freshness)).

Definition WebSearchRecent (w : World) (c : Client) (ctx : Context) (query : string) :=
  WebSearch w c ctx query (Some (withFreshness FreshnessDay)).

Definition WebSearchSummary (w : World) (c : Client) (ctx : Context) (query : string) :=
  let p := NewWebSearchParams in
  WebSearch w c ctx query
    (Some (mkWebSearchParams (p_Query p) (p_Country p) (p_SearchLang p) (p_UILang p)
             (p_Count p) (p_Offset p) (p_SafeSearch p) (p_Freshness p)
             (p_TextDecorations p) (p_Spellcheck p) (p_ResultFilter p)
             (p_Goggles p) (p_Units p) (p_ExtraSnippets p) true)).

Definition WebSearchWithUnits (w : World) (c : Client) (ctx : Context)
    (query units : string) :=
  let p := NewWebSearchParams in
  WebSearch w c ctx query
    (Some (mkWebSearchParams (p_Query p) (p_Country p) (p_SearchLang p) (p_UILang p)
             (p_Count p) (p_Offset p) (p_SafeSearch p) (p_Freshness p)
             (p_TextDecorations p) (p_Spellcheck p) (p_ResultFilter p)
             (p_Goggles p) units (p_ExtraSnippets p) (p_Summary p))).

(** ** More notions used to state properties *)

(** What one option leaves of a draft configuration and a state, and what
    the options of a list leave of them when each, from the left, writes
    to what the one before it left. *)
Definition written {S : Type} (cs : ClientConfig * S) (o : ClientOption S)
  : ClientConfig * S :=
  fst (o (fst cs) (snd cs)).

Definition draftAfter {S : Type} (config : ClientConfig) (s : S)
    (os : list (ClientOption S)) : ClientConfig * S :=
  fold_left written os (config, s).

(** The options the package itself provides, by name and argument. *)
Inductive PackageOption : Type :=
| OptTimeout (seconds : Z)
| OptRetries (retries : Z)
| OptUserAgent (userAgent : string)
| OptBaseURL (baseURL : string)
| OptHTTPClient (client : option HttpClient)
| OptDefaultCountry (country : string)
| OptDefaultSearchLanguage (lang : string)
| OptDefaultUILanguage (lang : string)
| OptConfig (config : option Config).

Definition packageOption {S : Type} (o : PackageOption) : ClientOption S :=
  match o with
  | OptTimeout seconds => WithTimeout seconds
  | OptRetries retries => WithRetries retries
  | OptUserAgent userAgent => WithUserAgent userAgent
  | OptBaseURL baseURL => WithBaseURL baseURL
  | OptHTTPClient client => WithHTTPClient client
  | OptDefaultCountry country => WithDefaultCountry country
  | OptDefaultSearchLanguage lang => WithDefaultSearchLanguage lang
  | OptDefaultUILanguage lang => WithDefaultUILanguage lang
  | OptConfig config => WithConfig config
  end.

(** The option is not a [WithRetries] of a negative count. *)
Definition retriesOk (o : PackageOption) : bool :=
  match o with
  | OptRetries retries => 0 <=? retries
  | _ => true
  end.

(** An error under the [%w] wrappers of [msgs], the first outermost. *)
Definition wrapped (msgs : list string) (e : error) : error :=
  fold_right (fun msg inner => WrapError msg (Some inner)) e msgs.

(** The bodies closed and the waits made in a log, and the number of
    responses the first [m] calls of [Do] gave. *)
Definition isClose (e : Event) : bool :=
  match e with
  | EvClose => true
  | _ => false
  end.

Definition closes (tr : list Event) : nat := length (filter isClose tr).

Definition waits (tr : list Event) : list Z :=
  flat_map (fun e => match e with EvWait d => [d] | _ => [] end) tr.

Definition requests (tr : list Event) : list Request :=
  flat_map (fun e => match e with EvDo r => [r] | _ => [] end) tr.



(** Two header names that differ at most in the case of their ASCII
    letters. *)
Definition lowerByte (c : ascii) : ascii :=
  if byte_in c 65 90 then ascii_of_nat (byte_of c + 32) else c.

Fixpoint lowerName (s : string) : string :=
  match s with
  | EmptyString => EmptyString
  | String c s' => String (lowerByte c) (lowerName s')
  end.

Definition sameHeaderName (s t : string) : bool := String.eqb (lowerName s) (lowerName t).

(** The byte [canon_go] writes for the byte [c]. *)
Definition canonByte (upper : bool) (c : ascii) : ascii :=
  match canon_go (String c EmptyString) upper with
  | String c' _ => c'
  | EmptyString => c
  end.

(** The items of the query string [WebSearch] asks for. *)
Definition requestItems (c : Client) (query : string) (params : option WebSearchParams)
  : list (string * string) :=
  Values_pairs (requestValues (searchParamsOf c query params)).

(** One item of a query string, as [Values.Encode] writes it. *)
Definition renderItem (kx : string * string) : string :=
  QueryEscape (fst kx) ++ "=" ++ QueryEscape (snd kx).

(** The bytes [QueryEscape] lets through or produces. *)
Definition queryByte (c : ascii) : bool :=
  (byte_in c 97 122 || byte_in c 65 90 || byte_in c 48 57 ||
   existsb (Ascii.eqb c) (list_ascii_of_string "-_.~+%"))%bool.

(** The body stream a 200 response is decoded from. *)
Definition decodedStream (w : World) (resp : Response) : BodyStream + error :=
  if strings_Contains (Header_Get (RespHeader resp) "Content-Encoding") "gzip"
  then w_gzipNewReader w (Body resp)
  else inl (Body resp).

(** The items of the specification's table of wire names, in the order of
    the table: a text field is sent when it is not empty, a number when it
    is positive, a flag when it is set. *)
Definition textItem (key value : string) : list (string * string) :=
  if String.eqb value "" then [] else [(key, value)].

Definition positiveItem (key : string) (n : Z) : list (string * string) :=
  if 0 <? n then [(key, strconv_Itoa n)] else [].

Definition flagItem (key : string) (b : bool) : list (string * string) :=
  if b then [(key, "true")] else [].

Definition wireItems (p : WebSearchParams) : list (string * string) :=
  (textItem "q" (p_Query p) ++
   textItem "country" (p_Country p) ++
   textItem "search_lang" (p_SearchLang p) ++
   textItem "ui_lang" (p_UILang p) ++
   positiveItem "count" (p_Count p) ++
   positiveItem "offset" (p_Offset p) ++
   textItem "safesearch" (p_SafeSearch p) ++
   textItem "freshness" (p_Freshness p) ++
   [("text_decorations", if p_TextDecorations p then "true" else "false")] ++
   [("spellcheck", if p_Spellcheck p then "true" else "false")] ++
   textItem "result_filter" (p_ResultFilter p) ++
   textItem "goggles" (p_Goggles p) ++
   textItem "units" (p_Units p) ++
   flagItem "extra_snippets" (p_ExtraSnippets p) ++
   flagItem "summary" (p_Summary p))%list.

(** The call builds its request for the search endpoint with a query
    string whose items are those of [expected], no more and no fewer, and
    no key twice. *)
Definition asksExactly {A : Type} (run : A * list Event) (c : Client)
    (expected : list (string * string)) : Prop :=
  exists items tr,
    snd run =
      EvNewRequest "GET" (requestBase c WebSearchEndpoint ++ "?" ++ renderPairs items) :: tr /\
    NoDup (map fst items) /\
    forall kv, In kv items <-> In kv expected.
(** * Properties *)

(** ** The standard-library models on the examples of the package's tests *)

Example Fields_demo :
  strings_Fields ("  go   programming" ++ String (ascii_of_nat 9) "x ") =
  ["go"; "programming"; "x"].
Proof. reflexivity. Qed.

Example TrimSpace_demo : strings_TrimSpace " 15000 " = "15000".
Proof. reflexivity. Qed.

Example Split_demo : strings_Split "10, 15000" "," = ["10"; " 15000"].
Proof. reflexivity. Qed.

Example Atoi_demo :
  strconv_Atoi "-42" = Some (-42) /\ strconv_Atoi "4x" = None /\
  strconv_Atoi "" = None /\ strconv_Atoi "9223372036854775808" = None.
Proof. repeat split; reflexivity. Qed.

Example Itoa_demo : strconv_Itoa 418 = "418" /\ strconv_Itoa 0 = "0".
Proof. split; reflexivity. Qed.

Example QueryEscape_demo : QueryEscape "test query&x=1" = "test+query%26x%3D1".
Proof. reflexivity. Qed.

Example Canonical_demo :
  CanonicalMIMEHeaderKey HeaderRateLimitLimit = "X-Ratelimit-Limit".
Proof. reflexivity. Qed.

(** ** Response accessors *)

(** C10: on a [nil] response, or one without [Web] section, [GetWebResults]
    is an empty slice that is not [nil], [GetResultCount] is [0],
    [GetFirstResult] is [nil] and [IsWebResultEmpty] holds; the latter
    also holds when [Web.Results] is empty; [HasMoreResults] is false when
    the receiver or its [Query] section is [nil]. *)
Theorem C10_accessors_total (r : option WebSearchResponse) :
  (webAbsent r = true ->
     GetWebResults r = Slice [] /\
     slice_is_nil (GetWebResults r) = false /\
     GetResultCount r = 0 /\
     GetFirstResult r = None /\
     IsWebResultEmpty r = true) /\
  (webEmpty r = true -> IsWebResultEmpty r = true /\ GetFirstResult r = None) /\
  (queryAbsent r = true -> HasMoreResults r = false).
Proof.
  destruct r as [r|]; simpl.
  - destruct r as [ty d f i l m n q v web s]; simpl.
    split; [|split].
    + intros H. apply bool_decide_eq_true in H. subst web. simpl. auto.
    + destruct web as [web|]; [|discriminate].
      intros H. apply bool_decide_eq_true in H.
      unfold slice_len. rewrite H. simpl. auto.
    + intros H. apply bool_decide_eq_true in H. subst q. reflexivity.
  - repeat split; discriminate.
Qed.

Lemma C10_accessors_total_witness :
  (GetWebResults None = Slice [] /\
   slice_is_nil (GetWebResults None) = false /\
   GetResultCount None = 0 /\
   GetFirstResult None = None /\
   IsWebResultEmpty None = true) /\
  (let r := Some (mkWebSearchResponse "search" None None None None None None None None
                    (Some (mkSearch "search" nil_slice true)) None) in
   IsWebResultEmpty r = true /\ GetFirstResult r = None) /\
  HasMoreResults (Some zeroWebSearchResponse) = false.
Proof.
  split; [|split].
  - apply (C10_accessors_total None). reflexivity.
  - apply (C10_accessors_total
             (Some (mkWebSearchResponse "search" None None None None None None None None
                      (Some (mkSearch "search" nil_slice true)) None))).
    reflexivity.
  - apply (C10_accessors_total (Some zeroWebSearchResponse)). reflexivity.
Defined.

(** ** Error classification *)

Lemma handleResponse_not_ok w c result resp respErr :
  StatusCode resp <> StatusOK ->
  handleResponse w c result (Some resp) respErr =
  if brokenGzip w resp then (Panicked, [EvClose])
  else (Returned (Some (NewHTTPError resp), result), [EvClose]).
Proof.
  intros Hsc. unfold handleResponse, brokenGzip.
  destruct (StatusCode resp =? StatusOK) eqn:E; [apply Z.eqb_eq in E; contradiction|].
  simpl.
  destruct (strings_Contains _ _); simpl; [|reflexivity].
  destruct (w_gzipNewReader w (Body resp)); reflexivity.
Qed.

Lemma IsRateLimitError_APIError sc msg inner :
  IsRateLimitError (Some (APIError sc msg inner)) = true <->
  errors_Is inner ErrRateLimit = true \/ sc = StatusTooManyRequests.
Proof.
  unfold IsRateLimitError; simpl.
  rewrite orb_true_iff, Z.eqb_eq. tauto.
Qed.

Lemma IsAuthError_APIError sc msg inner :
  IsAuthError (Some (APIError sc msg inner)) = true <->
  errors_Is inner ErrUnauthorized = true \/ errors_Is inner ErrInvalidAPIKey = true \/
  sc = StatusUnauthorized.
Proof.
  unfold IsAuthError; simpl.
  rewrite !orb_true_iff, Z.eqb_eq. tauto.
Qed.

Lemma IsServerError_APIError sc msg inner :
  IsServerError (Some (APIError sc msg inner)) = true <->
  errors_Is inner ErrServerError = true \/ 500 <= sc.
Proof.
  unfold IsServerError; simpl.
  rewrite orb_true_iff, Z.leb_le. tauto.
Qed.

(** C7: a final response with status 401 or 429 that is labelled gzip and
    has a body that is not gzip makes the call panic, so that no error is
    returned to classify: [makeRequest] drops the error of
    [gzip.NewReader] on this path and reads through the [nil] reader.  The
    same response with status 200 returns that error, wrapped, and the
    same 401 and 429 without the label return the error made from the
    response, which the helpers classify as the claim says. *)
Theorem C7_mislabelled_error_response_panics :
  let run (resp : Response) :=
    fst (WebSearch sampleWorld (sampleClient 0 (Some (always resp))) background "go" None) in
  run (mislabelled 401 "401 Unauthorized") = Panicked /\
  run (mislabelled 429 "429 Too Many Requests") = Panicked /\
  run (mislabelled 200 "200 OK") =
    Returned (None, Some (WrapError "failed to create gzip reader"
                            (Some (ErrorString "gzip: invalid header")))) /\
  (exists e,
     run (plainResponse 401 "401 Unauthorized") = Returned (None, Some e) /\
     IsAuthError (Some e) = true /\ IsRateLimitError (Some e) = false) /\
  (exists e,
     run (plainResponse 429 "429 Too Many Requests") = Returned (None, Some e) /\
     IsRateLimitError (Some e) = true /\ IsAuthError (Some e) = false).
Proof.
  cbv zeta. split; [vm_compute; reflexivity|]. split; [vm_compute; reflexivity|].
  split; [vm_compute; reflexivity|]. split.
  - exists (NewHTTPError (plainResponse 401 "401 Unauthorized")).
    repeat split; vm_compute; reflexivity.
  - exists (NewHTTPError (plainResponse 429 "429 Too Many Requests")).
    repeat split; vm_compute; reflexivity.
Qed.

(** ** Rate-limit headers *)

Lemma Split_head s : exists ts, strings_Split s ","%char = firstToken s :: ts.
Proof.
  induction s as [|ch s [ts IH]]; simpl.
  - eexists; reflexivity.
  - destruct (Ascii.eqb ch ","%char).
    + eexists; reflexivity.
    + rewrite IH. eexists; reflexivity.
Qed.

Lemma nonEmpty_false s : nonEmpty s = false -> s = "".
Proof.
  unfold nonEmpty. intros H. apply negb_false_iff in H. now apply String.eqb_eq in H.
Qed.

Lemma parseRateLimitField_headerInt resp header :
  parseRateLimitField resp header 0 = headerInt (Header_Get (RespHeader resp) header).
Proof.
  unfold parseRateLimitField.
  destruct (nonEmpty (Header_Get (RespHeader resp) header)) eqn:E.
  - destruct (Split_head (Header_Get (RespHeader resp) header)) as [ts ->].
    reflexivity.
  - apply nonEmpty_false in E. rewrite E. reflexivity.
Qed.

(** C6: each field of the parsed rate limit is the integer read from the
    first comma-delimited token, trimmed, of its header; it is [0] when the
    header is absent and when the token is not an integer, and no error
    is produced.  The headers [10, 15000], [9, 14999] and [1, 1419704]
    give limit 10, remaining 9 and reset 1. *)
Theorem C6_rate_limit_headers (c : Client) (resp : Response) :
  let get := Header_Get (RespHeader resp) in
  parseRateLimitHeaders c resp =
    mkRateLimit (headerInt (get HeaderRateLimitLimit))
      (headerInt (get HeaderRateLimitRemaining))
      (headerInt (get HeaderRateLimitReset)) /\
  (forall header,
     RespHeader resp !! CanonicalMIMEHeaderKey header = None ->
     parseRateLimitField resp header 0 = 0) /\
  (forall header,
     strconv_Atoi (strings_TrimSpace (firstToken (get header))) = None ->
     parseRateLimitField resp header 0 = 0) /\
  parseRateLimitHeaders c rateLimitedResponse = mkRateLimit 10 9 1.
Proof.
  intros get. split; [|split; [|split]].
  - unfold parseRateLimitHeaders; simpl.
    now rewrite !parseRateLimitField_headerInt.
  - intros header Habs. rewrite parseRateLimitField_headerInt.
    unfold Header_Get. rewrite Habs. reflexivity.
  - intros header Hbad. rewrite parseRateLimitField_headerInt.
    unfold headerInt. fold get. now rewrite Hbad.
  - vm_compute. reflexivity.
Qed.

Lemma C6_rate_limit_headers_witness :
  parseRateLimitField (plainResponse 200 "200 OK") HeaderRateLimitLimit 0 = 0 /\
  parseRateLimitField
    (mkResponse 200 "200 OK" (Header_Set ∅ HeaderRateLimitReset "soon, 12") (mkBody "" None))
    HeaderRateLimitReset 0 = 0.
Proof.
  split.
  - apply (C6_rate_limit_headers (sampleClient 2 None) (plainResponse 200 "200 OK")).
    reflexivity.
  - apply (C6_rate_limit_headers (sampleClient 2 None)
             (mkResponse 200 "200 OK" (Header_Set ∅ HeaderRateLimitReset "soon, 12")
                (mkBody "" None))).
    vm_compute. reflexivity.
Defined.

(** ** Query validation *)

(** C2: an empty query is refused with [ErrEmptyQuery], whatever the
    parameters and the context; a query of more than 400 bytes (hence any
    query of more than 400 characters) or of more than 50 fields is
    refused with [ErrQueryTooLong]; in both cases nothing is logged: no
    request is built and none is sent. *)
Theorem C2_query_validation (w : World) (c : Client) (ctx : Context)
    (params : option WebSearchParams) :
  WebSearch w c ctx "" params = (Returned (None, Some (Sentinel ErrEmptyQuery)), []) /\
  (forall query,
     400 < len query \/ 50 < Z.of_nat (length (strings_Fields query)) ->
     WebSearch w c ctx query params =
     (Returned (None, Some (Sentinel ErrQueryTooLong)), [])).
Proof.
  split; [reflexivity|].
  intros query Hlong. unfold WebSearch.
  destruct (String.eqb query "") eqn:E.
  - apply String.eqb_eq in E. subst query.
    destruct Hlong as [H|H]; vm_compute in H; discriminate.
  - replace ((400 <? len query) || (50 <? Z.of_nat (length (strings_Fields query))))%bool
      with true; [reflexivity|].
    symmetry. apply orb_true_iff.
    destruct Hlong; [left|right]; now apply Z.ltb_lt.
Qed.

Lemma C2_query_validation_witness :
  WebSearch sampleWorld (sampleClient 2 None) background
    (string_of_list_ascii (repeat "a"%char 401)) None =
    (Returned (None, Some (Sentinel ErrQueryTooLong)), []) /\
  WebSearch sampleWorld (sampleClient 2 None) background
    (String.concat " " (repeat "go" 51)) (Some NewWebSearchParams) =
    (Returned (None, Some (Sentinel ErrQueryTooLong)), []).
Proof.
  split.
  - apply (C2_query_validation sampleWorld (sampleClient 2 None) background None).
    left. vm_compute. reflexivity.
  - apply (C2_query_validation sampleWorld (sampleClient 2 None) background
             (Some NewWebSearchParams)).
    right. vm_compute. reflexivity.
Defined.

(** ** Client construction *)

Lemma applyOptions_app {S : Type} (config : ClientConfig)
    (os1 os2 : list (ClientOption S)) (s : S) :
  applyOptions config (os1 ++ os2) s =
  match applyOptions config os1 s with
  | (config', s', None) => applyOptions config' os2 s'
  | failed => failed
  end.
Proof.
  revert config s. induction os1 as [|o os1 IH]; intros config s; simpl.
  - reflexivity.
  - destruct (o config s) as [[config' s'] [err|]]; [reflexivity|apply IH].
Qed.

(** When no option fails, the result is the draft after all of them. *)
Lemma applyOptions_draft {S : Type} (config : ClientConfig)
    (os : list (ClientOption S)) (s : S) (c' : ClientConfig) (s' : S) :
  applyOptions config os s = (c', s', None) ->
  (c', s') = draftAfter config s os.
Proof.
  unfold draftAfter. revert config s.
  induction os as [|o os IH]; intros config s; cbn [applyOptions fold_left].
  - intros H. now inversion H.
  - unfold written at 2. cbn [fst snd].
    destruct (o config s) as [[c1 s1] [err|]]; [discriminate|].
    cbn [fst]. apply IH.
Qed.

(** C8: an empty API key is refused with [ErrMissingAPIKey] and the state
    the options act on is left as it was, so none has run; the options
    run from left to right, each on the configuration and state left by
    the ones before it: the options that succeed leave the draft that
    their writes, one after the other, make of the defaults, an option
    added at the end runs on that draft, and a client is made with it;
    when one reports an error, that error is the
    result, the options after it have no part in it, and [NewClient]
    returns it with no client; [WithRetries] of a negative count reports
    [ErrInvalidParameters]. *)
Theorem C8_options_in_order {S : Type} (apiKey : string)
    (pre post : list (ClientOption S)) (bad : ClientOption S) (s s1 s2 : S)
    (c1 c2 : ClientConfig) (e : error) :
  apiKey <> "" ->
  applyOptions (defaultClientConfig apiKey) pre s = (c1, s1, None) ->
  bad c1 s1 = (c2, s2, Some e) ->
  (forall (options : list (ClientOption S)) (s0 : S),
     NewClient "" options s0 = (None, Some (Sentinel ErrMissingAPIKey), s0)) /\
  (forall config (os1 os2 : list (ClientOption S)) s0,
     applyOptions config (os1 ++ os2) s0 =
     match applyOptions config os1 s0 with
     | (config', s', None) => applyOptions config' os2 s'
     | failed => failed
     end) /\
  applyOptions (defaultClientConfig apiKey) (pre ++ bad :: post) s = (c2, s2, Some e) /\
  NewClient apiKey (pre ++ bad :: post) s = (None, Some e, s2) /\
  (forall retries config (s0 : S),
     retries < 0 ->
     WithRetries retries config s0 = (config, s0, Some (Sentinel ErrInvalidParameters))) /\
  (c1, s1) = draftAfter (defaultClientConfig apiKey) s pre /\
  (forall config (os : list (ClientOption S)) (o : ClientOption S) s0,
     (forall os1 o1 os2, os = (os1 ++ o1 :: os2)%list ->
        snd (o1 (fst (draftAfter config s0 os1)) (snd (draftAfter config s0 os1))) = None) ->
     applyOptions config (os ++ [o]) s0 =
     o (fst (draftAfter config s0 os)) (snd (draftAfter config s0 os))) /\
  (forall (options : list (ClientOption S)) (s0 s' : S) (client : Client),
     NewClient apiKey options s0 = (Some client, None, s') ->
     (config client, s') = draftAfter (defaultClientConfig apiKey) s0 options).
Proof.
  intros Hkey Hpre Hbad.
  assert (Happ : applyOptions (defaultClientConfig apiKey) (pre ++ bad :: post) s =
                 (c2, s2, Some e)).
  { rewrite applyOptions_app, Hpre. simpl. now rewrite Hbad. }
  split; [intros options s0; reflexivity|].
  split; [apply applyOptions_app|]. split; [exact Happ|]. split.
  { unfold NewClient.
    destruct (String.eqb apiKey "") eqn:E; [apply String.eqb_eq in E; contradiction|].
    now rewrite Happ. }
  split.
  { intros retries config s0 Hneg. unfold WithRetries, configOption.
    apply Z.ltb_lt in Hneg. now rewrite Hneg. }
  split; [apply applyOptions_draft; exact Hpre|]. split.
  - intros config os o s0 Hok.
    assert (Hrun : applyOptions config os s0 =
                   (fst (draftAfter config s0 os), snd (draftAfter config s0 os), None)).
    { clear - Hok. revert Hok. induction os as [|o1 os IH] using rev_ind; intros Hok.
      - reflexivity.
      - rewrite applyOptions_app, IH.
        + specialize (Hok os o1 [] eq_refl).
          unfold draftAfter at 3 4. rewrite fold_left_app. cbn [fold_left].
          fold (draftAfter config s0 os). unfold written. cbn [applyOptions].
          destruct (o1 (fst (draftAfter config s0 os)) (snd (draftAfter config s0 os)))
            as [[c1 s1] [err|]]; [discriminate|reflexivity].
        + intros os1 o2 os2 Heq. apply (Hok os1 o2 (os2 ++ [o1])%list).
          rewrite Heq, <- app_assoc. reflexivity. }
    rewrite applyOptions_app, Hrun. cbn [applyOptions].
    destruct (o _ _) as [[c' s'] [err|]]; reflexivity.
  - intros options s0 s' client. unfold NewClient.
    destruct (String.eqb apiKey "") eqn:E; [apply String.eqb_eq in E; contradiction|].
    destruct (applyOptions (defaultClientConfig apiKey) options s0)
      as [[c' s0'] [err|]] eqn:Eo; [discriminate|].
    intros H. inversion H; subst. cbn [config]. apply applyOptions_draft. exact Eo.
Qed.

Lemma C8_options_in_order_witness :
  applyOptions (defaultClientConfig "test-api-key")
    [logOption "first"; WithUserAgent "custom-agent"] [] =
  (mkClientConfig "test-api-key" BaseURL (30 * Second) DefaultMaxRetries
     "custom-agent" DefaultCountry DefaultSearchLang DefaultUILang None,
   ["first"], None) /\
  NewClient "test-api-key"
    ([logOption "first"; WithUserAgent "custom-agent"] ++
     WithRetries (-1) :: [logOption "last"; WithBaseURL ""]) [] =
  (None, Some (Sentinel ErrInvalidParameters), ["first"]) /\
  (mkClientConfig "test-api-key" BaseURL (30 * Second) DefaultMaxRetries
     "custom-agent" DefaultCountry DefaultSearchLang DefaultUILang None,
   ["first"]) =
  draftAfter (defaultClientConfig "test-api-key") []
    [logOption "first"; WithUserAgent "custom-agent"].
Proof.
  assert (Hpre : applyOptions (defaultClientConfig "test-api-key")
                   [logOption "first"; WithUserAgent "custom-agent"] [] =
                 (mkClientConfig "test-api-key" BaseURL (30 * Second) DefaultMaxRetries
                    "custom-agent" DefaultCountry DefaultSearchLang DefaultUILang None,
                  ["first"], None))
    by (vm_compute; reflexivity).
  split; [exact Hpre|].
  destruct (C8_options_in_order "test-api-key"
              [logOption "first"; WithUserAgent "custom-agent"]
              [logOption "last"; WithBaseURL ""] (WithRetries (-1)) [] ["first"] ["first"]
              (mkClientConfig "test-api-key" BaseURL (30 * Second) DefaultMaxRetries
                 "custom-agent" DefaultCountry DefaultSearchLang DefaultUILang None)
              (mkClientConfig "test-api-key" BaseURL (30 * Second) DefaultMaxRetries
                 "custom-agent" DefaultCountry DefaultSearchLang DefaultUILang None)
              (Sentinel ErrInvalidParameters))
    as (_ & _ & _ & Hnew & _ & Hdraft & _).
  - discriminate.
  - exact Hpre.
  - vm_compute. reflexivity.
  - split; [exact Hnew|exact Hdraft].
Defined.

(** A later option overwrites what an earlier one wrote to the same field,
    and not the other way round. *)
Example options_later_wins :
  option_map (fun client => (cfg_UserAgent (config client), cfg_MaxRetries (config client)))
    (fst (fst (NewClient "test-api-key"
                 [WithUserAgent "first-agent"; WithRetries 5; WithUserAgent "second-agent"]
                 tt))) =
  Some ("second-agent", 5).
Proof. vm_compute. reflexivity. Qed.

(** ** The request URL: joining the base and the endpoint *)

Lemma string_app_assoc' (a b c : string) : (a ++ b) ++ c = a ++ (b ++ c).
Proof.
  induction a as [|ch a IH]; [reflexivity|].
  change (String ch ((a ++ b) ++ c) = String ch (a ++ (b ++ c))).
  now rewrite IH.
Qed.

Lemma TrimSuffix_split (s p : string) :
  s = if strings_HasSuffix s p then strings_TrimSuffix s p ++ p
      else strings_TrimSuffix s p.
Proof.
  induction s as [|ch s IH]; cbn [strings_HasSuffix strings_TrimSuffix].
  - destruct (String.eqb "" p) eqn:E; [|reflexivity].
    apply String.eqb_eq in E. subst p. reflexivity.
  - destruct (String.eqb (String ch s) p) eqn:E; cbn [orb].
    + apply String.eqb_eq in E. subst p. reflexivity.
    + destruct (strings_HasSuffix s p).
      * change (String ch s = String ch (strings_TrimSuffix s p ++ p)).
        f_equal. exact IH.
      * f_equal. exact IH.
Qed.

Lemma TrimPrefix_slash (s : string) :
  s = if strings_HasPrefix s "/" then "/" ++ strings_TrimPrefix s "/"
      else strings_TrimPrefix s "/".
Proof.
  unfold strings_HasPrefix, strings_TrimPrefix.
  destruct s as [|ch s]; [reflexivity|].
  cbn [String.prefix].
  destruct (ascii_dec "/" ch) as [<-|]; [|reflexivity].
  destruct s; reflexivity.
Qed.

Lemma requestBase_join (c : Client) (endpoint : string) :
  requestBase c endpoint =
  strings_TrimSuffix (cfg_BaseURL (config c)) "/" ++
  (if (strings_HasSuffix (cfg_BaseURL (config c)) "/" &&
       strings_HasPrefix endpoint "/")%bool then "//" else "/") ++
  strings_TrimPrefix endpoint "/".
Proof.
  unfold requestBase.
  set (base := cfg_BaseURL (config c)).
  pose proof (TrimSuffix_split base "/") as Hb.
  pose proof (TrimPrefix_slash endpoint) as He.
  set (T := strings_TrimSuffix base "/") in *.
  set (P := strings_TrimPrefix endpoint "/") in *.
  clearbody T P.
  destruct (strings_HasSuffix base "/"), (strings_HasPrefix endpoint "/");
    cbn [negb andb]; rewrite Hb, He; rewrite ?string_app_assoc'; reflexivity.
Qed.

(** C3, as the code has it: a slash is added only when the base URL does
    not end with one and the endpoint does not start with one, so the two
    are joined by exactly one slash unless both bring their own, in which
    case both are kept. *)
Theorem C3_base_endpoint_join (c : Client) (endpoint : string) (params : WebSearchParams) :
  let baseURL := cfg_BaseURL (config c) in
  let both := (strings_HasSuffix baseURL "/" && strings_HasPrefix endpoint "/")%bool in
  buildRequestURL c endpoint params =
    (strings_TrimSuffix baseURL "/" ++ (if both then "//" else "/") ++
     strings_TrimPrefix endpoint "/" ++ "?" ++ Values_Encode (requestValues params), None) /\
  (both = false ->
   requestBase c endpoint = joinedWithOneSlash baseURL endpoint).
Proof.
  intros baseURL both. split.
  - unfold buildRequestURL. rewrite requestBase_join. fold baseURL. fold both.
    now rewrite !string_app_assoc'.
  - intros Hboth. rewrite requestBase_join. fold baseURL. fold both.
    now rewrite Hboth.
Qed.

Lemma C3_base_endpoint_join_witness :
  requestBase (clientAt BaseURL) WebSearchEndpoint =
    joinedWithOneSlash BaseURL WebSearchEndpoint /\
  requestBase (clientAt "http://127.0.0.1:8080/res/v1/") "web/search" =
    joinedWithOneSlash "http://127.0.0.1:8080/res/v1/" "web/search".
Proof.
  split.
  - apply (C3_base_endpoint_join (clientAt BaseURL) WebSearchEndpoint zeroWebSearchParams).
    reflexivity.
  - apply (C3_base_endpoint_join (clientAt "http://127.0.0.1:8080/res/v1/")
             "web/search" zeroWebSearchParams).
    reflexivity.
Defined.

(** C3, as stated, fails when the base URL ends with a slash and the
    endpoint starts with one: both slashes are kept. *)
Lemma C3_counterexample :
  fst (buildRequestURL (clientAt "https://api.search.brave.com/res/v1/")
         WebSearchEndpoint zeroWebSearchParams) =
    "https://api.search.brave.com/res/v1//web/search?spellcheck=false&text_decorations=false" /\
  ~ (exists query,
       fst (buildRequestURL (clientAt "https://api.search.brave.com/res/v1/")
              WebSearchEndpoint zeroWebSearchParams) =
       joinedWithOneSlash "https://api.search.brave.com/res/v1/" WebSearchEndpoint ++
       "?" ++ query).
Proof.
  split.
  - vm_compute. reflexivity.
  - intros [query H]. vm_compute in H. discriminate H.
Qed.

(** ** The request URL: the query string *)

Lemma lookup_Values_Add_eq (m : Values) (k v : string) :
  Values_Add m k v !! k = Some (default [] (m !! k) ++ [v])%list.
Proof. unfold Values_Add. apply lookup_insert_eq. Qed.

Lemma lookup_Values_Add_ne (m : Values) (k k' v : string) :
  k' <> k -> Values_Add m k' v !! k = m !! k.
Proof. intros H. unfold Values_Add. now apply lookup_insert_ne. Qed.

Lemma lookup_addIf_eq (b : bool) (m : Values) (k v : string) :
  addIf b k v m !! k = if b then Some (default [] (m !! k) ++ [v])%list else m !! k.
Proof. destruct b; simpl; [apply lookup_Values_Add_eq|reflexivity]. Qed.

Lemma lookup_addIf_ne (b : bool) (m : Values) (k k' v : string) :
  k' <> k -> addIf b k' v m !! k = m !! k.
Proof. intros H. destruct b; simpl; [now apply lookup_Values_Add_ne|reflexivity]. Qed.

Ltac lookup_values :=
  repeat first
    [ rewrite lookup_addIf_eq
    | rewrite lookup_Values_Add_eq
    | rewrite lookup_addIf_ne by congruence
    | rewrite lookup_Values_Add_ne by congruence
    | rewrite lookup_empty ].

Ltac split_key k key :=
  destruct (String.eqb_spec k key) as [->|?].

(** The query values hold, under each wire name of the table, the one
    value the table gives, and nothing else. *)
Lemma requestValues_lookup (p : WebSearchParams) (k : string) :
  requestValues p !! k = (fun v => [v]) <$> wireParam p k.
Proof.
  unfold requestValues, wireParam, nonEmpty, strconv_FormatBool.
  split_key k "q"; [lookup_values; now destruct (String.eqb (p_Query p) "")|].
  split_key k "country"; [lookup_values; now destruct (String.eqb (p_Country p) "")|].
  split_key k "search_lang"; [lookup_values; now destruct (String.eqb (p_SearchLang p) "")|].
  split_key k "ui_lang"; [lookup_values; now destruct (String.eqb (p_UILang p) "")|].
  split_key k "count"; [lookup_values; now destruct (0 <? p_Count p)|].
  split_key k "offset"; [lookup_values; now destruct (0 <? p_Offset p)|].
  split_key k "safesearch"; [lookup_values; now destruct (String.eqb (p_SafeSearch p) "")|].
  split_key k "freshness"; [lookup_values; now destruct (String.eqb (p_Freshness p) "")|].
  split_key k "text_decorations"; [lookup_values; reflexivity|].
  split_key k "spellcheck"; [lookup_values; reflexivity|].
  split_key k "result_filter";
    [lookup_values; now destruct (String.eqb (p_ResultFilter p) "")|].
  split_key k "goggles"; [lookup_values; now destruct (String.eqb (p_Goggles p) "")|].
  split_key k "units"; [lookup_values; now destruct (String.eqb (p_Units p) "")|].
  split_key k "extra_snippets"; [lookup_values; now destruct (p_ExtraSnippets p)|].
  split_key k "summary"; [lookup_values; now destruct (p_Summary p)|].
  lookup_values. reflexivity.
Qed.

(** The items [Values.Encode] writes are the values of the map. *)
Lemma Values_pairs_In (m : Values) (k v : string) :
  In (k, v) (Values_pairs m) <-> exists vs, m !! k = Some vs /\ In v vs.
Proof.
  unfold Values_pairs. rewrite in_flat_map. split.
  - intros (k' & _ & Hin). apply in_map_iff in Hin as (x & Heq & Hx).
    inversion Heq; subst k' x.
    destruct (m !! k) as [vs|]; [|contradiction].
    exists vs. auto.
  - intros (vs & Hk & Hv). exists k. split.
    + apply list_elem_of_In. rewrite merge_sort_Permutation.
      apply list_elem_of_In, in_map_iff. exists (k, vs). split; [reflexivity|].
      apply list_elem_of_In, elem_of_map_to_list. exact Hk.
    + rewrite Hk. simpl. apply in_map_iff. exists v. auto.
Qed.

Lemma requestValues_pairs (p : WebSearchParams) (k v : string) :
  In (k, v) (Values_pairs (requestValues p)) <-> wireParam p k = Some v.
Proof.
  rewrite Values_pairs_In, requestValues_lookup.
  destruct (wireParam p k) as [x|]; simpl.
  - split.
    + intros (vs & Hvs & Hin). inversion Hvs; subst vs.
      destruct Hin as [->|[]]. reflexivity.
    + intros Heq. inversion Heq; subst x. exists [v]. split; [reflexivity|now left].
  - split; [intros (vs & Hvs & _); discriminate|discriminate].
Qed.

Lemma NoDup_keys_of_pairs (m : Values) (keys : list string) :
  NoDup keys ->
  (forall k vs, m !! k = Some vs -> (length vs <= 1)%nat) ->
  NoDup (map fst (flat_map (fun k => map (fun x => (k, x)) (default [] (m !! k))) keys)).
Proof.
  intros Hnd Hone. induction Hnd as [|k keys Hnotin Hnd IH]; simpl.
  - constructor.
  - rewrite map_app.
    assert (Hrest : ~ In k (map fst (flat_map
               (fun k => map (fun x => (k, x)) (default [] (m !! k))) keys))).
    { intros Hin. apply in_map_iff in Hin as ([k' x] & Hk & Hin). simpl in Hk. subst k'.
      apply in_flat_map in Hin as (k' & Hk' & Hin).
      apply in_map_iff in Hin as (y & Heq & _). inversion Heq; subst k'.
      apply Hnotin, list_elem_of_In, Hk'. }
    destruct (m !! k) as [vs|] eqn:E; simpl; [|exact IH].
    specialize (Hone k vs E).
    destruct vs as [|x [|y vs]]; simpl in *; [exact IH| |lia].
    apply NoDup_cons. split; [|exact IH].
    intros Hin. apply Hrest, list_elem_of_In, Hin.
Qed.

Lemma requestValues_keys_NoDup (p : WebSearchParams) :
  NoDup (map fst (Values_pairs (requestValues p))).
Proof.
  unfold Values_pairs. apply NoDup_keys_of_pairs.
  - rewrite merge_sort_Permutation. apply NoDup_fst_map_to_list.
  - intros k vs Hk. rewrite requestValues_lookup in Hk.
    destruct (wireParam p k); inversion Hk; subst vs. simpl. lia.
Qed.

Example buildRequestURL_test :
  buildRequestURL (clientAt BaseURL) WebSearchEndpoint allParams =
  ("https://api.search.brave.com/res/v1/web/search?count=10&country=JP&extra_snippets=true&freshness=pw&goggles=custom-goggle&offset=2&q=test+query&result_filter=news&safesearch=strict&search_lang=ja&spellcheck=false&summary=true&text_decorations=true&ui_lang=ja-JP&units=metric",
   None).
Proof. vm_compute. reflexivity. Qed.

(** C4: the query string is made of one [key=value] item per entry of
    the table of wire names, and of nothing else: [text_decorations] and
    [spellcheck] are always there, with [true] or [false];
    [extra_snippets] and [summary] only when set, with [true]; [count]
    and [offset] only when positive, in decimal; a string field only when
    it is not empty, with its value; no key is written twice; the week
    freshness of the package's test is sent as [freshness=pw]. *)
Theorem C4_query_string (c : Client) (endpoint : string) (p : WebSearchParams) :
  let items := Values_pairs (requestValues p) in
  buildRequestURL c endpoint p = (requestBase c endpoint ++ "?" ++ renderPairs items, None) /\
  (forall key value, In (key, value) items <-> wireParam p key = Some value) /\
  NoDup (map fst items) /\
  In ("text_decorations", strconv_FormatBool (p_TextDecorations p)) items /\
  In ("spellcheck", strconv_FormatBool (p_Spellcheck p)) items /\
  (forall v, In ("extra_snippets", v) items <-> p_ExtraSnippets p = true /\ v = "true") /\
  (forall v, In ("summary", v) items <-> p_Summary p = true /\ v = "true") /\
  (forall v, In ("count", v) items <-> 0 < p_Count p /\ v = strconv_Itoa (p_Count p)) /\
  (forall v, In ("offset", v) items <-> 0 < p_Offset p /\ v = strconv_Itoa (p_Offset p)) /\
  Forall (fun nf => forall v, In (fst nf, v) items <-> snd nf p <> "" /\ v = snd nf p)
    stringFields /\
  In ("freshness", "pw") (Values_pairs (requestValues allParams)).
Proof.
  intros items.
  assert (Htext : forall s v : string,
            (if String.eqb s "" then None else Some s) = Some v <-> s <> "" /\ v = s).
  { intros s v. destruct (String.eqb_spec s "") as [->|Hne];
      intuition (try congruence). }
  assert (Hpos : forall n v,
            (if 0 <? n then Some (strconv_Itoa n) else None) = Some v <->
            0 < n /\ v = strconv_Itoa n).
  { intros n v. destruct (Z.ltb_spec 0 n); intuition (try congruence; try lia). }
  assert (Hflag : forall (b : bool) v,
            (if b then Some "true" else None) = Some v <-> b = true /\ v = "true").
  { intros [] v; intuition (try congruence). }
  subst items.
  split; [reflexivity|].
  split; [apply requestValues_pairs|].
  split; [apply requestValues_keys_NoDup|].
  split; [apply requestValues_pairs; reflexivity|].
  split; [apply requestValues_pairs; reflexivity|].
  split; [intros v; rewrite requestValues_pairs; apply Hflag|].
  split; [intros v; rewrite requestValues_pairs; apply Hflag|].
  split; [intros v; rewrite requestValues_pairs; apply Hpos|].
  split; [intros v; rewrite requestValues_pairs; apply Hpos|].
  split.
  - unfold stringFields.
    repeat (apply Forall_cons; split;
            [intros v; rewrite requestValues_pairs; apply Htext|]).
    apply Forall_nil. exact I.
  - apply requestValues_pairs. reflexivity.
Qed.

(** ** The defaults of [WebSearch] *)

Lemma makeRequest_trace_head w c ctx method url result :
  exists tr, snd (makeRequest w c ctx method url None result) = EvNewRequest method url :: tr.
Proof.
  unfold makeRequest.
  destruct (w_NewRequest w method url); [eexists; reflexivity|].
  destruct (retryLoop _ _ _ _ _ _ _ _) as [[err|resp respErr] tr].
  - eexists; reflexivity.
  - destruct (handleResponse _ _ _ _ _) as [out tr']. eexists; reflexivity.
Qed.

Lemma WebSearch_valid w c ctx query params :
  validQuery query = true ->
  snd (WebSearch w c ctx query params) =
  snd (makeRequest w c ctx "GET"
         (fst (buildRequestURL c WebSearchEndpoint (searchParamsOf c query params)))
         None (Some zeroWebSearchResponse)).
Proof.
  unfold validQuery, WebSearch. intros H.
  apply andb_true_iff in H as [H1 H2].
  apply negb_true_iff in H1. apply negb_true_iff in H2.
  rewrite H1, H2. unfold buildRequestURL. cbv beta iota zeta.
  destruct (makeRequest _ _ _ _ _ _ _) as [[[[err|] r]|] tr]; reflexivity.
Qed.

(** C9, as the code has it: for a valid query and no parameters, or
    parameters whose [TextDecorations] and [Spellcheck] are unset, the
    request is built for a URL whose query string has
    [text_decorations=false] and [spellcheck=false]; it has an [offset]
    item exactly when the parameters carry a positive offset, so none
    without parameters.  [WebSearch] sets the query and fills country,
    search language, UI language, count and safe-search; the other
    fields, flags included, stay as given.  [DefaultTextDecor] and
    [DefaultSpellCheck] are [true] and reach the URL only through
    [NewWebSearchParams]. *)
Theorem C9_default_flags (w : World) (c : Client) (ctx : Context) (query : string)
    (params : option WebSearchParams) :
  validQuery query = true ->
  flagsUnset params = true ->
  let given := paramsOrZero params in
  let sent := searchParamsOf c query params in
  let items := Values_pairs (requestValues sent) in
  (exists tr,
     snd (WebSearch w c ctx query params) =
     EvNewRequest "GET" (requestBase c WebSearchEndpoint ++ "?" ++ renderPairs items) :: tr) /\
  In ("text_decorations", "false") items /\
  In ("spellcheck", "false") items /\
  ((exists v, In ("offset", v) items) <-> 0 < p_Offset given) /\
  (params = None -> ~ exists v, In ("offset", v) items) /\
  (p_Query sent = query /\
   p_Offset sent = p_Offset given /\
   p_Freshness sent = p_Freshness given /\
   p_TextDecorations sent = p_TextDecorations given /\
   p_Spellcheck sent = p_Spellcheck given /\
   p_ResultFilter sent = p_ResultFilter given /\
   p_Goggles sent = p_Goggles given /\
   p_Units sent = p_Units given /\
   p_ExtraSnippets sent = p_ExtraSnippets given /\
   p_Summary sent = p_Summary given) /\
  (DefaultTextDecor = true /\ DefaultSpellCheck = true /\
   p_TextDecorations NewWebSearchParams = DefaultTextDecor /\
   p_Spellcheck NewWebSearchParams = DefaultSpellCheck /\
   let items' :=
     Values_pairs (requestValues (searchParamsOf c query (Some NewWebSearchParams))) in
   In ("text_decorations", "true") items' /\ In ("spellcheck", "true") items').
Proof.
  intros Hvalid Hflags given sent items.
  assert (Hdec : p_TextDecorations sent = false /\ p_Spellcheck sent = false).
  { subst sent. destruct params as [p|]; simpl in *; [|auto].
    apply andb_true_iff in Hflags as [H1 H2].
    apply negb_true_iff in H1. apply negb_true_iff in H2. auto. }
  destruct Hdec as [Hdec Hspell].
  assert (Hsame : p_Offset sent = p_Offset given) by reflexivity.
  assert (Hoff : (exists v, In ("offset", v) items) <-> 0 < p_Offset given).
  { subst items. split.
    - intros [v Hv]. apply requestValues_pairs in Hv.
      change (wireParam sent "offset")
        with (if 0 <? p_Offset sent then Some (strconv_Itoa (p_Offset sent)) else None) in Hv.
      rewrite Hsame in Hv.
      destruct (Z.ltb_spec 0 (p_Offset given)); [assumption|discriminate].
    - intros Hpos. exists (strconv_Itoa (p_Offset given)).
      apply requestValues_pairs.
      change (wireParam sent "offset")
        with (if 0 <? p_Offset sent then Some (strconv_Itoa (p_Offset sent)) else None).
      rewrite Hsame. apply Z.ltb_lt in Hpos. now rewrite Hpos. }
  split; [|split; [|split; [|split; [|split; [|split]]]]].
  - rewrite (WebSearch_valid w c ctx query params Hvalid).
    apply makeRequest_trace_head.
  - apply requestValues_pairs.
    change (wireParam sent "text_decorations")
      with (Some (if p_TextDecorations sent then "true" else "false")).
    now rewrite Hdec.
  - apply requestValues_pairs.
    change (wireParam sent "spellcheck")
      with (Some (if p_Spellcheck sent then "true" else "false")).
    now rewrite Hspell.
  - exact Hoff.
  - intros -> Hex. apply Hoff in Hex. simpl in Hex. lia.
  - repeat split; reflexivity.
  - repeat split; apply requestValues_pairs; reflexivity.
Qed.

Lemma C9_default_flags_witness :
  (exists tr,
     snd (WebSearch sampleWorld (clientAt BaseURL) background "go programming" None) =
     EvNewRequest "GET"
       "https://api.search.brave.com/res/v1/web/search?count=20&country=US&q=go+programming&safesearch=moderate&search_lang=en&spellcheck=false&text_decorations=false&ui_lang=en-US"
     :: tr) /\
  ~ (exists v,
       In ("offset", v)
          (Values_pairs (requestValues (searchParamsOf (clientAt BaseURL)
                                          "go programming" None)))).
Proof.
  destruct (C9_default_flags sampleWorld (clientAt BaseURL) background "go programming" None)
    as (H1 & _ & _ & _ & H5 & _).
  - vm_compute. reflexivity.
  - reflexivity.
  - split; [exact H1|apply H5; reflexivity].
Defined.

(** C9, as stated, fails for parameters that leave the flags unset and
    carry an offset: the query string has an [offset] item. *)
Lemma C9_counterexample :
  validQuery "go" = true /\
  flagsUnset (Some (offsetOnly 5)) = true /\
  In ("offset", "5")
     (Values_pairs (requestValues (searchParamsOf (clientAt BaseURL) "go"
                                     (Some (offsetOnly 5))))) /\
  (exists tr,
     snd (WebSearch sampleWorld (clientAt BaseURL) background "go" (Some (offsetOnly 5))) =
     EvNewRequest "GET"
       "https://api.search.brave.com/res/v1/web/search?count=20&country=US&offset=5&q=go&safesearch=moderate&search_lang=en&spellcheck=false&text_decorations=false&ui_lang=en-US"
     :: tr) /\
  ~ (forall params,
       flagsUnset params = true ->
       ~ exists v,
           In ("offset", v)
              (Values_pairs (requestValues (searchParamsOf (clientAt BaseURL) "go" params)))).
Proof.
  assert (Hin : In ("offset", "5")
                  (Values_pairs (requestValues (searchParamsOf (clientAt BaseURL) "go"
                                                  (Some (offsetOnly 5)))))).
  { apply requestValues_pairs. reflexivity. }
  split; [vm_compute; reflexivity|].
  split; [reflexivity|].
  split; [exact Hin|].
  split.
  - rewrite WebSearch_valid by (vm_compute; reflexivity).
    vm_compute. eexists. reflexivity.
  - intros H. apply (H (Some (offsetOnly 5)) eq_refl). exists "5". exact Hin.
Qed.

(** ** The retry loop *)

Section RetryLoop.

Variable do : nat -> DoResult.
Variable req : Request.
Variable ctx : Context.
Variable N : Z.

Lemma attempts_do (r : Request) (tr : list Event) :
  attempts (EvDo r :: tr) = S (attempts tr).
Proof. reflexivity. Qed.

Lemma attempts_app (tr1 tr2 : list Event) :
  attempts (tr1 ++ tr2) = (attempts tr1 + attempts tr2)%nat.
Proof. unfold attempts. now rewrite filter_app, length_app. Qed.

Lemma attempts_pause (resp : option Response) (d : Z) (tr : list Event) :
  attempts (match resp with Some _ => [EvClose] | None => [] end ++ EvWait d :: tr) =
  attempts tr.
Proof. destruct resp; reflexivity. Qed.

(** The loop itself never reads the rate-limit headers. *)
Lemma retryLoop_no_rate_limit iters attempt resp0 err0 rl :
  ~ In (EvRateLimit rl) (snd (retryLoop do req ctx N iters attempt resp0 err0)).
Proof.
  revert attempt resp0 err0.
  induction iters as [|iters IH]; intros attempt resp0 err0; simpl; [tauto|].
  destruct (stopsLoop _); simpl; [intros [H|[]]; discriminate|].
  destruct (attempt =? N).
  { destruct (do (Z.to_nat attempt)); simpl; intros [H|[]]; discriminate. }
  destruct (ctx (Z.to_nat attempt)).
  - simpl. intros [H|H]; [discriminate|].
    apply in_app_or in H as [H|[H|[]]]; [|discriminate].
    destruct (do_resp _); simpl in H; [destruct H as [H|[]]; discriminate|contradiction].
  - specialize (IH (attempt + 1) (do_resp (do (Z.to_nat attempt)))
                  (do_err (do (Z.to_nat attempt)))).
    destruct (retryLoop _ _ _ _ _ _ _ _) as [exit tr]. simpl in *.
    intros [H|H]; [discriminate|].
    apply in_app_or in H as [H|[H|H]]; [|discriminate|contradiction].
    destruct (do_resp _); simpl in H; [destruct H as [H|[]]; discriminate|contradiction].
Qed.

(** When every attempt is retriable and no wait is cut short, the loop
    runs all its iterations and returns the error of the last attempt. *)
Lemma retryLoop_exhaust iters attempt resp0 err0 :
  0 <= attempt ->
  Z.of_nat iters = N + 1 - attempt ->
  (0 < iters)%nat ->
  (forall n, (Z.to_nat attempt <= n)%nat -> stopsLoop (do n) = false) ->
  (forall n, (Z.to_nat attempt <= n)%nat -> Z.of_nat n < N -> ctx n = None) ->
  exists tr,
    retryLoop do req ctx N iters attempt resp0 err0 =
      (LoopReturn (Some (finalError (do (Z.to_nat N)))), tr) /\
    attempts tr = iters.
Proof.
  revert attempt resp0 err0.
  induction iters as [|iters IH]; intros attempt resp0 err0 Hpos Hiters Hlt Hretry Hctx;
    [lia|].
  cbn [retryLoop].
  assert (Hs : stopsLoop (do (Z.to_nat attempt)) = false) by (apply Hretry; lia).
  rewrite Hs.
  destruct (Z.eqb_spec attempt N) as [->|Hne].
  - assert (iters = 0%nat) by lia. subst iters.
    destruct (do (Z.to_nat N)); eexists; split; reflexivity.
  - assert (Hc : ctx (Z.to_nat attempt) = None) by (apply Hctx; lia).
    rewrite Hc.
    destruct (IH (attempt + 1) (do_resp (do (Z.to_nat attempt)))
                (do_err (do (Z.to_nat attempt)))) as (tr & Heq & Hatt).
    + lia.
    + lia.
    + lia.
    + intros n Hn. apply Hretry. lia.
    + intros n Hn. apply Hctx. lia.
    + rewrite Heq. eexists; split; [reflexivity|].
      rewrite attempts_do, attempts_pause. now rewrite Hatt.
Qed.

(** An attempt that does not have to be retried is the last one. *)
Lemma retryLoop_stops iters attempt resp0 err0 (k : nat) :
  0 <= attempt ->
  (Z.to_nat attempt <= k)%nat ->
  stopsLoop (do k) = true ->
  (attempts (snd (retryLoop do req ctx N iters attempt resp0 err0)) <=
   k - Z.to_nat attempt + 1)%nat.
Proof.
  revert attempt resp0 err0.
  induction iters as [|iters IH]; intros attempt resp0 err0 Hpos Hk Hstop;
    cbn [retryLoop].
  - unfold attempts; simpl; lia.
  - destruct (stopsLoop (do (Z.to_nat attempt))) eqn:Es; simpl.
    { unfold attempts; simpl; lia. }
    assert (Z.to_nat attempt <> k) by (intros Heq; rewrite Heq in Es; congruence).
    destruct (attempt =? N).
    { destruct (do (Z.to_nat attempt)); unfold attempts; simpl; lia. }
    destruct (ctx (Z.to_nat attempt)).
    + simpl. rewrite attempts_do.
      destruct (do_resp _); unfold attempts; simpl; lia.
    + specialize (IH (attempt + 1) (do_resp (do (Z.to_nat attempt)))
                    (do_err (do (Z.to_nat attempt)))).
      destruct (retryLoop _ _ _ _ _ _ _ _) as [exit tr]. simpl in *.
      rewrite attempts_do, attempts_pause.
      assert (attempts tr <= k - Z.to_nat (attempt + 1) + 1)%nat
        by (apply IH; [lia|lia|assumption]).
      lia.
Qed.

(** The loop is left without [return] only on a response that does not
    have to be retried, the one of its last attempt. *)
Lemma retryLoop_done iters attempt resp0 err0 resp err tr :
  0 <= attempt ->
  Z.of_nat iters = N + 1 - attempt ->
  retryLoop do req ctx N iters attempt resp0 err0 = (LoopDone resp err, tr) ->
  (iters = 0%nat /\ resp = resp0 /\ err = err0 /\ tr = []) \/
  (exists n r,
     resp = Some r /\ err = None /\ do n = DoResp r /\ StatusCode r < 500 /\
     (Z.to_nat attempt <= n)%nat /\ Z.of_nat n <= N /\
     attempts tr = (n - Z.to_nat attempt + 1)%nat).
Proof.
  revert attempt resp0 err0 tr.
  induction iters as [|iters IH]; intros attempt resp0 err0 tr Hpos Hiters;
    cbn [retryLoop].
  - intros H. inversion H; subst. left. auto.
  - destruct (stopsLoop (do (Z.to_nat attempt))) eqn:Es.
    { intros H. inversion H; subst. right.
      destruct (do (Z.to_nat attempt)) as [r|e r] eqn:Ed; simpl in Es; [|discriminate].
      exists (Z.to_nat attempt), r. simpl. apply Z.ltb_lt in Es.
      repeat split; try assumption; try lia. unfold attempts; simpl; lia. }
    destruct (Z.eqb_spec attempt N) as [->|Hne].
    { destruct (do (Z.to_nat N)); discriminate. }
    destruct (ctx (Z.to_nat attempt)); [discriminate|].
    destruct (retryLoop do req ctx N iters (attempt + 1) _ _) as [exit tr'] eqn:Er.
    intros H. inversion H; subst exit tr.
    apply IH in Er; [|lia|lia].
    destruct Er as [(Hz & _)|(n & r & Hr & He & Hd & Hsc & Hn & HN & Hatt)]; [lia|].
    right. exists n, r. repeat split; try assumption; try lia.
    rewrite attempts_do, attempts_pause, Hatt. lia.
Qed.

(** If the attempts before [k] are retriable and their waits are not cut
    short, and attempt [k] is not retriable, the loop ends on attempt [k]. *)
Lemma retryLoop_reaches iters attempt resp0 err0 (k : nat) :
  0 <= attempt ->
  Z.of_nat iters = N + 1 - attempt ->
  (Z.to_nat attempt <= k)%nat ->
  Z.of_nat k <= N ->
  stopsLoop (do k) = true ->
  (forall n, (Z.to_nat attempt <= n < k)%nat -> stopsLoop (do n) = false /\ ctx n = None) ->
  exists tr,
    retryLoop do req ctx N iters attempt resp0 err0 =
      (LoopDone (do_resp (do k)) (do_err (do k)), tr) /\
    attempts tr = (k - Z.to_nat attempt + 1)%nat.
Proof.
  revert attempt resp0 err0.
  induction iters as [|iters IH]; intros attempt resp0 err0 Hpos Hiters Hk HkN Hstop Hbefore;
    [lia|].
  cbn [retryLoop]. destruct (Nat.eq_dec (Z.to_nat attempt) k) as [->|Hne].
  - rewrite Hstop. eexists; split; [reflexivity|]. unfold attempts; simpl; lia.
  - destruct (Hbefore (Z.to_nat attempt)) as [Hs Hc]; [lia|].
    rewrite Hs, Hc.
    destruct (Z.eqb_spec attempt N) as [->|HneN]; [lia|].
    destruct (IH (attempt + 1) (do_resp (do (Z.to_nat attempt)))
                (do_err (do (Z.to_nat attempt)))) as (tr & Heq & Hatt);
      try lia; try assumption.
    + intros n Hn. apply Hbefore. lia.
    + rewrite Heq. eexists; split; [reflexivity|].
      rewrite attempts_do, attempts_pause, Hatt. lia.
Qed.

(** If the attempts before [k] are retried, attempt [k] has to be retried
    too and the context is done during the wait after it, the loop returns
    the context's error: attempt [k] is the last one and that wait is the
    last thing the loop does. *)
Lemma retryLoop_cancelled iters attempt resp0 err0 (k : nat) (e : error) :
  0 <= attempt ->
  Z.of_nat iters = N + 1 - attempt ->
  (Z.to_nat attempt <= k)%nat ->
  Z.of_nat k < N ->
  (forall n, (Z.to_nat attempt <= n < k)%nat -> stopsLoop (do n) = false /\ ctx n = None) ->
  stopsLoop (do k) = false ->
  ctx k = Some e ->
  exists tr,
    retryLoop do req ctx N iters attempt resp0 err0 =
      (LoopReturn (Some e), (tr ++ [EvWait (backoffTime (Z.of_nat k))])%list) /\
    attempts tr = (k - Z.to_nat attempt + 1)%nat.
Proof.
  revert attempt resp0 err0.
  induction iters as [|iters IH];
    intros attempt resp0 err0 Hpos Hiters Hk HkN Hbefore Hretry Hdone; [lia|].
  cbn [retryLoop]. destruct (Nat.eq_dec (Z.to_nat attempt) k) as [Heq|Hne].
  - rewrite Heq, Hretry, Hdone.
    destruct (Z.eqb_spec attempt N) as [->|HneN]; [lia|].
    replace attempt with (Z.of_nat k) by lia.
    exists (EvDo req :: match do_resp (do k) with Some _ => [EvClose] | None => [] end).
    split; [reflexivity|].
    rewrite attempts_do. destruct (do_resp (do k)); unfold attempts; simpl; lia.
  - destruct (Hbefore (Z.to_nat attempt)) as [Hs Hc]; [lia|].
    rewrite Hs, Hc.
    destruct (Z.eqb_spec attempt N) as [->|HneN]; [lia|].
    destruct (IH (attempt + 1) (do_resp (do (Z.to_nat attempt)))
                (do_err (do (Z.to_nat attempt)))) as (tr & Heq & Hatt);
      try lia; try assumption.
    + intros n Hn. apply Hbefore. lia.
    + rewrite Heq.
      exists (EvDo req :: match do_resp (do (Z.to_nat attempt)) with
                          | Some _ => [EvClose]
                          | None => []
                          end ++ EvWait (backoffTime attempt) :: tr).
      split.
      * f_equal. simpl. f_equal. rewrite <- app_assoc. reflexivity.
      * rewrite attempts_do, attempts_pause, Hatt. lia.
Qed.

End RetryLoop.

Lemma handleResponse_no_attempt w c result resp respErr :
  attempts (snd (handleResponse w c result resp respErr)) = 0%nat.
Proof.
  unfold handleResponse. destruct resp as [resp|]; [|reflexivity].
  destruct (negb _).
  - destruct (strings_Contains _ _); [|reflexivity].
    destruct (w_gzipNewReader _ _); reflexivity.
  - destruct result as [v|]; [|reflexivity].
    destruct (if strings_Contains _ _ then _ else _) as [stream|err]; [|reflexivity].
    destruct (body_err stream); [reflexivity|].
    destruct (w_jsonUnmarshal _ _ _) as [v' [e|]]; reflexivity.
Qed.

(** The rate-limit headers are read exactly on a response with status 200. *)
Lemma handleResponse_rate_limit w c result resp respErr rl :
  In (EvRateLimit rl) (snd (handleResponse w c result (Some resp) respErr)) <->
  StatusCode resp = StatusOK /\ rl = parseRateLimitHeaders c resp.
Proof.
  destruct (Z.eq_dec (StatusCode resp) StatusOK) as [Heq|Hne].
  - unfold handleResponse. apply Z.eqb_eq in Heq as Heqb. rewrite Heqb. simpl.
    assert (Hiff : forall tl : list Event,
              ~ In (EvRateLimit rl) tl ->
              (In (EvRateLimit rl) (EvRateLimit (parseRateLimitHeaders c resp) :: tl) <->
               StatusCode resp = StatusOK /\ rl = parseRateLimitHeaders c resp)).
    { intros tl Hnot. simpl. split.
      - intros [H|H]; [inversion H; auto|contradiction].
      - intros [_ ->]. now left. }
    assert (Hclose : ~ In (EvRateLimit rl) [EvClose])
      by (intros [H|[]]; discriminate).
    destruct result as [v|]; [|now apply Hiff].
    destruct (if strings_Contains _ _ then _ else _) as [stream|err]; [|now apply Hiff].
    destruct (body_err stream); [now apply Hiff|].
    destruct (w_jsonUnmarshal _ _ _) as [v' [e|]]; now apply Hiff.
  - rewrite handleResponse_not_ok by assumption.
    split; [|intros [? _]; contradiction].
    destruct (brokenGzip w resp); simpl; intros [H|[]]; discriminate.
Qed.

(** ** [makeRequest] as a whole *)

Lemma makeRequest_built w c ctx method url body result :
  marshals body = true ->
  w_NewRequest w method url = None ->
  makeRequest w c ctx method url body result =
  match retryLoop (client_Do w c (requestOf c method url body))
          (requestOf c method url body) ctx (cfg_MaxRetries (config c))
          (Z.to_nat (cfg_MaxRetries (config c) + 1)) 0 None None with
  | (LoopReturn err, tr) => (Returned (err, result), EvNewRequest method url :: tr)
  | (LoopDone resp respErr, tr) =>
      (fst (handleResponse w c result resp respErr),
       EvNewRequest method url :: tr ++ snd (handleResponse w c result resp respErr))
  end.
Proof.
  intros Hbody Hreq. unfold makeRequest. rewrite Hreq.
  destruct body as [[d|e]|]; [|discriminate|];
    destruct (retryLoop _ _ _ _ _ _ _ _) as [[err|resp respErr] tr]; try reflexivity;
    destruct (handleResponse _ _ _ _ _); reflexivity.
Qed.

Lemma attempts_request (method url : string) (tr tr' : list Event) :
  attempts tr' = 0%nat ->
  attempts (EvNewRequest method url :: tr ++ tr') = attempts tr.
Proof.
  intros H.
  change (EvNewRequest method url :: tr ++ tr')
    with (([EvNewRequest method url] ++ tr) ++ tr')%list.
  rewrite !attempts_app, H. unfold attempts at 1; simpl. lia.
Qed.

Lemma makeRequest_rate_limit w c ctx method url body result rl :
  In (EvRateLimit rl) (snd (makeRequest w c ctx method url body result)) ->
  exists n resp,
    client_Do w c (requestOf c method url body) n = DoResp resp /\
    StatusCode resp = StatusOK /\
    rl = parseRateLimitHeaders c resp /\
    attempts (snd (makeRequest w c ctx method url body result)) = S n.
Proof.
  destruct (marshals body) eqn:Hbody.
  2:{ destruct body as [[d|e]|]; try discriminate. simpl. tauto. }
  destruct (w_NewRequest w method url) as [err|] eqn:Hreq.
  { unfold makeRequest. rewrite Hreq.
    destruct body as [[d|e]|]; simpl; intros H; try contradiction;
      destruct H as [H|[]]; discriminate. }
  rewrite makeRequest_built by assumption.
  set (N := cfg_MaxRetries (config c)).
  set (req := requestOf c method url body).
  destruct (retryLoop _ _ _ _ _ _ _ _) as [[err|resp respErr] tr] eqn:Eloop.
  - simpl. intros [H|H]; [discriminate|].
    exfalso. eapply retryLoop_no_rate_limit. rewrite Eloop. exact H.
  - simpl. intros [H|H]; [discriminate|].
    apply in_app_or in H as [H|H].
    { exfalso. eapply retryLoop_no_rate_limit. rewrite Eloop. exact H. }
    destruct resp as [resp|]; [|contradiction].
    apply handleResponse_rate_limit in H as [Hok ->].
    destruct (Z.le_gt_cases 0 (N + 1)) as [Hn|Hn].
    + apply retryLoop_done in Eloop; [|lia|lia].
      destruct Eloop as [(_ & Hnone & _)|(n & r & Hr & _ & Hd & _ & _ & _ & Hatt)];
        [discriminate|].
      inversion Hr; subst r. exists n, resp.
      repeat split; try assumption.
      rewrite attempts_request by apply handleResponse_no_attempt.
      rewrite Hatt. simpl. lia.
    + replace (Z.to_nat (N + 1)) with 0%nat in Eloop by lia.
      simpl in Eloop. discriminate.
Qed.

Lemma makeRequest_reaches w c ctx method url body result (k : nat) :
  marshals body = true ->
  w_NewRequest w method url = None ->
  Z.of_nat k <= cfg_MaxRetries (config c) ->
  stopsLoop (client_Do w c (requestOf c method url body) k) = true ->
  (forall n, (n < k)%nat ->
     stopsLoop (client_Do w c (requestOf c method url body) n) = false /\ ctx n = None) ->
  exists tr,
    attempts tr = S k /\
    makeRequest w c ctx method url body result =
    (fst (handleResponse w c result
            (do_resp (client_Do w c (requestOf c method url body) k))
            (do_err (client_Do w c (requestOf c method url body) k))),
     EvNewRequest method url :: tr ++
     snd (handleResponse w c result
            (do_resp (client_Do w c (requestOf c method url body) k))
            (do_err (client_Do w c (requestOf c method url body) k)))).
Proof.
  intros Hbody Hreq Hk Hstop Hbefore.
  rewrite makeRequest_built by assumption.
  destruct (retryLoop_reaches (client_Do w c (requestOf c method url body))
              (requestOf c method url body) ctx (cfg_MaxRetries (config c))
              (Z.to_nat (cfg_MaxRetries (config c) + 1)) 0 None None k)
    as (tr & Heq & Hatt); try assumption; try lia.
  - intros n Hn. apply Hbefore. lia.
  - rewrite Heq. exists tr. split; [rewrite Hatt; simpl; lia|reflexivity].
Qed.

Lemma makeRequest_cancelled w c ctx method url body result (k : nat) (e : error) :
  marshals body = true ->
  w_NewRequest w method url = None ->
  Z.of_nat k < cfg_MaxRetries (config c) ->
  (forall n, (n < k)%nat ->
     stopsLoop (client_Do w c (requestOf c method url body) n) = false /\ ctx n = None) ->
  stopsLoop (client_Do w c (requestOf c method url body) k) = false ->
  ctx k = Some e ->
  exists tr,
    attempts tr = S k /\
    makeRequest w c ctx method url body result =
    (Returned (Some e, result),
     (EvNewRequest method url :: tr ++ [EvWait (backoffTime (Z.of_nat k))])%list).
Proof.
  intros Hbody Hreq Hk Hbefore Hretry Hdone.
  rewrite makeRequest_built by assumption.
  destruct (retryLoop_cancelled (client_Do w c (requestOf c method url body))
              (requestOf c method url body) ctx (cfg_MaxRetries (config c))
              (Z.to_nat (cfg_MaxRetries (config c) + 1)) 0 None None k e)
    as (tr & Heq & Hatt); try assumption; try lia.
  - intros n Hn. apply Hbefore. lia.
  - rewrite Heq. exists tr. split; [rewrite Hatt; simpl; lia|reflexivity].
Qed.

Lemma makeRequest_stops w c ctx method url body result (k : nat) :
  stopsLoop (client_Do w c (requestOf c method url body) k) = true ->
  (attempts (snd (makeRequest w c ctx method url body result)) <= k + 1)%nat.
Proof.
  intros Hstop.
  destruct (marshals body) eqn:Hbody.
  2:{ destruct body as [[d|e]|]; try discriminate. unfold attempts; simpl. lia. }
  destruct (w_NewRequest w method url) as [err|] eqn:Hreq.
  { unfold makeRequest. rewrite Hreq.
    destruct body as [[d|e]|]; unfold attempts; simpl; lia. }
  rewrite makeRequest_built by assumption.
  pose proof (retryLoop_stops (client_Do w c (requestOf c method url body))
                (requestOf c method url body) ctx (cfg_MaxRetries (config c))
                (Z.to_nat (cfg_MaxRetries (config c) + 1)) 0 None None k) as Hle.
  destruct (retryLoop _ _ _ _ _ _ _ _) as [[err|resp respErr] tr]; simpl in *.
  - change (attempts (EvNewRequest method url :: tr)) with (attempts tr).
    specialize (Hle ltac:(lia) ltac:(lia) Hstop). lia.
  - rewrite attempts_request by apply handleResponse_no_attempt.
    specialize (Hle ltac:(lia) ltac:(lia) Hstop). lia.
Qed.

Lemma WebSearch_makeRequest w c ctx query params :
  validQuery query = true ->
  WebSearch w c ctx query params =
  (searchOutcome
     (fst (makeRequest w c ctx "GET"
             (fst (buildRequestURL c WebSearchEndpoint (searchParamsOf c query params)))
             None (Some zeroWebSearchResponse))),
   snd (makeRequest w c ctx "GET"
          (fst (buildRequestURL c WebSearchEndpoint (searchParamsOf c query params)))
          None (Some zeroWebSearchResponse))).
Proof.
  unfold validQuery, WebSearch. intros H.
  apply andb_true_iff in H as [H1 H2].
  apply negb_true_iff in H1. apply negb_true_iff in H2.
  rewrite H1, H2. unfold buildRequestURL. cbv beta iota zeta.
  destruct (makeRequest _ _ _ _ _ _ _) as [[[[err|] r]|] tr]; reflexivity.
Qed.

(** C1, as the code has it: when the request can be built, [MaxRetries]
    is [N >= 0], every attempt fails in the transport or gets a status of
    500 or more, and the context is not cancelled during a wait between
    attempts, [makeRequest] makes exactly [N+1] attempts and returns the
    transport error of the last one, or else the error made from its
    response.  When the context is done during the wait after attempt [k],
    the call ends there: it returns the context's error, attempt [k] was
    the last one and the wait is the last thing done.  Whatever the
    context, an attempt that gets a response with a
    status under 500 is the last one: when it is attempt [k], at most
    [k+1] attempts are made, exactly [k+1] when the attempts before it are
    retried, and the call goes on with that response.  [WebSearch] on a
    valid query is this call of [makeRequest]. *)
Theorem C1_retry_attempts (w : World) (c : Client) (ctx : Context) (method url : string)
    (body : option (string + error)) (result : option WebSearchResponse) :
  let N := cfg_MaxRetries (config c) in
  let do := client_Do w c (requestOf c method url body) in
  let run := makeRequest w c ctx method url body result in
  marshals body = true ->
  w_NewRequest w method url = None ->
  0 <= N ->
  ((forall n, stopsLoop (do n) = false) ->
   (forall n, Z.of_nat n < N -> ctx n = None) ->
   fst run = Returned (Some (finalError (do (Z.to_nat N))), result) /\
   attempts (snd run) = Z.to_nat (N + 1)) /\
  (forall k e,
     Z.of_nat k < N ->
     (forall n, (n < k)%nat -> stopsLoop (do n) = false /\ ctx n = None) ->
     stopsLoop (do k) = false ->
     ctx k = Some e ->
     fst run = Returned (Some e, result) /\
     attempts (snd run) = (k + 1)%nat /\
     exists tr, snd run = (tr ++ [EvWait (backoffTime (Z.of_nat k))])%list) /\
  (forall k, stopsLoop (do k) = true -> (attempts (snd run) <= k + 1)%nat) /\
  (forall k,
     Z.of_nat k <= N ->
     stopsLoop (do k) = true ->
     (forall n, (n < k)%nat -> stopsLoop (do n) = false /\ ctx n = None) ->
     attempts (snd run) = (k + 1)%nat /\
     fst run = fst (handleResponse w c result (do_resp (do k)) (do_err (do k)))) /\
  (forall query params,
     validQuery query = true ->
     method = "GET" ->
     url = fst (buildRequestURL c WebSearchEndpoint (searchParamsOf c query params)) ->
     body = None ->
     result = Some zeroWebSearchResponse ->
     WebSearch w c ctx query params = (searchOutcome (fst run), snd run)).
Proof.
  intros N do run Hbody Hreq HN.
  split; [|split; [|split; [|split]]].
  - intros Hretry Hctx. subst run.
    rewrite makeRequest_built by assumption.
    destruct (retryLoop_exhaust do (requestOf c method url body) ctx N
                (Z.to_nat (N + 1)) 0 None None) as (tr & Heq & Hatt); try lia.
    + intros n _. apply Hretry.
    + intros n _. apply Hctx.
    + fold N. fold do. rewrite Heq. simpl. split; [reflexivity|].
      change (attempts (EvNewRequest method url :: tr)) with (attempts tr).
      exact Hatt.
  - intros k e Hk Hbefore Hretry Hdone.
    destruct (makeRequest_cancelled w c ctx method url body result k e)
      as (tr & Hatt & Heq); try assumption.
    subst run. rewrite Heq. simpl. split; [reflexivity|]. split.
    + change (EvNewRequest method url :: tr ++ [EvWait (backoffTime (Z.of_nat k))])%list
        with ([EvNewRequest method url] ++ tr ++ [EvWait (backoffTime (Z.of_nat k))])%list.
      rewrite !attempts_app, Hatt. unfold attempts; simpl. lia.
    + exists (EvNewRequest method url :: tr). reflexivity.
  - intros k Hstop. apply makeRequest_stops. exact Hstop.
  - intros k Hk Hstop Hbefore.
    destruct (makeRequest_reaches w c ctx method url body result k)
      as (tr & Hatt & Heq); try assumption.
    subst run. rewrite Heq. simpl. split; [|reflexivity].
    rewrite attempts_request by apply handleResponse_no_attempt.
    rewrite Hatt. lia.
  - intros query params Hvalid -> -> -> ->. apply WebSearch_makeRequest. exact Hvalid.
Qed.

Lemma C1_retry_attempts_witness :
  (fst (makeRequest sampleWorld (sampleClient 2 None) background "GET"
          "http://127.0.0.1:8080/" None None) =
     Returned (Some (NewHTTPError (plainResponse 503 "503 Service Unavailable")), None) /\
   attempts (snd (makeRequest sampleWorld (sampleClient 2 None) background "GET"
                    "http://127.0.0.1:8080/" None None)) = 3%nat) /\
  attempts (snd (makeRequest sampleWorld (sampleClient 2 (Some failsTwice)) background
                   "GET" "http://127.0.0.1:8080/" None None)) = 3%nat /\
  (fst (makeRequest sampleWorld (sampleClient 2 None) cancelled "GET"
          "http://127.0.0.1:8080/" None None) =
     Returned (Some (ErrorString "context canceled"), None) /\
   attempts (snd (makeRequest sampleWorld (sampleClient 2 None) cancelled "GET"
                    "http://127.0.0.1:8080/" None None)) = 1%nat /\
   exists tr,
     snd (makeRequest sampleWorld (sampleClient 2 None) cancelled "GET"
            "http://127.0.0.1:8080/" None None) =
     (tr ++ [EvWait (backoffTime 0)])%list).
Proof.
  split; [|split].
  - apply (C1_retry_attempts sampleWorld (sampleClient 2 None) background "GET"
             "http://127.0.0.1:8080/" None None).
    + reflexivity.
    + reflexivity.
    + simpl. lia.
    + intros n. reflexivity.
    + intros n _. reflexivity.
  - destruct (C1_retry_attempts sampleWorld (sampleClient 2 (Some failsTwice)) background
                "GET" "http://127.0.0.1:8080/" None None) as (_ & _ & _ & H & _).
    { reflexivity. }
    { reflexivity. }
    { simpl. lia. }
    apply (H 2%nat).
    + simpl. lia.
    + reflexivity.
    + intros n Hn. split; [|reflexivity].
      destruct n as [|[|n]]; [reflexivity|reflexivity|lia].
  - destruct (C1_retry_attempts sampleWorld (sampleClient 2 None) cancelled "GET"
                "http://127.0.0.1:8080/" None None) as (_ & H & _).
    { reflexivity. }
    { reflexivity. }
    { simpl. lia. }
    apply (H 0%nat (ErrorString "context canceled")).
    + simpl. lia.
    + intros n Hn. lia.
    + reflexivity.
    + reflexivity.
Defined.

(** [TestMakeRequestWithRetries]: two 503 and then a 200 make three
    attempts and no error. *)
Example makeRequest_fails_twice :
  fst (makeRequest sampleWorld (sampleClient 2 (Some failsTwice)) background "GET"
         "http://127.0.0.1:8080/" None (Some zeroWebSearchResponse)) =
    Returned (None, Some zeroWebSearchResponse) /\
  attempts (snd (makeRequest sampleWorld (sampleClient 2 (Some failsTwice)) background "GET"
                   "http://127.0.0.1:8080/" None (Some zeroWebSearchResponse))) = 3%nat.
Proof. split; vm_compute; reflexivity. Qed.

(** C1, as stated, fails when the context is cancelled: with two retries
    and a transport that always answers 503, a cancelled context ends the
    call in the first wait, after one attempt, with the context's error. *)
Lemma C1_counterexample :
  (forall n,
     stopsLoop (client_Do sampleWorld (sampleClient 2 None)
                  (requestOf (sampleClient 2 None) "GET" "http://127.0.0.1:8080/" None) n) =
     false) /\
  attempts (snd (makeRequest sampleWorld (sampleClient 2 None) cancelled "GET"
                   "http://127.0.0.1:8080/" None None)) = 1%nat /\
  attempts (snd (makeRequest sampleWorld (sampleClient 2 None) cancelled "GET"
                   "http://127.0.0.1:8080/" None None)) <> Z.to_nat (2 + 1) /\
  fst (makeRequest sampleWorld (sampleClient 2 None) cancelled "GET"
         "http://127.0.0.1:8080/" None None) =
    Returned (Some (ErrorString "context canceled"), None) /\
  attempts (snd (WebSearch sampleWorld (sampleClient 2 None) cancelled "go" None)) = 1%nat.
Proof.
  split; [intros n; reflexivity|].
  split; [vm_compute; reflexivity|].
  split; [vm_compute; discriminate|].
  split; vm_compute; reflexivity.
Qed.

(** ** Rate-limit extraction *)

(** C5, as the code has it: the rate-limit headers are read exactly when
    the loop ends on a response with status 200, and then from that
    response, the one of the last attempt; for every other final status
    the call returns before they are read, and so does the [return] in
    the loop after the last retry. *)
Theorem C5_rate_limit_extraction (w : World) (c : Client) (ctx : Context)
    (method url : string) (body : option (string + error))
    (result : option WebSearchResponse) :
  let N := cfg_MaxRetries (config c) in
  let do := client_Do w c (requestOf c method url body) in
  let run := makeRequest w c ctx method url body result in
  (forall resp respErr rl,
     In (EvRateLimit rl) (snd (handleResponse w c result (Some resp) respErr)) <->
     StatusCode resp = StatusOK /\ rl = parseRateLimitHeaders c resp) /\
  (forall rl,
     In (EvRateLimit rl) (snd run) ->
     exists n resp,
       do n = DoResp resp /\ StatusCode resp = StatusOK /\
       rl = parseRateLimitHeaders c resp /\ attempts (snd run) = S n) /\
  (forall k resp,
     marshals body = true ->
     w_NewRequest w method url = None ->
     Z.of_nat k <= N ->
     do k = DoResp resp ->
     StatusCode resp = StatusOK ->
     (forall n, (n < k)%nat -> stopsLoop (do n) = false /\ ctx n = None) ->
     In (EvRateLimit (parseRateLimitHeaders c resp)) (snd run)) /\
  (forall k resp,
     do k = DoResp resp ->
     StatusCode resp <> StatusOK ->
     attempts (snd run) = S k ->
     forall rl, ~ In (EvRateLimit rl) (snd run)).
Proof.
  intros N do run. split; [|split; [|split]].
  - intros resp respErr rl. apply handleResponse_rate_limit.
  - intros rl. apply makeRequest_rate_limit.
  - intros k resp Hbody Hreq Hk Hdo Hok Hbefore.
    destruct (makeRequest_reaches w c ctx method url body result k)
      as (tr & _ & Heq); try assumption.
    { fold do. rewrite Hdo. simpl. rewrite Hok. reflexivity. }
    subst run. rewrite Heq. cbn [snd]. fold do. rewrite Hdo. cbn [do_resp do_err].
    right. apply in_or_app. right.
    apply handleResponse_rate_limit. auto.
  - intros k resp Hdo Hne Hatt rl Hin.
    apply makeRequest_rate_limit in Hin as (n & resp' & Hdo' & Hok & _ & Hatt').
    fold run in Hatt'. rewrite Hatt in Hatt'. inversion Hatt'; subst n.
    fold do in Hdo'. rewrite Hdo in Hdo'. inversion Hdo'; subst resp'. contradiction.
Qed.

Lemma C5_rate_limit_extraction_witness :
  In (EvRateLimit (mkRateLimit 10 9 1))
    (snd (makeRequest sampleWorld (sampleClient 2 (Some (always rateLimitedResponse)))
            background "GET" "http://127.0.0.1:8080/" None None)) /\
  forall rl,
    ~ In (EvRateLimit rl)
        (snd (makeRequest sampleWorld (sampleClient 0 (Some (always tooManyRequests)))
                background "GET" "http://127.0.0.1:8080/" None None)).
Proof.
  split.
  - destruct (C5_rate_limit_extraction sampleWorld
                (sampleClient 2 (Some (always rateLimitedResponse))) background "GET"
                "http://127.0.0.1:8080/" None None) as (_ & _ & H & _).
    apply (H 0%nat rateLimitedResponse).
    + reflexivity.
    + reflexivity.
    + simpl. lia.
    + reflexivity.
    + reflexivity.
    + intros n Hn. lia.
  - destruct (C5_rate_limit_extraction sampleWorld
                (sampleClient 0 (Some (always tooManyRequests))) background "GET"
                "http://127.0.0.1:8080/" None None) as (_ & _ & _ & H).
    apply (H 0%nat tooManyRequests).
    + reflexivity.
    + simpl. unfold StatusOK. lia.
    + vm_compute. reflexivity.
Defined.

(** C5, as stated, fails on a final response that is not a 200: a 429
    that carries the three headers is received, the call returns the
    rate-limit error, and the headers are never read. *)
Lemma C5_counterexample :
  client_Do sampleWorld (sampleClient 2 (Some (always tooManyRequests)))
    (requestOf (sampleClient 2 (Some (always tooManyRequests))) "GET"
       "http://127.0.0.1:8080/" None) 0 = DoResp tooManyRequests /\
  parseRateLimitHeaders (sampleClient 2 (Some (always tooManyRequests))) tooManyRequests =
    mkRateLimit 10 9 1 /\
  fst (makeRequest sampleWorld (sampleClient 2 (Some (always tooManyRequests)))
         background "GET" "http://127.0.0.1:8080/" None None) =
    Returned (Some (NewHTTPError tooManyRequests), None) /\
  attempts (snd (makeRequest sampleWorld (sampleClient 2 (Some (always tooManyRequests)))
                   background "GET" "http://127.0.0.1:8080/" None None)) = 1%nat /\
  forall rl,
    ~ In (EvRateLimit rl)
        (snd (makeRequest sampleWorld (sampleClient 2 (Some (always tooManyRequests)))
                background "GET" "http://127.0.0.1:8080/" None None)).
Proof.
  split; [reflexivity|].
  split; [vm_compute; reflexivity|].
  split; [vm_compute; reflexivity|].
  split; [vm_compute; reflexivity|].
  intros rl H. vm_compute in H.
  destruct H as [H|[H|[H|[]]]]; discriminate.
Qed.

(** * Further properties *)

(** ** Configuration *)

Lemma packageOption_spec {S : Type} (o : PackageOption) (c : ClientConfig) (s : S) :
  cfg_APIKey c <> "" ->
  0 <= cfg_MaxRetries c ->
  exists c',
    packageOption o c s = (c', s, if retriesOk o then None
                                  else Some (Sentinel ErrInvalidParameters)) /\
    cfg_APIKey c' <> "" /\ 0 <= cfg_MaxRetries c'.
Proof.
  intros Hkey Hretries.
  destruct o as [seconds|retries|ua|url|h|country|lang|lang|[k|]];
    simpl; unfold configOption;
    try (eexists; split; [reflexivity|split; assumption]).
  - unfold WithRetries, configOption.
    destruct (Z.ltb_spec retries 0) as [Hneg|Hpos].
    + replace (0 <=? retries) with false by (symmetry; apply Z.leb_gt; lia).
      eexists; split; [reflexivity|split; assumption].
    + replace (0 <=? retries) with true by (symmetry; apply Z.leb_le; lia).
      eexists; split; [reflexivity|split; [assumption|simpl; lia]].
  - eexists; split; [reflexivity|]. simpl. split.
    + destruct (String.eqb_spec (conf_APIKey k) ""); assumption.
    + destruct (Z.leb_spec 0 (conf_MaxRetries k)); assumption.
Qed.

Lemma applyOptions_package {S : Type} (specs : list PackageOption) (c : ClientConfig) (s : S) :
  cfg_APIKey c <> "" ->
  0 <= cfg_MaxRetries c ->
  exists c',
    applyOptions c (map packageOption specs) s =
      (c', s, if forallb retriesOk specs then None
              else Some (Sentinel ErrInvalidParameters)) /\
    cfg_APIKey c' <> "" /\ 0 <= cfg_MaxRetries c'.
Proof.
  revert c. induction specs as [|o specs IH]; intros c Hkey Hretries; simpl.
  - exists c. auto.
  - destruct (packageOption_spec o c s Hkey Hretries) as (c1 & Heq & Hkey1 & Hretries1).
    rewrite Heq. destruct (retriesOk o); simpl.
    + apply IH; assumption.
    + exists c1. auto.
Qed.

(** X1: a client made by [NewClient] from the package's own options has
    a non-empty API key and a retry count that is not negative, passes
    [ValidateConfig], and sends through the HTTP client given by the
    options or, without one, through a new one with the configured
    timeout. *)
Theorem X1_new_client_invariant {S : Type} (apiKey : string) (specs : list PackageOption)
    (s s' : S) (client : Client) :
  NewClient apiKey (map packageOption specs) s = (Some client, None, s') ->
  apiKey <> "" /\
  cfg_APIKey (config client) <> "" /\
  0 <= cfg_MaxRetries (config client) /\
  ValidateConfig (config client) = None /\
  s' = s /\
  http client =
    match cfg_HTTPClient (config client) with
    | Some h => h
    | None => mkHttpClient (cfg_Timeout (config client)) None
    end.
Proof.
  unfold NewClient. destruct (String.eqb_spec apiKey "") as [->|Hkey]; [discriminate|].
  destruct (applyOptions_package specs (defaultClientConfig apiKey) s)
    as (c' & Heq & Hkey' & Hretries'); [exact Hkey|simpl; unfold DefaultMaxRetries; lia|].
  rewrite Heq. destruct (forallb retriesOk specs); [|discriminate].
  intros H. inversion H; subst client s'. simpl.
  repeat split; try assumption.
  unfold ValidateConfig.
  destruct (String.eqb_spec (cfg_APIKey c') ""); [contradiction|reflexivity].
Qed.

Lemma X1_new_client_invariant_witness :
  0 <= cfg_MaxRetries
         (mkClientConfig "test-api-key" BaseURL (wrap64 (wrap64 60 * Second)) 0
            "custom-agent" "UK" DefaultSearchLang DefaultUILang None).
Proof.
  apply (X1_new_client_invariant (S := unit) "test-api-key"
           [OptTimeout 60; OptUserAgent "custom-agent"; OptDefaultCountry "UK"; OptRetries 0]
           tt tt
           (mkClient
              (mkClientConfig "test-api-key" BaseURL (wrap64 (wrap64 60 * Second)) 0
                 "custom-agent" "UK" DefaultSearchLang DefaultUILang None)
              (mkHttpClient (wrap64 (wrap64 60 * Second)) None))).
  vm_compute. reflexivity.
Defined.

(** X2: with the package's own options, [NewClient] fails in exactly two
    ways: with [ErrMissingAPIKey] when the key is empty, and otherwise
    with [ErrInvalidParameters] when some [WithRetries] has a negative
    count; in every other case it returns a client and no error.  No
    other option can fail: a zero or negative timeout and empty strings
    are accepted. *)
Theorem X2_new_client_errors {S : Type} (apiKey : string) (specs : list PackageOption) (s : S) :
  snd (fst (NewClient apiKey (map packageOption specs) s)) =
    (if String.eqb apiKey "" then Some (Sentinel ErrMissingAPIKey)
     else if forallb retriesOk specs then None
     else Some (Sentinel ErrInvalidParameters)) /\
  (is_Some (fst (fst (NewClient apiKey (map packageOption specs) s))) <->
   snd (fst (NewClient apiKey (map packageOption specs) s)) = None) /\
  snd (NewClient apiKey (map packageOption specs) s) = s.
Proof.
  unfold NewClient. destruct (String.eqb_spec apiKey "") as [->|Hkey].
  - simpl. repeat split; try discriminate. intros [x Hx]; discriminate.
  - destruct (applyOptions_package specs (defaultClientConfig apiKey) s)
      as (c' & Heq & _); [exact Hkey|simpl; unfold DefaultMaxRetries; lia|].
    rewrite Heq. destruct (forallb retriesOk specs); simpl.
    + repeat split; eauto.
    + repeat split; try discriminate. intros [x Hx]; discriminate.
Qed.

(** X3: [WithConfig] never fails and applying the same configuration
    twice is the same as applying it once; a [nil] configuration changes
    nothing, and neither does [NewDefaultConfig()] on the defaults of
    [NewClient]; the retry count of the configuration is taken whenever
    it is not negative, so a configuration that leaves [MaxRetries] at
    its zero value sets the retries to zero. *)
Theorem X3_with_config {S : Type} (k : Config) (c : ClientConfig) (apiKey : string) (s : S) :
  exists c',
    WithConfig (Some k) c s = (c', s, None) /\
    WithConfig (Some k) c' s = (c', s, None) /\
    cfg_MaxRetries c' =
      (if 0 <=? conf_MaxRetries k then conf_MaxRetries k else cfg_MaxRetries c) /\
    WithConfig None c s = (c, s, None) /\
    WithConfig (Some NewDefaultConfig) (defaultClientConfig apiKey) s =
      (defaultClientConfig apiKey, s, None).
Proof.
  eexists. split; [reflexivity|]. split; [|split; [reflexivity|split; reflexivity]].
  unfold WithConfig, configOption. cbv beta iota zeta. simpl.
  f_equal. f_equal.
  f_equal;
    try (match goal with
         | |- context [String.eqb ?x ""] => destruct (String.eqb x ""); reflexivity
         end).
  - destruct (0 <? conf_Timeout k); reflexivity.
  - destruct (0 <=? conf_MaxRetries k); reflexivity.
  - destruct (conf_HTTPClient k); reflexivity.
Qed.

(** ** Errors *)

(** X4: on the error [NewHTTPError] makes from a response, the helpers
    classify by status alone: [IsAuthError] holds exactly for 401,
    [IsRateLimitError] exactly for 429 and [IsServerError] exactly from
    500 up, so no error made from a response is of two of these kinds
    and one made from a 403 or 404 is of none; the error keeps the status
    code and the status line of the response. *)
Theorem X4_http_error_kinds (resp : Response) :
  let e := Some (NewHTTPError resp) in
  IsAuthError e = (StatusCode resp =? 401) /\
  IsRateLimitError e = (StatusCode resp =? 429) /\
  IsServerError e = (500 <=? StatusCode resp) /\
  (IsAuthError e && IsRateLimitError e = false)%bool /\
  (IsAuthError e && IsServerError e = false)%bool /\
  (IsRateLimitError e && IsServerError e = false)%bool /\
  exists kind, errors_As e = Some (StatusCode resp, Status resp, Some kind).
Proof.
  intros e. subst e.
  assert (H1 : IsAuthError (Some (NewHTTPError resp)) = (StatusCode resp =? 401)).
  { unfold IsAuthError, NewHTTPError, StatusUnauthorized, StatusForbidden, StatusNotFound,
      StatusTooManyRequests; simpl.
    destruct (Z.eqb_spec (StatusCode resp) 401); [reflexivity|].
    destruct (Z.eqb_spec (StatusCode resp) 403); [reflexivity|].
    destruct (Z.eqb_spec (StatusCode resp) 404); [reflexivity|].
    destruct (Z.eqb_spec (StatusCode resp) 429); [reflexivity|].
    destruct (500 <=? StatusCode resp); reflexivity. }
  assert (H2 : IsRateLimitError (Some (NewHTTPError resp)) = (StatusCode resp =? 429)).
  { unfold IsRateLimitError, NewHTTPError, StatusUnauthorized, StatusForbidden,
      StatusNotFound, StatusTooManyRequests; simpl.
    destruct (Z.eqb_spec (StatusCode resp) 401) as [->|]; [reflexivity|].
    destruct (Z.eqb_spec (StatusCode resp) 403) as [->|]; [reflexivity|].
    destruct (Z.eqb_spec (StatusCode resp) 404) as [->|]; [reflexivity|].
    destruct (Z.eqb_spec (StatusCode resp) 429); [reflexivity|].
    destruct (500 <=? StatusCode resp); reflexivity. }
  assert (H3 : IsServerError (Some (NewHTTPError resp)) = (500 <=? StatusCode resp)).
  { unfold IsServerError, NewHTTPError, StatusUnauthorized, StatusForbidden,
      StatusNotFound, StatusTooManyRequests; simpl.
    destruct (Z.eqb_spec (StatusCode resp) 401) as [->|]; [reflexivity|].
    destruct (Z.eqb_spec (StatusCode resp) 403) as [->|]; [reflexivity|].
    destruct (Z.eqb_spec (StatusCode resp) 404) as [->|]; [reflexivity|].
    destruct (Z.eqb_spec (StatusCode resp) 429) as [->|]; [reflexivity|].
    destruct (500 <=? StatusCode resp); reflexivity. }
  rewrite H1, H2, H3.
  split; [reflexivity|]. split; [reflexivity|]. split; [reflexivity|].
  split; [|split; [|split]].
  - destruct (Z.eqb_spec (StatusCode resp) 401) as [->|]; reflexivity.
  - destruct (Z.eqb_spec (StatusCode resp) 401) as [->|]; reflexivity.
  - destruct (Z.eqb_spec (StatusCode resp) 429) as [->|]; reflexivity.
  - unfold NewHTTPError. simpl. eexists. reflexivity.
Qed.

Lemma error_Is_wrapped (msgs : list string) (e : error) (target : sentinel) :
  error_Is (wrapped msgs e) target = error_Is e target.
Proof. induction msgs as [|msg msgs IH]; simpl; [reflexivity|exact IH]. Qed.

Lemma error_As_wrapped (msgs : list string) (e : error) :
  error_As (wrapped msgs e) = error_As e.
Proof. induction msgs as [|msg msgs IH]; simpl; [reflexivity|exact IH]. Qed.

(** X5: the three helpers look through any number of [%w] wrappers: an
    error wrapped by [fmt.Errorf] is classified as the error it wraps.  A
    package error that is not in an [APIError] is an auth error exactly
    when it is [ErrUnauthorized] or [ErrInvalidAPIKey], a rate-limit
    error exactly when it is [ErrRateLimit] and a server error exactly
    when it is [ErrServerError]; a [nil] error is of no kind. *)
Theorem X5_classification_through_wrapping (msgs : list string) (e : error) (s : sentinel) :
  IsRateLimitError (Some (wrapped msgs e)) = IsRateLimitError (Some e) /\
  IsAuthError (Some (wrapped msgs e)) = IsAuthError (Some e) /\
  IsServerError (Some (wrapped msgs e)) = IsServerError (Some e) /\
  IsRateLimitError (Some (wrapped msgs (Sentinel s))) = bool_decide (s = ErrRateLimit) /\
  IsAuthError (Some (wrapped msgs (Sentinel s))) =
    bool_decide (s = ErrUnauthorized \/ s = ErrInvalidAPIKey) /\
  IsServerError (Some (wrapped msgs (Sentinel s))) = bool_decide (s = ErrServerError) /\
  IsRateLimitError None = false /\ IsAuthError None = false /\ IsServerError None = false.
Proof.
  assert (Hr : forall x, IsRateLimitError (Some (wrapped msgs x)) = IsRateLimitError (Some x)).
  { intros x. unfold IsRateLimitError, errors_As, errors_Is.
    now rewrite error_As_wrapped, error_Is_wrapped. }
  assert (Ha : forall x, IsAuthError (Some (wrapped msgs x)) = IsAuthError (Some x)).
  { intros x. unfold IsAuthError, errors_As, errors_Is.
    now rewrite error_As_wrapped, !error_Is_wrapped. }
  assert (Hs : forall x, IsServerError (Some (wrapped msgs x)) = IsServerError (Some x)).
  { intros x. unfold IsServerError, errors_As, errors_Is.
    now rewrite error_As_wrapped, error_Is_wrapped. }
  rewrite !Hr, !Ha, !Hs.
  repeat split; try reflexivity.
  destruct s; reflexivity.
Qed.

(** ** Response accessors *)

(** X6: on every response the accessors agree: [GetResultCount] is the
    length of [GetWebResults], [GetFirstResult] is its first element when
    there is one, and [IsWebResultEmpty] holds exactly when the count is
    zero, which is exactly when [GetFirstResult] is [nil]. *)
Theorem X6_accessors_agree (r : option WebSearchResponse) :
  GetResultCount r = slice_len (GetWebResults r) /\
  GetFirstResult r = head (slice_elems (GetWebResults r)) /\
  IsWebResultEmpty r = (GetResultCount r =? 0) /\
  (GetFirstResult r = None <-> IsWebResultEmpty r = true) /\
  0 <= GetResultCount r.
Proof.
  destruct r as [r|]; simpl; [|repeat split; try reflexivity; lia].
  destruct (r_Web r) as [web|]; simpl; [|repeat split; try reflexivity; lia].
  unfold slice_len.
  destruct (slice_elems (web_Results web)) as [|x l] eqn:E; simpl.
  - repeat split; try reflexivity; lia.
  - repeat split; try reflexivity; try discriminate; lia.
Qed.

(** ** The retry loop: bounds and schedule *)

Section RetryLoopLog.

Variable do : nat -> DoResult.
Variable req : Request.
Variable ctx : Context.
Variable N : Z.

Lemma retryLoop_attempts_le iters attempt resp0 err0 :
  (attempts (snd (retryLoop do req ctx N iters attempt resp0 err0)) <= iters)%nat.
Proof.
  revert attempt resp0 err0.
  induction iters as [|iters IH]; intros attempt resp0 err0; cbn [retryLoop].
  - unfold attempts; simpl; lia.
  - destruct (stopsLoop _); [unfold attempts; simpl; lia|].
    destruct (attempt =? N).
    { destruct (do (Z.to_nat attempt)); unfold attempts; simpl; lia. }
    destruct (ctx (Z.to_nat attempt)).
    + cbn [snd]. rewrite attempts_do.
      destruct (do_resp _); unfold attempts; simpl; lia.
    + specialize (IH (attempt + 1) (do_resp (do (Z.to_nat attempt)))
                    (do_err (do (Z.to_nat attempt)))).
      destruct (retryLoop _ _ _ _ _ _ _ _) as [exit tr]. cbn [snd] in *.
      rewrite attempts_do, attempts_pause. lia.
Qed.

Lemma waits_pause (resp : option Response) (d : Z) (tr : list Event) :
  waits (match resp with Some _ => [EvClose] | None => [] end ++ EvWait d :: tr) =
  d :: waits tr.
Proof. destruct resp; reflexivity. Qed.

(** The waits of the loop: the backoff of each attempt but the last, and
    that of the last attempt only when the context is done during it. *)
Lemma retryLoop_schedule iters attempt resp0 err0 :
  0 <= attempt ->
  Z.of_nat iters = N + 1 - attempt ->
  exists m,
    waits (snd (retryLoop do req ctx N iters attempt resp0 err0)) =
      map (fun i => backoffTime (Z.of_nat i)) (seq (Z.to_nat attempt) m) /\
    (forall n, (Z.to_nat attempt <= n)%nat ->
       (S n < Z.to_nat attempt +
              attempts (snd (retryLoop do req ctx N iters attempt resp0 err0)))%nat ->
       ctx n = None) /\
    ((exists k e,
        attempts (snd (retryLoop do req ctx N iters attempt resp0 err0)) =
          (S k - Z.to_nat attempt)%nat /\
        (Z.to_nat attempt <= k)%nat /\ m = (S k - Z.to_nat attempt)%nat /\
        stopsLoop (do k) = false /\ Z.of_nat k < N /\ ctx k = Some e /\
        fst (retryLoop do req ctx N iters attempt resp0 err0) = LoopReturn (Some e)) \/
     (exists k,
        attempts (snd (retryLoop do req ctx N iters attempt resp0 err0)) =
          (S k - Z.to_nat attempt)%nat /\
        (Z.to_nat attempt <= k)%nat /\ m = (k - Z.to_nat attempt)%nat /\
        (stopsLoop (do k) = true \/ Z.of_nat k = N)) \/
     (attempts (snd (retryLoop do req ctx N iters attempt resp0 err0)) = 0%nat /\
      m = 0%nat /\ iters = 0%nat)).
Proof.
  revert attempt resp0 err0.
  induction iters as [|iters IH]; intros attempt resp0 err0 Hpos Hiters; cbn [retryLoop].
  - exists 0%nat. split; [reflexivity|]. split; [|right; right; auto].
    intros n Hn Hlt. unfold attempts in Hlt; simpl in Hlt. lia.
  - destruct (stopsLoop (do (Z.to_nat attempt))) eqn:Es.
    { exists 0%nat. cbn [snd fst]. split; [reflexivity|]. split.
      - intros n Hn Hlt. unfold attempts in Hlt; simpl in Hlt. lia.
      - right; left. exists (Z.to_nat attempt).
        repeat split; try (unfold attempts; simpl; lia). now left. }
    destruct (Z.eqb_spec attempt N) as [HN|HneN].
    { exists 0%nat.
      assert (Hone : attempts (snd (match do (Z.to_nat attempt) with
                                    | DoResp resp =>
                                        (LoopReturn (Some (NewHTTPError resp)), [EvDo req])
                                    | DoErr e _ => (LoopReturn (Some e), [EvDo req])
                                    end)) = 1%nat)
        by (destruct (do (Z.to_nat attempt)); reflexivity).
      assert (Hnone : waits (snd (match do (Z.to_nat attempt) with
                                  | DoResp resp =>
                                      (LoopReturn (Some (NewHTTPError resp)), [EvDo req])
                                  | DoErr e _ => (LoopReturn (Some e), [EvDo req])
                                  end)) = [])
        by (destruct (do (Z.to_nat attempt)); reflexivity).
      rewrite Hone, Hnone. split; [reflexivity|]. split; [intros n Hn Hlt; lia|].
      right; left. exists (Z.to_nat attempt).
      repeat split; lia. }
    destruct (ctx (Z.to_nat attempt)) as [e|] eqn:Ec.
    + exists 1%nat. cbn [snd fst]. rewrite attempts_do.
      change (waits (EvDo req :: ?l)) with (waits l).
      assert (Hone : attempts (match do_resp (do (Z.to_nat attempt)) with
                               | Some _ => [EvClose]
                               | None => []
                               end ++ [EvWait (backoffTime attempt)]) = 0%nat)
        by (destruct (do_resp _); reflexivity).
      rewrite Hone, waits_pause. cbn [seq map waits flat_map].
      rewrite Z2Nat.id by lia.
      split; [reflexivity|]. split; [intros n Hn Hlt; lia|].
      left. exists (Z.to_nat attempt), e.
      repeat split; try lia; assumption.
    + destruct (IH (attempt + 1) (do_resp (do (Z.to_nat attempt)))
                  (do_err (do (Z.to_nat attempt)))) as (m & Hw & Hctx & Hend); [lia|lia|].
      destruct (retryLoop do req ctx N iters (attempt + 1) _ _) as [exit tr].
      cbn [snd fst] in *.
      replace (Z.to_nat (attempt + 1)) with (S (Z.to_nat attempt)) in * by lia.
      exists (S m). rewrite attempts_do, attempts_pause.
      change (waits (EvDo req :: ?l)) with (waits l).
      rewrite waits_pause, Hw. cbn [seq map]. rewrite Z2Nat.id by lia.
      split; [reflexivity|]. split.
      * intros n Hn Hlt.
        destruct (Nat.eq_dec n (Z.to_nat attempt)) as [->|Hne]; [exact Ec|].
        apply Hctx; lia.
      * destruct Hend as [(k & e & Ha & Hk & Hm & Hrest)|[(k & Ha & Hk & Hm & Hrest)|
                           (Ha & Hm & Hz)]].
        -- left. exists k, e. repeat split; try lia; apply Hrest.
        -- right; left. exists k. repeat split; try lia. exact Hrest.
        -- lia.
Qed.

End RetryLoopLog.

Lemma handleResponse_no_wait w c result resp respErr :
  waits (snd (handleResponse w c result resp respErr)) = [].
Proof.
  unfold handleResponse. destruct resp as [resp|]; [|reflexivity].
  destruct (negb _).
  - destruct (strings_Contains _ _); [|reflexivity].
    destruct (w_gzipNewReader _ _); reflexivity.
  - destruct result as [v|]; [|reflexivity].
    destruct (if strings_Contains _ _ then _ else _) as [stream|err]; [|reflexivity].
    destruct (body_err stream); [reflexivity|].
    destruct (w_jsonUnmarshal _ _ _) as [v' [e|]]; reflexivity.
Qed.

(** How [makeRequest] ends when the request cannot be made. *)
Lemma makeRequest_not_built w c ctx method url body result :
  marshals body = false \/ w_NewRequest w method url <> None ->
  attempts (snd (makeRequest w c ctx method url body result)) = 0%nat /\
  waits (snd (makeRequest w c ctx method url body result)) = [] /\
  closes (snd (makeRequest w c ctx method url body result)) = 0%nat /\
  requests (snd (makeRequest w c ctx method url body result)) = [].
Proof.
  intros [Hbody|Hreq].
  - destruct body as [[d|e]|]; try discriminate. repeat split; reflexivity.
  - unfold makeRequest. destruct (w_NewRequest w method url) as [err|]; [|contradiction].
    destruct body as [[d|e]|]; repeat split; reflexivity.
Qed.

Lemma makeRequest_cases (w : World) (method url : string) (body : option (string + error)) :
  (marshals body = false \/ w_NewRequest w method url <> None) \/
  (marshals body = true /\ w_NewRequest w method url = None).
Proof.
  destruct (marshals body); [|left; left; reflexivity].
  destruct (w_NewRequest w method url); [left; right; discriminate|right; auto].
Qed.

(** X7: whatever the transport and the context do, [makeRequest] makes
    at most [MaxRetries + 1] attempts, and so does [WebSearch]; with a
    negative [MaxRetries] it sends nothing at all and returns an error
    that says no response was received. *)
Theorem X7_attempts_bounded (w : World) (c : Client) (ctx : Context) (method url : string)
    (body : option (string + error)) (result : option WebSearchResponse) :
  let N := cfg_MaxRetries (config c) in
  (attempts (snd (makeRequest w c ctx method url body result)) <= Z.to_nat (N + 1))%nat /\
  (forall query params,
     (attempts (snd (WebSearch w c ctx query params)) <= Z.to_nat (N + 1))%nat) /\
  (N < 0 ->
   marshals body = true ->
   w_NewRequest w method url = None ->
   makeRequest w c ctx method url body result =
   (Returned (Some (WrapError "no response" None), result), [EvNewRequest method url])).
Proof.
  intros N.
  assert (Hbound : forall method url body result,
            (attempts (snd (makeRequest w c ctx method url body result)) <=
             Z.to_nat (N + 1))%nat).
  { clear. intros method url body result.
    destruct (makeRequest_cases w method url body) as [Hno|[Hbody Hreq]].
    - destruct (makeRequest_not_built w c ctx method url body result Hno) as [-> _]. lia.
    - rewrite makeRequest_built by assumption.
      pose proof (retryLoop_attempts_le (client_Do w c (requestOf c method url body))
                    (requestOf c method url body) ctx (cfg_MaxRetries (config c))
                    (Z.to_nat (cfg_MaxRetries (config c) + 1)) 0 None None) as Hle.
      destruct (retryLoop _ _ _ _ _ _ _ _) as [[err|resp respErr] tr]; cbn [snd] in *.
      + change (attempts (EvNewRequest method url :: tr)) with (attempts tr). exact Hle.
      + rewrite attempts_request by apply handleResponse_no_attempt. exact Hle. }
  split; [apply Hbound|]. split.
  - intros query params. destruct (validQuery query) eqn:Hvalid.
    + rewrite WebSearch_makeRequest by assumption. cbn [snd]. apply Hbound.
    + unfold validQuery in Hvalid. unfold WebSearch.
      destruct (String.eqb query ""); [unfold attempts; simpl; lia|].
      simpl in Hvalid. apply negb_false_iff in Hvalid. rewrite Hvalid.
      unfold attempts; simpl; lia.
  - intros Hneg Hbody Hreq. rewrite makeRequest_built by assumption.
    fold N. replace (Z.to_nat (N + 1)) with 0%nat by lia. reflexivity.
Qed.

Lemma X7_attempts_bounded_witness :
  makeRequest sampleWorld (sampleClient (-1) None) background "GET"
    "http://127.0.0.1:8080/" None None =
  (Returned (Some (WrapError "no response" None), None),
   [EvNewRequest "GET" "http://127.0.0.1:8080/"]).
Proof.
  apply (X7_attempts_bounded sampleWorld (sampleClient (-1) None) background "GET"
           "http://127.0.0.1:8080/" None None).
  - simpl. lia.
  - reflexivity.
  - reflexivity.
Defined.

(** X8: the waits of a call are, in order, the backoff times of the
    attempts 0, 1, 2, ...: there is one wait after each attempt but the
    last, none of them cut short by the context, and one more after the
    last attempt exactly when that attempt has to be retried, retries are
    left and the context is done during the wait; the call then returns
    the context's error.  A call that ends in any other way has not
    waited after its last attempt. *)
Theorem X8_backoff_schedule (w : World) (c : Client) (ctx : Context) (method url : string)
    (body : option (string + error)) (result : option WebSearchResponse) :
  let N := cfg_MaxRetries (config c) in
  let do := client_Do w c (requestOf c method url body) in
  let run := makeRequest w c ctx method url body result in
  let a := attempts (snd run) in
  let cutShort :=
    ((0 <? a)%nat && negb (stopsLoop (do (a - 1)%nat)) && (Z.of_nat (a - 1) <? N) &&
     bool_decide (is_Some (ctx (a - 1)%nat)))%bool in
  waits (snd run) =
    map (fun i => backoffTime (Z.of_nat i)) (seq 0 (if cutShort then a else (a - 1)%nat)) /\
  (forall n, (S n < a)%nat -> ctx n = None) /\
  (cutShort = true -> fst run = Returned (ctx (a - 1)%nat, result)).
Proof.
  intros N do run a cutShort.
  destruct (makeRequest_cases w method url body) as [Hno|[Hbody Hreq]].
  { destruct (makeRequest_not_built w c ctx method url body result Hno) as (Ha & Hw & _).
    subst cutShort a run. rewrite Ha, Hw. cbn [Nat.ltb Nat.leb andb Nat.sub seq map].
    split; [reflexivity|]. split; [intros n Hn; lia|discriminate]. }
  destruct (Z.lt_ge_cases (N + 1) 0) as [Hneg|Hnn].
  { assert (Hrun : run = (Returned (Some (WrapError "no response" None), result),
                          [EvNewRequest method url])).
    { subst run. rewrite makeRequest_built by assumption. fold N.
      replace (Z.to_nat (N + 1)) with 0%nat by lia. reflexivity. }
    assert (Ha : attempts (snd run) = 0%nat) by (rewrite Hrun; reflexivity).
    assert (Hw : waits (snd run) = []) by (rewrite Hrun; reflexivity).
    subst cutShort a. rewrite Ha, Hw. cbn [Nat.ltb Nat.leb andb Nat.sub seq map].
    split; [reflexivity|]. split; [intros n Hn; lia|discriminate]. }
  destruct (retryLoop_schedule do (requestOf c method url body) ctx N
              (Z.to_nat (N + 1)) 0 None None) as (m & Hw & Hctx & Hend); [lia|lia|].
  assert (Hrun : attempts (snd run) =
                 attempts (snd (retryLoop do (requestOf c method url body) ctx N
                                  (Z.to_nat (N + 1)) 0 None None)) /\
                 waits (snd run) =
                 waits (snd (retryLoop do (requestOf c method url body) ctx N
                               (Z.to_nat (N + 1)) 0 None None)) /\
                 (forall e,
                    fst (retryLoop do (requestOf c method url body) ctx N
                           (Z.to_nat (N + 1)) 0 None None) = LoopReturn e ->
                    fst run = Returned (e, result))).
  { subst run. rewrite makeRequest_built by assumption. fold N. fold do.
    destruct (retryLoop do (requestOf c method url body) ctx N (Z.to_nat (N + 1)) 0 None None)
      as [[err|resp respErr] tr]; cbn [snd fst].
    - split; [reflexivity|]. split; [reflexivity|]. intros e He. now inversion He.
    - rewrite attempts_request by apply handleResponse_no_attempt.
      change (waits (EvNewRequest method url :: ?l)) with (waits l).
      unfold waits. rewrite flat_map_app. fold (waits tr).
      fold (waits (snd (handleResponse w c result resp respErr))).
      rewrite handleResponse_no_wait, app_nil_r.
      split; [reflexivity|]. split; [reflexivity|]. discriminate. }
  destruct Hrun as (Ha & Hwaits & Hret).
  change (Z.to_nat 0) with 0%nat in *.
  fold a in Ha. rewrite <- Ha in Hctx, Hend. rewrite Hwaits, Hw.
  destruct Hend as [(k & e & Hk & _ & Hm & Hretry & HkN & Hdone & Hexit)|
                    [(k & Hk & _ & Hm & Hwhy)|(Hz & Hm & _)]].
  - assert (Hcut : cutShort = true).
    { subst cutShort. replace (a - 1)%nat with k by lia.
      rewrite Hretry, Hdone.
      replace (0 <? a)%nat with true by (symmetry; apply Nat.ltb_lt; lia).
      replace (Z.of_nat k <? N) with true by (symmetry; apply Z.ltb_lt; lia).
      reflexivity. }
    rewrite Hcut. replace m with a by lia.
    split; [reflexivity|]. split; [intros n Hn; apply Hctx; lia|].
    intros _. replace (a - 1)%nat with k by lia. rewrite Hdone. apply Hret. exact Hexit.
  - assert (Hcut : cutShort = false).
    { subst cutShort. replace (a - 1)%nat with k by lia.
      destruct Hwhy as [Hstop|HN].
      - rewrite Hstop. cbn [negb]. now rewrite andb_false_r.
      - replace (Z.of_nat k <? N) with false by (symmetry; apply Z.ltb_ge; lia).
        now rewrite andb_false_r. }
    rewrite Hcut. replace m with (a - 1)%nat by lia.
    split; [reflexivity|]. split; [intros n Hn; apply Hctx; lia|discriminate].
  - assert (Hcut : cutShort = false) by (subst cutShort; now rewrite Hz).
    rewrite Hcut, Hz, Hm.
    split; [reflexivity|]. split; [intros n Hn; lia|discriminate].
Qed.

Lemma X8_backoff_schedule_witness :
  waits (snd (makeRequest sampleWorld (sampleClient 2 None) background "GET"
                "http://127.0.0.1:8080/" None None)) =
    [100 * Millisecond; 200 * Millisecond] /\
  waits (snd (makeRequest sampleWorld (sampleClient 2 None) cancelled "GET"
                "http://127.0.0.1:8080/" None None)) = [100 * Millisecond] /\
  fst (makeRequest sampleWorld (sampleClient 2 None) cancelled "GET"
         "http://127.0.0.1:8080/" None None) =
    Returned (Some (ErrorString "context canceled"), None).
Proof.
  pose proof (X8_backoff_schedule sampleWorld (sampleClient 2 None) background "GET"
                "http://127.0.0.1:8080/" None None) as Hfree.
  pose proof (X8_backoff_schedule sampleWorld (sampleClient 2 None) cancelled "GET"
                "http://127.0.0.1:8080/" None None) as Hcut.
  cbv zeta in Hfree, Hcut.
  destruct Hfree as (Hfree & _). destruct Hcut as (Hcut & _ & Hret).
  split; [rewrite Hfree; vm_compute; reflexivity|].
  split; [rewrite Hcut; vm_compute; reflexivity|].
  rewrite Hret; vm_compute; reflexivity.
Defined.

Lemma wrap64_small (z : Z) : - 2 ^ 63 <= z < 2 ^ 63 -> wrap64 z = z.
Proof. intros H. unfold wrap64. rewrite Z.mod_small; lia. Qed.

(** X9: the backoff after attempt [a] is 100 ms times [2^a] for the
    attempts 0 to 36; from attempt 37 on the 64-bit duration overflows:
    it is negative after attempt 37, and zero from attempt 62 on. *)
Theorem X9_backoff_values (a : Z) :
  (0 <= a <= 36 -> backoffTime a = 100 * Millisecond * 2 ^ a) /\
  (0 <= a < 36 -> backoffTime (a + 1) = 2 * backoffTime a) /\
  (62 <= a -> backoffTime a = 0) /\
  backoffTime 0 = 100 * Millisecond /\
  backoffTime 37 < 0.
Proof.
  assert (Hsmall : forall b, 0 <= b <= 36 -> backoffTime b = 100 * Millisecond * 2 ^ b).
  { intros b Hb. unfold backoffTime, Millisecond.
    rewrite Z.shiftl_1_l.
    assert (Hp : 1 <= 2 ^ b <= 2 ^ 36).
    { split; [apply (Z.pow_le_mono_r 2 0 b); lia|apply Z.pow_le_mono_r; lia]. }
    change (2 ^ 36) with 68719476736 in Hp.
    assert (H63 : 2 ^ 63 = 9223372036854775808) by reflexivity.
    rewrite (wrap64_small (2 ^ b)) by lia.
    rewrite (wrap64_small (2 ^ b * 100)) by lia.
    rewrite wrap64_small by lia. lia. }
  split; [apply Hsmall|]. split; [|split; [|split]].
  - intros Ha. rewrite !Hsmall by lia. rewrite Z.pow_add_r by lia. lia.
  - intros Ha. unfold backoffTime. rewrite Z.shiftl_1_l.
    replace a with (62 + (a - 62)) by lia. rewrite Z.pow_add_r by lia.
    set (q := 2 ^ (a - 62)).
    assert (Hw : wrap64 (wrap64 (2 ^ 62 * q) * 100) = 0).
    { unfold wrap64.
      replace (((2 ^ 62 * q + 2 ^ 63) mod 2 ^ 64 - 2 ^ 63) * 100 + 2 ^ 63)
        with (2 ^ 63 + (25 * q + 50 - 100 * ((2 ^ 62 * q + 2 ^ 63) / 2 ^ 64) - 50) * 2 ^ 64).
      - rewrite Z_mod_plus_full. reflexivity.
      - pose proof (Z.div_mod (2 ^ 62 * q + 2 ^ 63) (2 ^ 64) ltac:(discriminate)) as Hdm.
        change (2 ^ 62) with 4611686018427387904 in *.
        change (2 ^ 63) with 9223372036854775808 in *.
        change (2 ^ 64) with 18446744073709551616 in *. lia. }
    rewrite Hw. reflexivity.
  - reflexivity.
  - reflexivity.
Qed.

Lemma X9_backoff_values_witness :
  backoffTime 3 = 100 * Millisecond * 2 ^ 3 /\ backoffTime 100 = 0.
Proof.
  split.
  - apply (X9_backoff_values 3). lia.
  - apply (X9_backoff_values 100). lia.
Defined.

(** ** The retry loop: response bodies and requests *)

Section RetryLoopBodies.

Variable do : nat -> DoResult.
Variable req : Request.
Variable ctx : Context.
Variable N : Z.





Lemma requests_pause (resp : option Response) (d : Z) (tr : list Event) :
  requests (match resp with Some _ => [EvClose] | None => [] end ++ EvWait d :: tr) =
  requests tr.
Proof. destruct resp; reflexivity. Qed.

Lemma retryLoop_requests iters attempt resp0 err0 :
  requests (snd (retryLoop do req ctx N iters attempt resp0 err0)) =
  repeat req (attempts (snd (retryLoop do req ctx N iters attempt resp0 err0))).
Proof.
  revert attempt resp0 err0.
  induction iters as [|iters IH]; intros attempt resp0 err0; cbn [retryLoop].
  - reflexivity.
  - destruct (stopsLoop _); [reflexivity|].
    destruct (attempt =? N).
    { destruct (do (Z.to_nat attempt)); reflexivity. }
    destruct (ctx (Z.to_nat attempt)).
    + cbn [snd]. destruct (do_resp _); reflexivity.
    + specialize (IH (attempt + 1) (do_resp (do (Z.to_nat attempt)))
                    (do_err (do (Z.to_nat attempt)))).
      destruct (retryLoop _ _ _ _ _ _ _ _) as [exit tr]. cbn [snd] in *.
      rewrite attempts_do, attempts_pause.
      change (requests (EvDo req :: ?l)) with (req :: requests l).
      rewrite requests_pause, IH. reflexivity.
Qed.

End RetryLoopBodies.


Lemma handleResponse_no_request w c result resp respErr :
  requests (snd (handleResponse w c result resp respErr)) = [].
Proof.
  unfold handleResponse. destruct resp as [resp|]; [|reflexivity].
  destruct (negb _).
  - destruct (strings_Contains _ _); [|reflexivity].
    destruct (w_gzipNewReader _ _); reflexivity.
  - destruct result as [v|]; [|reflexivity].
    destruct (if strings_Contains _ _ then _ else _) as [stream|err]; [|reflexivity].
    destruct (body_err stream); [reflexivity|].
    destruct (w_jsonUnmarshal _ _ _) as [v' [e|]]; reflexivity.
Qed.



(** *** Header names *)

Lemma canon_go_cons (c : ascii) (s : string) (upper : bool) :
  canon_go (String c s) upper =
  String (canonByte upper c) (canon_go s (byte_is (canonByte upper c) 45)).
Proof. reflexivity. Qed.

Lemma canonByte_lowerByte (c : ascii) (upper : bool) :
  canonByte upper (lowerByte c) = canonByte upper c.
Proof. destruct upper; destruct c as [[] [] [] [] [] [] [] []]; reflexivity. Qed.

Lemma lowerByte_canonByte (c : ascii) (upper : bool) :
  lowerByte (canonByte upper c) = lowerByte c.
Proof. destruct upper; destruct c as [[] [] [] [] [] [] [] []]; reflexivity. Qed.

Lemma valid_lowerByte (c : ascii) :
  validHeaderFieldByte (lowerByte c) = validHeaderFieldByte c.
Proof. destruct c as [[] [] [] [] [] [] [] []]; reflexivity. Qed.

Lemma valid_canonByte (c : ascii) (upper : bool) :
  validHeaderFieldByte (canonByte upper c) = validHeaderFieldByte c.
Proof. destruct upper; destruct c as [[] [] [] [] [] [] [] []]; reflexivity. Qed.

Lemma canon_go_lowerName (s : string) (upper : bool) :
  canon_go (lowerName s) upper = canon_go s upper.
Proof.
  revert upper. induction s as [|c s IH]; intros upper; [reflexivity|].
  cbn [lowerName]. rewrite !canon_go_cons, canonByte_lowerByte, IH. reflexivity.
Qed.

Lemma lowerName_canon_go (s : string) (upper : bool) :
  lowerName (canon_go s upper) = lowerName s.
Proof.
  revert upper. induction s as [|c s IH]; intros upper; [reflexivity|].
  rewrite canon_go_cons. cbn [lowerName]. rewrite lowerByte_canonByte, IH. reflexivity.
Qed.

Lemma valid_lowerName (s : string) :
  forallb validHeaderFieldByte (list_ascii_of_string (lowerName s)) =
  forallb validHeaderFieldByte (list_ascii_of_string s).
Proof.
  induction s as [|c s IH]; [reflexivity|].
  cbn [lowerName list_ascii_of_string forallb]. rewrite valid_lowerByte, IH. reflexivity.
Qed.

Lemma valid_canon_go (s : string) (upper : bool) :
  forallb validHeaderFieldByte (list_ascii_of_string (canon_go s upper)) =
  forallb validHeaderFieldByte (list_ascii_of_string s).
Proof.
  revert upper. induction s as [|c s IH]; intros upper; [reflexivity|].
  rewrite canon_go_cons. cbn [list_ascii_of_string forallb].
  rewrite valid_canonByte, IH. reflexivity.
Qed.

(** A name is looked up under the key of a well-formed name exactly when
    the two differ at most in the case of their letters. *)
Lemma sameHeaderName_canonical (name key : string) :
  forallb validHeaderFieldByte (list_ascii_of_string key) = true ->
  sameHeaderName name key =
  bool_decide (CanonicalMIMEHeaderKey name = CanonicalMIMEHeaderKey key).
Proof.
  intros Hkey. unfold sameHeaderName.
  destruct (String.eqb_spec (lowerName name) (lowerName key)) as [Heq|Hne]; symmetry.
  - apply bool_decide_eq_true. unfold CanonicalMIMEHeaderKey.
    rewrite <- (valid_lowerName name), Heq, valid_lowerName, Hkey.
    rewrite <- (canon_go_lowerName name), Heq, canon_go_lowerName. reflexivity.
  - apply bool_decide_eq_false. intros Hcanon. apply Hne.
    unfold CanonicalMIMEHeaderKey in Hcanon. rewrite Hkey in Hcanon.
    destruct (forallb validHeaderFieldByte (list_ascii_of_string name)) eqn:Hname.
    + rewrite <- (lowerName_canon_go name true), Hcanon. apply lowerName_canon_go.
    + rewrite Hcanon, valid_canon_go, Hkey in Hname. discriminate.
Qed.

(** X11: the request has the method and URL asked for, the marshalled body
    if there is one, and exactly these headers, each found under its name
    in any case of the letters: [Accept: application/json],
    [Accept-Encoding: gzip], [Cache-Control: no-cache], the configured
    [User-Agent], the API key as [X-Subscription-Token], and
    [Content-Type: application/json] only with a body.  Every attempt of
    a call without a body, as [WebSearch] makes it, is made with this one
    request. *)
Theorem X11_request_sent (w : World) (c : Client) (ctx : Context) (method url : string)
    (jsonData : option string) (result : option WebSearchResponse) :
  let req := requestOf c method url (option_map (@inl string error) jsonData) in
  let bare := requestOf c method url None in
  let tr := snd (makeRequest w c ctx method url None result) in
  requests tr = repeat bare (attempts tr) /\
  ReqBody bare = None /\
  Method req = method /\
  URL req = url /\
  ReqBody req = jsonData /\
  (forall name : string,
     Header_Get (ReqHeader req) name =
     if sameHeaderName name "Accept" then "application/json"
     else if sameHeaderName name "Accept-Encoding" then "gzip"
     else if sameHeaderName name "Cache-Control" then "no-cache"
     else if sameHeaderName name "User-Agent" then cfg_UserAgent (config c)
     else if sameHeaderName name "X-Subscription-Token" then cfg_APIKey (config c)
     else if sameHeaderName name "Content-Type"
          then match jsonData with Some _ => "application/json" | None => "" end
     else "").
Proof.
  intros req bare tr. split.
  { subst tr bare.
    destruct (makeRequest_cases w method url None) as [Hno|[Hbody Hreq]].
    - destruct (makeRequest_not_built w c ctx method url None result Hno)
        as (-> & _ & _ & ->). reflexivity.
    - rewrite makeRequest_built by assumption.
      pose proof (retryLoop_requests (client_Do w c (requestOf c method url None))
                    (requestOf c method url None) ctx (cfg_MaxRetries (config c))
                    (Z.to_nat (cfg_MaxRetries (config c) + 1)) 0 None None) as Hr.
      destruct (retryLoop _ _ _ _ _ _ _ _) as [[err|resp respErr] tr]; cbn [snd] in *.
      + change (attempts (EvNewRequest method url :: tr)) with (attempts tr).
        change (requests (EvNewRequest method url :: tr)) with (requests tr). exact Hr.
      + rewrite attempts_request by apply handleResponse_no_attempt.
        change (requests (EvNewRequest method url :: ?l)) with (requests l).
        unfold requests. rewrite flat_map_app. fold (requests tr).
        fold (requests (snd (handleResponse w c result resp respErr))).
        rewrite handleResponse_no_request, app_nil_r. exact Hr. }
  split; [reflexivity|]. split; [reflexivity|]. split; [reflexivity|].
  split; [destruct jsonData; reflexivity|].
  intros name. subst req. unfold requestOf. cbn [ReqHeader].
  rewrite !sameHeaderName_canonical by reflexivity.
  change (CanonicalMIMEHeaderKey "Accept") with "Accept".
  change (CanonicalMIMEHeaderKey "Accept-Encoding") with "Accept-Encoding".
  change (CanonicalMIMEHeaderKey "Cache-Control") with "Cache-Control".
  change (CanonicalMIMEHeaderKey "User-Agent") with "User-Agent".
  change (CanonicalMIMEHeaderKey "X-Subscription-Token") with "X-Subscription-Token".
  change (CanonicalMIMEHeaderKey "Content-Type") with "Content-Type".
  unfold Header_Get. generalize (CanonicalMIMEHeaderKey name). intros key.
  unfold requestHeaders, Header_Set.
  change (CanonicalMIMEHeaderKey HeaderAccept) with "Accept".
  change (CanonicalMIMEHeaderKey HeaderAcceptEncoding) with "Accept-Encoding".
  change (CanonicalMIMEHeaderKey HeaderCacheControl) with "Cache-Control".
  change (CanonicalMIMEHeaderKey HeaderUserAgent) with "User-Agent".
  change (CanonicalMIMEHeaderKey HeaderSubscriptionToken) with "X-Subscription-Token".
  change (CanonicalMIMEHeaderKey "Content-Type") with "Content-Type".
  assert (Hbody : bool_decide (is_Some (option_map (@inl string error) jsonData)) =
                  match jsonData with Some _ => true | None => false end)
    by (destruct jsonData; reflexivity).
  rewrite Hbody. clear Hbody.
  destruct (decide (key = "Accept")) as [->|H1];
    [destruct jsonData; vm_compute; reflexivity|].
  destruct (decide (key = "Accept-Encoding")) as [->|H2];
    [destruct jsonData; vm_compute; reflexivity|].
  destruct (decide (key = "Cache-Control")) as [->|H3];
    [destruct jsonData; vm_compute; reflexivity|].
  destruct (decide (key = "User-Agent")) as [->|H4];
    [destruct jsonData; vm_compute; reflexivity|].
  destruct (decide (key = "X-Subscription-Token")) as [->|H5];
    [destruct jsonData; vm_compute; reflexivity|].
  destruct (decide (key = "Content-Type")) as [->|H6];
    [destruct jsonData; vm_compute; reflexivity|].
  rewrite !bool_decide_eq_false_2 by assumption.
  destruct jsonData; rewrite !lookup_insert_ne by congruence; rewrite lookup_empty;
    reflexivity.
Qed.

(** ** [WebSearch]: what it sends and what it returns *)

Lemma validQuery_iff (query : string) :
  validQuery query = true <->
  query <> "" /\ len query <= 400 /\ Z.of_nat (length (strings_Fields query)) <= 50.
Proof.
  unfold validQuery.
  rewrite andb_true_iff, !negb_true_iff, orb_false_iff, String.eqb_neq, !Z.ltb_ge.
  tauto.
Qed.

Lemma WebSearch_invalid w c ctx query params :
  validQuery query = false ->
  WebSearch w c ctx query params =
  (Returned (None, Some (Sentinel (if String.eqb query "" then ErrEmptyQuery
                                   else ErrQueryTooLong))), []).
Proof.
  unfold validQuery, WebSearch. intros H.
  destruct (String.eqb query ""); [reflexivity|].
  simpl in H. apply negb_false_iff in H. now rewrite H.
Qed.

(** X12: [WebSearch] builds a request exactly when the query is not
    empty, has at most 400 bytes and at most 50 fields; otherwise it
    returns no response and [ErrEmptyQuery] or [ErrQueryTooLong], and
    nothing else happens. *)
Theorem X12_request_iff_valid (w : World) (c : Client) (ctx : Context) (query : string)
    (params : option WebSearchParams) :
  (snd (WebSearch w c ctx query params) <> [] <->
   query <> "" /\ len query <= 400 /\ Z.of_nat (length (strings_Fields query)) <= 50) /\
  (snd (WebSearch w c ctx query params) = [] ->
   fst (WebSearch w c ctx query params) = Returned (None, Some (Sentinel ErrEmptyQuery)) \/
   fst (WebSearch w c ctx query params) = Returned (None, Some (Sentinel ErrQueryTooLong))).
Proof.
  rewrite <- validQuery_iff.
  destruct (validQuery query) eqn:Hvalid.
  - destruct (makeRequest_trace_head w c ctx "GET"
                (fst (buildRequestURL c WebSearchEndpoint (searchParamsOf c query params)))
                (Some zeroWebSearchResponse)) as [tr Htr].
    rewrite (WebSearch_valid w c ctx query params Hvalid), Htr.
    split; [split; [reflexivity|discriminate]|discriminate].
  - rewrite (WebSearch_invalid w c ctx query params Hvalid). cbn [fst snd].
    split; [split; [intros H; now contradiction H|discriminate]|].
    intros _. destruct (String.eqb query ""); auto.
Qed.

Lemma X12_request_iff_valid_witness :
  snd (WebSearch sampleWorld (sampleClient 2 None) background
         (string_of_list_ascii (repeat "a"%char 400)) None) <> [].
Proof.
  apply (X12_request_iff_valid sampleWorld (sampleClient 2 None) background
           (string_of_list_ascii (repeat "a"%char 400)) None).
  split; [discriminate|]. split; vm_compute; discriminate.
Defined.

Lemma handleResponse_returns w c v0 resp respErr err res tr :
  handleResponse w c (Some v0) resp respErr = (Returned (err, res), tr) ->
  is_Some res /\
  (err = None ->
   exists r stream v,
     resp = Some r /\ StatusCode r = StatusOK /\
     decodedStream w r = inl stream /\ body_err stream = None /\
     w_jsonUnmarshal w (body_data stream) v0 = (v, None) /\ res = Some v).
Proof.
  unfold handleResponse, decodedStream.
  destruct resp as [r|]; [|intros H; inversion H; split; [eauto|discriminate]].
  destruct (Z.eqb_spec (StatusCode r) StatusOK) as [Hok|Hne]; cbn [negb].
  2:{ destruct (strings_Contains _ _).
      - destruct (w_gzipNewReader w (Body r)); intros H; inversion H.
        split; [eauto|discriminate].
      - intros H; inversion H. split; [eauto|discriminate]. }
  destruct (if strings_Contains _ _ then _ else _) as [stream|gzerr] eqn:Es.
  2:{ intros H; inversion H. split; [eauto|discriminate]. }
  destruct (body_err stream) as [rerr|] eqn:Eb.
  { intros H; inversion H. split; [eauto|discriminate]. }
  destruct (w_jsonUnmarshal w (body_data stream) v0) as [v' [jerr|]] eqn:Ej.
  { intros H; inversion H. split; [eauto|discriminate]. }
  intros H; inversion H. split; [eauto|]. intros _.
  exists r, stream, v'. repeat split; try assumption; reflexivity.
Qed.

(** Every [return] of the loop carries an error. *)
Lemma retryLoop_return_error do req ctx N iters attempt resp0 err0 err tr :
  retryLoop do req ctx N iters attempt resp0 err0 = (LoopReturn err, tr) -> err <> None.
Proof.
  revert attempt resp0 err0 tr.
  induction iters as [|iters IH]; intros a r0 e0 tr; cbn [retryLoop].
  - discriminate.
  - destruct (stopsLoop _); [discriminate|].
    destruct (a =? N).
    { destruct (do (Z.to_nat a)); intros H; inversion H; discriminate. }
    destruct (ctx (Z.to_nat a)); [intros H; inversion H; discriminate|].
    destruct (retryLoop _ _ _ _ iters _ _ _) as [exit' tr'] eqn:Er.
    intros H. inversion H; subst. eapply IH. exact Er.
Qed.

Lemma makeRequest_returns w c ctx method url v0 err res :
  fst (makeRequest w c ctx method url None (Some v0)) = Returned (err, res) ->
  is_Some res /\
  (err = None ->
   exists n r stream v,
     client_Do w c (requestOf c method url None) n = DoResp r /\
     StatusCode r = StatusOK /\
     attempts (snd (makeRequest w c ctx method url None (Some v0))) = S n /\
     decodedStream w r = inl stream /\ body_err stream = None /\
     w_jsonUnmarshal w (body_data stream) v0 = (v, None) /\ res = Some v).
Proof.
  destruct (w_NewRequest w method url) as [e|] eqn:Hreq.
  { unfold makeRequest. rewrite Hreq. cbn [fst]. intros H; inversion H.
    split; [eauto|discriminate]. }
  rewrite makeRequest_built by (reflexivity || assumption).
  set (N := cfg_MaxRetries (config c)).
  destruct (retryLoop _ _ _ _ _ _ _ _) as [[e|resp respErr] tr] eqn:Eloop; cbn [fst snd].
  - intros H; inversion H; subst. split; [eauto|].
    intros ->. exfalso. apply retryLoop_return_error in Eloop. now apply Eloop.
  - destruct (handleResponse w c (Some v0) resp respErr) as [out tr'] eqn:Eh.
    cbn [fst snd]. intros ->.
    assert (Htr' : attempts tr' = 0%nat).
    { pose proof (handleResponse_no_attempt w c (Some v0) resp respErr) as H0.
      now rewrite Eh in H0. }
    apply handleResponse_returns in Eh as [Hsome Hok]. split; [exact Hsome|].
    intros Herr. destruct (Hok Herr) as (r & stream & v & -> & Hsc & Hd & Hb & Hj & ->).
    destruct (Z.lt_ge_cases 0 (N + 1)) as [Hn|Hn].
    2:{ replace (Z.to_nat (N + 1)) with 0%nat in Eloop by lia.
        simpl in Eloop. discriminate. }
    apply retryLoop_done in Eloop; [|lia|lia].
    destruct Eloop as [(_ & Hnone & _)|(n & r' & Hr & _ & Hdo & _ & _ & _ & Hatt)];
      [discriminate|].
    inversion Hr; subst r'. exists n, r, stream, v.
    repeat split; try assumption.
    rewrite attempts_request by exact Htr'.
    rewrite Hatt. simpl. lia.
Qed.

(** X13: when [WebSearch] returns, it returns a response or an error,
    never both and never neither; and it returns a response only after a
    last attempt that was answered with status 200, and the response is
    what the body of that answer, decompressed when it is labelled gzip,
    decodes to. *)
Theorem X13_response_or_error (w : World) (c : Client) (ctx : Context) (query : string)
    (params : option WebSearchParams) (r : option WebSearchResponse) (e : option error) :
  fst (WebSearch w c ctx query params) = Returned (r, e) ->
  (r = None <-> e <> None) /\
  (e = None ->
   exists n resp stream v,
     client_Do w c
       (requestOf c "GET"
          (fst (buildRequestURL c WebSearchEndpoint (searchParamsOf c query params))) None)
       n = DoResp resp /\
     StatusCode resp = StatusOK /\
     attempts (snd (WebSearch w c ctx query params)) = S n /\
     decodedStream w resp = inl stream /\
     body_err stream = None /\
     w_jsonUnmarshal w (body_data stream) zeroWebSearchResponse = (v, None) /\
     r = Some v).
Proof.
  destruct (validQuery query) eqn:Hvalid.
  - rewrite (WebSearch_makeRequest w c ctx query params Hvalid). cbn [fst snd].
    destruct (fst (makeRequest _ _ _ _ _ _ _)) as [[err res]|] eqn:Em; [|discriminate].
    apply makeRequest_returns in Em as [[v Hv] Hok]. subst res.
    destruct err as [err|]; cbn [searchOutcome]; intros H; inversion H; subst.
    + split; [split; [discriminate|reflexivity]|discriminate].
    + split; [split; [discriminate|intros Hc; now contradiction Hc]|].
      intros _. destruct (Hok eq_refl) as (n & resp & stream & v' & H1 & H2 & H3 & H4 & H5 & H6 & H7).
      exists n, resp, stream, v'. repeat split; assumption.
  - rewrite (WebSearch_invalid w c ctx query params Hvalid). cbn [fst].
    intros H; inversion H; subst.
    split; [split; [discriminate|reflexivity]|discriminate].
Qed.

Lemma X13_response_or_error_witness :
  exists n resp,
    client_Do sampleWorld (sampleClient 2 (Some failsTwice))
      (requestOf (sampleClient 2 (Some failsTwice)) "GET"
         (fst (buildRequestURL (sampleClient 2 (Some failsTwice)) WebSearchEndpoint
                 (searchParamsOf (sampleClient 2 (Some failsTwice)) "go programming" None)))
         None) n = DoResp resp /\
    StatusCode resp = StatusOK /\
    attempts (snd (WebSearch sampleWorld (sampleClient 2 (Some failsTwice)) background
                     "go programming" None)) = S n.
Proof.
  destruct (X13_response_or_error sampleWorld (sampleClient 2 (Some failsTwice)) background
              "go programming" None (Some zeroWebSearchResponse) None) as [_ H].
  - vm_compute. reflexivity.
  - destruct (H eq_refl) as (n & resp & stream & v & H1 & H2 & H3 & _).
    exists n, resp. auto.
Defined.

Lemma WebSearch_request_items w c ctx query params :
  validQuery query = true ->
  exists tr,
    snd (WebSearch w c ctx query params) =
    EvNewRequest "GET"
      (requestBase c WebSearchEndpoint ++ "?" ++ renderPairs (requestItems c query params))
    :: tr.
Proof.
  intros Hvalid. rewrite (WebSearch_valid w c ctx query params Hvalid).
  apply makeRequest_trace_head.
Qed.

(** The items sent are those of the table of wire names. *)
Lemma wireItems_spec (p : WebSearchParams) (k v : string) :
  In (k, v) (wireItems p) <-> wireParam p k = Some v.
Proof.
  assert (Htext : forall key value,
            In (k, v) (textItem key value) <->
            k = key /\ (if String.eqb value "" then None else Some value) = Some v).
  { intros key value. unfold textItem. destruct (String.eqb value ""); simpl.
    - split; [tauto|intros [_ H]; discriminate].
    - split; [intros [H|[]]; inversion H; auto|intros [-> H]; inversion H; auto]. }
  assert (Hpos : forall key n,
            In (k, v) (positiveItem key n) <->
            k = key /\ (if 0 <? n then Some (strconv_Itoa n) else None) = Some v).
  { intros key n. unfold positiveItem. destruct (0 <? n); simpl.
    - split; [intros [H|[]]; inversion H; auto|intros [-> H]; inversion H; auto].
    - split; [tauto|intros [_ H]; discriminate]. }
  assert (Hflag : forall key b,
            In (k, v) (flagItem key b) <->
            k = key /\ (if b then Some "true" else None) = Some v).
  { intros key b. unfold flagItem. destruct b; simpl.
    - split; [intros [H|[]]; inversion H; auto|intros [-> H]; inversion H; auto].
    - split; [tauto|intros [_ H]; discriminate]. }
  assert (Hone : forall key value,
            In (k, v) [(key, value)] <-> k = key /\ Some value = Some v).
  { intros key value. simpl.
    split; [intros [H|[]]; inversion H; auto|intros [-> H]; inversion H; auto]. }
  unfold wireItems. rewrite !in_app_iff, !Htext, !Hpos, !Hflag, !Hone.
  clear Htext Hpos Hflag Hone. unfold wireParam.
  repeat match goal with
         | |- context [String.eqb k ?key] =>
             destruct (String.eqb_spec k key) as [->|?];
             [split; [intros H; repeat (destruct H as [H|H]; try (destruct H; congruence));
                      destruct H; congruence
                     |intuition congruence]|]
         end.
  split; [intros H; repeat (destruct H as [H|H]; try (destruct H; congruence));
          destruct H; congruence|discriminate].
Qed.

Lemma WebSearch_asksExactly w c ctx query params (expected : list (string * string)) :
  validQuery query = true ->
  (forall kv, In kv (wireItems (searchParamsOf c query params)) <-> In kv expected) ->
  asksExactly (WebSearch w c ctx query params) c expected.
Proof.
  intros Hvalid Hitems.
  destruct (WebSearch_request_items w c ctx query params Hvalid) as [tr Htr].
  exists (requestItems c query params), tr. split; [exact Htr|]. split.
  - apply requestValues_keys_NoDup.
  - intros [k v]. rewrite <- Hitems, wireItems_spec. apply requestValues_pairs.
Qed.

Lemma validQuery_nonempty (query : string) :
  validQuery query = true -> String.eqb query "" = false.
Proof.
  unfold validQuery. intros H. apply andb_true_iff in H as [H _].
  now apply negb_true_iff in H.
Qed.

(** X14: for a valid query, the request of [WebSearch] always carries
    [q] with the query and [safesearch] with the given level, or
    [moderate] when none is given; it carries [count=20] when the count is
    zero, the count itself when it is positive, and no [count] at all when
    it is negative; [country], [search_lang] and [ui_lang] carry the given
    value or else the default of the client, and are left out only when
    both are empty. *)
Theorem X14_search_defaults (w : World) (c : Client) (ctx : Context) (query : string)
    (params : option WebSearchParams) :
  validQuery query = true ->
  let given := paramsOrZero params in
  let items := requestItems c query params in
  let orElse (value fallback : string) := if String.eqb value "" then fallback else value in
  (exists tr,
     snd (WebSearch w c ctx query params) =
     EvNewRequest "GET" (requestBase c WebSearchEndpoint ++ "?" ++ renderPairs items) :: tr) /\
  In ("q", query) items /\
  In ("safesearch", orElse (p_SafeSearch given) "moderate") items /\
  (forall v, In ("count", v) items <->
             (p_Count given = 0 /\ v = "20") \/
             (0 < p_Count given /\ v = strconv_Itoa (p_Count given))) /\
  (forall v, In ("country", v) items <->
             v <> "" /\ v = orElse (p_Country given) (cfg_DefaultCountry (config c))) /\
  (forall v, In ("search_lang", v) items <->
             v <> "" /\ v = orElse (p_SearchLang given) (cfg_DefaultSearchLang (config c))) /\
  (forall v, In ("ui_lang", v) items <->
             v <> "" /\ v = orElse (p_UILang given) (cfg_DefaultUILang (config c))).
Proof.
  intros Hvalid given items orElse.
  assert (Htext : forall s v : string,
            (if String.eqb s "" then None else Some s) = Some v <-> v <> "" /\ v = s).
  { intros s v. destruct (String.eqb_spec s "") as [->|Hne];
      intuition (try congruence). }
  pose proof (validQuery_nonempty query Hvalid) as Hq.
  split; [apply WebSearch_request_items; exact Hvalid|].
  subst items. unfold requestItems.
  split; [|split; [|split; [|split; [|split]]]].
  - apply requestValues_pairs.
    change (wireParam (searchParamsOf c query params) "q")
      with (if String.eqb query "" then None else Some query).
    now rewrite Hq.
  - apply requestValues_pairs.
    change (wireParam (searchParamsOf c query params) "safesearch")
      with (if String.eqb (orElse (p_SafeSearch given) "moderate") "" then None
            else Some (orElse (p_SafeSearch given) "moderate")).
    subst orElse. cbv beta.
    destruct (String.eqb_spec (p_SafeSearch given) "") as [_|Hne]; [reflexivity|].
    destruct (String.eqb_spec (p_SafeSearch given) ""); [contradiction|reflexivity].
  - intros v. rewrite requestValues_pairs.
    change (wireParam (searchParamsOf c query params) "count")
      with (if 0 <? (if p_Count given =? 0 then DefaultCount else p_Count given)
            then Some (strconv_Itoa (if p_Count given =? 0 then DefaultCount
                                     else p_Count given))
            else None).
    destruct (Z.eqb_spec (p_Count given) 0) as [Hz|Hnz].
    + change (0 <? DefaultCount) with true. cbv iota.
      change (strconv_Itoa DefaultCount) with "20".
      split; [intros H; inversion H; left; auto|].
      intros [[_ ->]|[Hpos _]]; [reflexivity|lia].
    + destruct (Z.ltb_spec 0 (p_Count given)) as [Hpos|Hneg].
      * split; [intros H; inversion H; right; auto|].
        intros [[Hz _]|[_ ->]]; [contradiction|reflexivity].
      * split; [discriminate|]. intros [[Hz _]|[Hpos _]]; [contradiction|lia].
  - intros v. rewrite requestValues_pairs. apply Htext.
  - intros v. rewrite requestValues_pairs. apply Htext.
  - intros v. rewrite requestValues_pairs. apply Htext.
Qed.

Lemma X14_search_defaults_witness :
  In ("q", "go programming") (requestItems (clientAt BaseURL) "go programming" None) /\
  ~ In ("count", "-1")
      (requestItems (clientAt BaseURL) "go programming"
         (Some (mkWebSearchParams "" "" "" "" (-1) 0 "" "" false false "" "" "" false false))).
Proof.
  split.
  - destruct (X14_search_defaults sampleWorld (clientAt BaseURL) background "go programming"
                None) as (_ & H & _).
    + vm_compute. reflexivity.
    + exact H.
  - destruct (X14_search_defaults sampleWorld (clientAt BaseURL) background "go programming"
                (Some (mkWebSearchParams "" "" "" "" (-1) 0 "" "" false false "" "" ""
                         false false))) as (_ & _ & _ & H & _).
    + vm_compute. reflexivity.
    + intros Hin.
      destruct (proj1 (H "-1") Hin) as [[Hz _]|[Hpos _]]; [discriminate Hz|].
      cbn [paramsOrZero p_Count] in Hpos. lia.
Defined.

(** *** The search wrappers *)

Section Wrappers.

#[local] Arguments strconv_Itoa : simpl never.

Ltac split_tests :=
  repeat (simpl;
          match goal with
          | H : String.eqb ?x "" = _ |- context [String.eqb ?x ""] => rewrite H
          | |- context [String.eqb ?x ""] =>
              lazymatch x with
              | context [String.eqb] => fail
              | _ => destruct (String.eqb x "") eqn:?
              end
          end).

Ltac unfold_items Hq :=
  let kv := fresh "kv" in
  intros kv; unfold wireItems, textItem, positiveItem, flagItem;
  cbn [searchParamsOf NewWebSearchParams withResultFilter withFreshness
       p_Query p_Country p_SearchLang p_UILang p_Count
       p_Offset p_SafeSearch p_Freshness p_TextDecorations p_Spellcheck p_ResultFilter
       p_Goggles p_Units p_ExtraSnippets p_Summary];
  cbv [DefaultCount DefaultOffset DefaultSafeSearch SafeSearchModerate DefaultTextDecor
       DefaultSpellCheck FreshnessDay ResultFilterNews ResultFilterVideos];
  rewrite ?Hq; simpl; change (strconv_Itoa 20) with "20".

Ltac exact_items Hq := unfold_items Hq; split_tests; simpl; tauto.

(** X15: for a valid query the query string of every search wrapper has
    exactly these items: the query, [text_decorations=true] and
    [spellcheck=true]; the client's default UI language, country and
    search language, each when it is not empty; [count=20] and
    [safesearch=moderate] unless the wrapper sets them; and the wrapper's
    own parameter: the news and videos filters, [freshness=pd] for recent
    results, [summary=true], and the given country, language, safe-search
    level, freshness or units when the argument is not empty; an empty
    country, language or safe-search level leaves the default.  The
    pagination wrapper sends a positive count and a positive offset,
    [count=20] for a zero count, and neither [count] for a negative count
    nor [offset] for an offset that is not positive. *)
Theorem X15_search_wrappers (w : World) (c : Client) (ctx : Context)
    (query country lang safeSearch freshness units : string) (count offset : Z) :
  validQuery query = true ->
  let orElse (value fallback : string) := if String.eqb value "" then fallback else value in
  let base :=
    ([("q", query); ("text_decorations", "true"); ("spellcheck", "true")] ++
     textItem "ui_lang" (cfg_DefaultUILang (config c)))%list in
  let place :=
    (textItem "country" (cfg_DefaultCountry (config c)) ++
     textItem "search_lang" (cfg_DefaultSearchLang (config c)))%list in
  let std := (base ++ [("count", "20"); ("safesearch", "moderate")])%list in
  asksExactly (WebSearchWithCountry w c ctx query country) c
    (std ++ textItem "country" (orElse country (cfg_DefaultCountry (config c))) ++
     textItem "search_lang" (cfg_DefaultSearchLang (config c))) /\
  asksExactly (WebSearchWithLanguage w c ctx query lang) c
    (std ++ textItem "country" (cfg_DefaultCountry (config c)) ++
     textItem "search_lang" (orElse lang (cfg_DefaultSearchLang (config c)))) /\
  asksExactly (WebSearchNews w c ctx query) c (std ++ place ++ [("result_filter", "news")]) /\
  asksExactly (WebSearchVideos w c ctx query) c
    (std ++ place ++ [("result_filter", "videos")]) /\
  asksExactly (WebSearchWithSafeSearch w c ctx query safeSearch) c
    (base ++ place ++ [("count", "20"); ("safesearch", orElse safeSearch "moderate")]) /\
  asksExactly (WebSearchWithFreshness w c ctx query freshness) c
    (std ++ place ++ textItem "freshness" freshness) /\
  asksExactly (WebSearchRecent w c ctx query) c (std ++ place ++ [("freshness", "pd")]) /\
  asksExactly (WebSearchSummary w c ctx query) c (std ++ place ++ [("summary", "true")]) /\
  asksExactly (WebSearchWithUnits w c ctx query units) c
    (std ++ place ++ textItem "units" units) /\
  asksExactly (WebSearchWithPagination w c ctx query count offset) c
    (base ++ place ++ [("safesearch", "moderate")] ++
     (if 0 <? count then [("count", strconv_Itoa count)]
      else if count =? 0 then [("count", "20")] else []) ++
     positiveItem "offset" offset).
Proof.
  intros Hvalid orElse base place std.
  subst std place base orElse. cbv beta.
  pose proof (validQuery_nonempty query Hvalid) as Hq.
  repeat split.
  - apply WebSearch_asksExactly; [exact Hvalid|]. exact_items Hq.
  - apply WebSearch_asksExactly; [exact Hvalid|]. exact_items Hq.
  - apply WebSearch_asksExactly; [exact Hvalid|]. exact_items Hq.
  - apply WebSearch_asksExactly; [exact Hvalid|]. exact_items Hq.
  - apply WebSearch_asksExactly; [exact Hvalid|]. exact_items Hq.
  - apply WebSearch_asksExactly; [exact Hvalid|]. exact_items Hq.
  - apply WebSearch_asksExactly; [exact Hvalid|]. exact_items Hq.
  - apply WebSearch_asksExactly; [exact Hvalid|]. exact_items Hq.
  - apply WebSearch_asksExactly; [exact Hvalid|]. exact_items Hq.
  - apply WebSearch_asksExactly; [exact Hvalid|].
    unfold_items Hq.
    destruct (Z.eqb_spec count 0) as [->|Hnz]; simpl;
      change (strconv_Itoa 20) with "20";
      destruct (0 <? offset); try destruct (0 <? count);
      split_tests; simpl; tauto.
Qed.

Lemma X15_search_wrappers_witness :
  asksExactly (WebSearchNews sampleWorld (clientAt BaseURL) background "go programming")
    (clientAt BaseURL)
    [("q", "go programming"); ("text_decorations", "true"); ("spellcheck", "true");
     ("ui_lang", "en-US"); ("count", "20"); ("safesearch", "moderate");
     ("country", "US"); ("search_lang", "en"); ("result_filter", "news")] /\
  asksExactly
    (WebSearchWithPagination sampleWorld (clientAt BaseURL) background "go programming"
       (-1) 0)
    (clientAt BaseURL)
    [("q", "go programming"); ("text_decorations", "true"); ("spellcheck", "true");
     ("ui_lang", "en-US"); ("country", "US"); ("search_lang", "en");
     ("safesearch", "moderate")].
Proof.
  destruct (X15_search_wrappers sampleWorld (clientAt BaseURL) background "go programming"
              "JP" "ja" "strict" "pw" "metric" (-1) 0)
    as (_ & _ & Hnews & _ & _ & _ & _ & _ & _ & Hpage).
  - vm_compute. reflexivity.
  - split; [exact Hnews|exact Hpage].
Defined.

End Wrappers.

(** ** The query string as text *)

Lemma list_ascii_of_string_app (a b : string) :
  list_ascii_of_string (a ++ b) = (list_ascii_of_string a ++ list_ascii_of_string b)%list.
Proof.
  induction a as [|ch a IH]; [reflexivity|].
  change (String ch a ++ b) with (String ch (a ++ b)). simpl. now rewrite IH.
Qed.

Lemma hexDigit_queryByte (n : nat) : (n < 16)%nat -> queryByte (hexDigit n) = true.
Proof.
  intros H. do 16 (destruct n as [|n]; [reflexivity|]). lia.
Qed.

Lemma unreserved_queryByte (c : ascii) : shouldEscape c = false -> queryByte c = true.
Proof.
  unfold shouldEscape, queryByte. intros H. apply negb_false_iff in H.
  cbn [existsb list_ascii_of_string] in *.
  rewrite !orb_true_iff in *. tauto.
Qed.

Lemma QueryEscape_bytes (s : string) :
  forallb queryByte (list_ascii_of_string (QueryEscape s)) = true.
Proof.
  induction s as [|c s IH]; cbn [QueryEscape]; [reflexivity|].
  destruct (byte_is c 32).
  { cbn [list_ascii_of_string forallb]. rewrite IH. reflexivity. }
  destruct (shouldEscape c) eqn:E.
  - cbn [list_ascii_of_string forallb]. rewrite IH.
    pose proof (nat_ascii_bounded c) as Hb. unfold byte_of.
    rewrite !hexDigit_queryByte; [reflexivity| |].
    + apply Nat.mod_upper_bound. lia.
    + apply Nat.Div0.div_lt_upper_bound. exact Hb.
  - cbn [list_ascii_of_string forallb]. rewrite IH, (unreserved_queryByte c E). reflexivity.
Qed.

Lemma queryByte_not_sep (c : ascii) :
  queryByte c = true -> Ascii.eqb c "&" = false /\ Ascii.eqb c "=" = false.
Proof.
  intros H. split.
  - destruct (Ascii.eqb_spec c "&") as [->|]; [discriminate H|reflexivity].
  - destruct (Ascii.eqb_spec c "=") as [->|]; [discriminate H|reflexivity].
Qed.

Lemma Split_without (s : string) (sep : ascii) :
  forallb (fun c => negb (Ascii.eqb c sep)) (list_ascii_of_string s) = true ->
  strings_Split s sep = [s].
Proof.
  induction s as [|c s IH]; cbn [strings_Split list_ascii_of_string forallb];
    [reflexivity|].
  intros H. apply andb_true_iff in H as [Hc Hs]. apply negb_true_iff in Hc.
  rewrite Hc, (IH Hs). reflexivity.
Qed.

Lemma Split_at (s t : string) (sep : ascii) :
  forallb (fun c => negb (Ascii.eqb c sep)) (list_ascii_of_string s) = true ->
  strings_Split (s ++ String sep t) sep = s :: strings_Split t sep.
Proof.
  induction s as [|c s IH]; cbn [list_ascii_of_string forallb].
  - intros _. change ("" ++ String sep t) with (String sep t).
    cbn [strings_Split]. now rewrite Ascii.eqb_refl.
  - intros H. apply andb_true_iff in H as [Hc Hs]. apply negb_true_iff in Hc.
    change (String c s ++ String sep t) with (String c (s ++ String sep t)).
    cbn [strings_Split]. rewrite Hc, (IH Hs). reflexivity.
Qed.

Lemma Split_concat (l : list string) (sep : ascii) :
  l <> [] ->
  Forall (fun s => forallb (fun c => negb (Ascii.eqb c sep)) (list_ascii_of_string s) = true) l ->
  strings_Split (String.concat (String sep "") l) sep = l.
Proof.
  intros Hne Hall. induction Hall as [|x l Hx Hall IH]; [contradiction|].
  destruct l as [|y l].
  - cbn [String.concat]. now apply Split_without.
  - change (String.concat (String sep "") (x :: y :: l))
      with (x ++ String sep (String.concat (String sep "") (y :: l))).
    rewrite Split_at by exact Hx. f_equal. apply IH. discriminate.
Qed.

Lemma renderItem_no_amp (kv : string * string) :
  forallb (fun c => negb (Ascii.eqb c "&")) (list_ascii_of_string (renderItem kv)) = true.
Proof.
  unfold renderItem. rewrite !list_ascii_of_string_app, !forallb_app.
  assert (H : forall s,
            forallb (fun c => negb (Ascii.eqb c "&"))
              (list_ascii_of_string (QueryEscape s)) = true).
  { intros s. pose proof (QueryEscape_bytes s) as Hq.
    rewrite forallb_forall in *. intros c Hc.
    destruct (queryByte_not_sep c (Hq c Hc)) as [-> _]. reflexivity. }
  rewrite !H. reflexivity.
Qed.

Lemma renderItem_split (kv : string * string) :
  strings_Split (renderItem kv) "=" = [QueryEscape (fst kv); QueryEscape (snd kv)].
Proof.
  assert (H : forall s,
            forallb (fun c => negb (Ascii.eqb c "="))
              (list_ascii_of_string (QueryEscape s)) = true).
  { intros s. pose proof (QueryEscape_bytes s) as Hq.
    rewrite forallb_forall in *. intros c Hc.
    destruct (queryByte_not_sep c (Hq c Hc)) as [_ ->]. reflexivity. }
  unfold renderItem.
  change ("=" ++ QueryEscape (snd kv)) with (String "="%char (QueryEscape (snd kv))).
  rewrite Split_at by apply H. f_equal. apply Split_without, H.
Qed.

(** X16: whatever bytes the parameters hold, the query string of
    [buildRequestURL] is made only of letters, digits and the marks
    [- _ . ~ + % = &], it splits at [&] into exactly its items, one per
    parameter sent, and each item splits at [=] into the escaped key and
    the escaped value: no parameter value can add, hide or cut an item. *)
Theorem X16_query_string_items (c : Client) (endpoint : string) (p : WebSearchParams) :
  let items := Values_pairs (requestValues p) in
  fst (buildRequestURL c endpoint p) =
    requestBase c endpoint ++ "?" ++ Values_Encode (requestValues p) /\
  strings_Split (Values_Encode (requestValues p)) "&" = map renderItem items /\
  Forall (fun kv => strings_Split (renderItem kv) "=" =
                    [QueryEscape (fst kv); QueryEscape (snd kv)]) items /\
  length items = length (strings_Split (Values_Encode (requestValues p)) "&") /\
  (forall s, forallb queryByte (list_ascii_of_string (QueryEscape s)) = true).
Proof.
  intros items.
  assert (Hsplit : strings_Split (Values_Encode (requestValues p)) "&" = map renderItem items).
  { unfold Values_Encode. apply (Split_concat (map renderItem items) "&"%char).
    - assert (Hin : In ("text_decorations", strconv_FormatBool (p_TextDecorations p)) items)
        by (apply requestValues_pairs; reflexivity).
      destruct items; [contradiction|discriminate].
    - apply Forall_forall. intros s Hs. apply list_elem_of_In, in_map_iff in Hs.
      destruct Hs as (kv & <- & _). apply renderItem_no_amp. }
  split; [reflexivity|]. split; [exact Hsplit|]. split; [|split].
  - apply Forall_forall. intros kv _. apply renderItem_split.
  - rewrite Hsplit. now rewrite length_map.
  - apply QueryEscape_bytes.
Qed.
